(** * Bounded-latency OCR pipeline: a shallow embedding

    The development follows [enhanced_ocr_classes.py] (the OCR classes with
    their timeout, statistics and fast-path cache) and
    [complete_discord_ocr_integration.py] (performance monitor, adaptive
    controller, configuration loading and the main processing loop).

    Python [float] is IEEE 754 binary64, embedded as Rocq's primitive
    [float]; Python [int] is [Z]; [str] is [string]; a [dict] with a fixed
    set of keys is a record, the configuration [dict] is a [gmap], and the
    insertion-ordered cache [dict] is an association list. Methods take
    the object and return it with their result; code that can raise
    returns the exception next to the state it left behind. What the
    outside world does (the worker thread, the executor's futures, screen
    capture, the clock, files) is an argument of the function that meets
    it. *)

From Stdlib Require Import ZArith Floats Lia Bool Ascii String.
From stdpp Require Import gmap strings list.

#[local] Set Warnings "-inexact-float,-register-all".

(** * Python primitives *)

Module Py.

(** [min(a, b)] and [max(a, b)] as CPython evaluates them: the first
    argument is kept unless the second compares strictly below (above). *)
Definition min (a b : float) : float := if PrimFloat.ltb b a then b else a.
Definition max (a b : float) : float := if PrimFloat.ltb a b then b else a.

Inductive exn :=
  | ZeroDivisionError | IndexError | KeyError | TypeError | Exception
  | OverflowError | ValueError.

(** [float(n)] for a Python integer, as also done to the integer operand
    of an arithmetic operation with a float: the nearest binary64 value,
    ties to even; an integer too large for a float raises. *)
Definition float_of_int (n : Z) : exn + float :=
  match binary_normalize prec emax n 0 false with
  | S754_infinity _ => inl OverflowError
  | x => inr (SF2Prim x)
  end.



(** How a float compares with an integer: exactly, without converting the
    integer; [None] for a NaN. *)
Definition compare_int (x : float) (n : Z) : option comparison :=
  match Prim2SF x with
  | S754_nan => None
  | S754_infinity s => Some (if s then Lt else Gt)
  | S754_zero _ => Some (0 ?= n)%Z
  | S754_finite s m e =>
      let v := if s then Zneg m else Zpos m in
      Some (if (0 <=? e)%Z then (v * 2 ^ e ?= n)%Z
            else (v ?= n * 2 ^ (- e))%Z)
  end.


(** Truth value of a string: non-empty. *)
Definition truthy (s : string) : bool :=
  match s with EmptyString => false | _ => true end.

(** Truth value of [hash(...)] results: [None] and [0] are false. *)
Definition truthy_hash (h : option Z) : bool :=
  match h with None => false | Some n => negb (n =? 0)%Z end.

(** [c.isspace()] for a code point below 256. *)
Definition isspace (c : ascii) : bool :=
  let n := nat_of_ascii c in
  ((9 <=? n) && (n <=? 13) || (28 <=? n) && (n <=? 32)
   || (n =? 133) || (n =? 160))%nat.

(** [bool(s.strip())]: some character is not white space. *)
Fixpoint strip_truthy (s : string) : bool :=
  match s with
  | EmptyString => false
  | String c rest => if isspace c then strip_truthy rest else true
  end.

(** A value as it comes out of a JSON document (or a default): [Other]
    stands for lists and objects, with their truth value. *)
Inductive value :=
  | VNone
  | VBool (b : bool)
  | VInt (n : Z)
  | VFloat (x : float)
  | VStr (s : string)
  | VOther (nonempty : bool).

Definition truth (v : value) : bool :=
  match v with
  | VNone => false
  | VBool b => b
  | VInt n => negb (n =? 0)%Z
  | VFloat x => negb (PrimFloat.eqb x 0)
  | VStr s => truthy s
  | VOther nonempty => nonempty
  end.

(** The operand of an arithmetic operation with a float; anything but a
    number raises, and so does an integer too large for a float. *)
Definition number (v : value) : exn + float :=
  match v with
  | VBool b => inr (if b then 1%float else 0%float)
  | VInt n => float_of_int n
  | VFloat x => inr x
  | _ => inl TypeError
  end.

(** [x < v] and [x > v] for a float [x]; anything but a number raises. *)
Definition lt (x : float) (v : value) : exn + bool :=
  let below (n : Z) :=
    match compare_int x n with Some Lt => true | _ => false end in
  match v with
  | VBool b => inr (below (if b then 1 else 0)%Z)
  | VInt n => inr (below n)
  | VFloat y => inr (PrimFloat.ltb x y)
  | _ => inl TypeError
  end.

Definition gt (x : float) (v : value) : exn + bool :=
  let above (n : Z) :=
    match compare_int x n with Some Gt => true | _ => false end in
  match v with
  | VBool b => inr (above (if b then 1 else 0)%Z)
  | VInt n => inr (above n)
  | VFloat y => inr (PrimFloat.ltb y x)
  | _ => inl TypeError
  end.

(** A JSON document as [json.load] returns it. *)
Inductive json :=
  | JNull
  | JBool (b : bool)
  | JInt (n : Z)
  | JFloat (x : float)
  | JStr (s : string)
  | JArray (items : list json)
  | JObject (members : list (string * json)).

Definition of_json (j : json) : value :=
  match j with
  | JNull => VNone
  | JBool b => VBool b
  | JInt n => VInt n
  | JFloat x => VFloat x
  | JStr s => VStr s
  | JArray items => VOther (match items with [] => false | _ => true end)
  | JObject members => VOther (match members with [] => false | _ => true end)
  end.

(** The dictionary of a JSON object: a repeated key keeps its last value. *)
Definition object (members : list (string * json)) : gmap string value :=
  list_to_map (reverse (map (fun kv => (kv.1, of_json kv.2)) members)).

(** The keys of that dictionary in the order it iterates them. *)
Definition object_keys (members : list (string * json)) : list string :=
  reverse (remove_dups (reverse (map fst members))).

(** The key and the value that [dict.update] takes from one element of a
    sequence: the element must itself be a sequence of length two. *)
Definition pair_of (element : json) : exn + json * json :=
  match element with
  | JArray [k; v] => inr (k, v)
  | JArray _ => inl ValueError
  | JStr (String a (String b EmptyString)) =>
      inr (JStr (String a EmptyString), JStr (String b EmptyString))
  | JStr _ => inl ValueError
  | JObject members =>
      match object_keys members with
      | [k; v] => inr (JStr k, JStr v)
      | _ => inl ValueError
      end
  | _ => inl TypeError
  end.

(** [d.update(other)] on the elements of a sequence, for the string keys
    of [d]: the exception that stops it, if any, and the dictionary as it
    is then. An entry stored under a key that is not a string changes no
    string key (nothing here reads such a key), and a key that is an
    array or an object cannot be hashed. *)
Fixpoint update_from (items : list json) (d : gmap string value)
    : option exn * gmap string value :=
  match items with
  | [] => (None, d)
  | element :: rest =>
      match pair_of element with
      | inl e => (Some e, d)
      | inr (JStr key, v) => update_from rest (<[key := of_json v]> d)
      | inr (JArray _, _) => (Some TypeError, d)
      | inr (JObject _, _) => (Some TypeError, d)
      | inr (_, _) => update_from rest d
      end
  end.

(** [d.update(other)] for a parsed JSON document: an object is merged, an
    array is taken as a sequence of pairs, a string as the sequence of
    its characters (none of which is a pair), and anything else cannot be
    iterated. *)
Definition update (d : gmap string value) (other : json)
    : option exn * gmap string value :=
  match other with
  | JObject members => (None, object members ∪ d)
  | JArray items => update_from items d
  | JStr EmptyString => (None, d)
  | JStr _ => (Some ValueError, d)
  | _ => (Some TypeError, d)
  end.

(** [d[key]] on a plain dictionary. *)
Definition item (d : gmap string value) (key : string) : exn + value :=
  match d !! key with
  | Some v => inr v
  | None => inl KeyError
  end.

(** [try: body except Exception: handler] over a state: whatever the body
    changed before raising stays changed. *)
Definition try_except {S : Type} (body handler : S -> option exn * S)
    (s : S) : option exn * S :=
  match body s with
  | (None, s') => (None, s')
  | (Some _, s') => handler s'
  end.

End Py.

(** * Python string methods *)

Module Str.

(** [len(s)] *)
Definition len (s : string) : Z := Z.of_nat (String.length s).

(** [s.lstrip()], [s.rstrip()] and [s.strip()] with no argument. *)
Fixpoint lstrip (s : string) : string :=
  match s with
  | EmptyString => EmptyString
  | String c rest => if Py.isspace c then lstrip rest else s
  end.

Fixpoint rstrip (s : string) : string :=
  match s with
  | EmptyString => EmptyString
  | String c rest =>
      match rstrip rest with
      | EmptyString => if Py.isspace c then EmptyString else String c EmptyString
      | kept => String c kept
      end
  end.

Definition strip (s : string) : string := rstrip (lstrip s).

(** [s[:n]] for a non-negative [n]. *)
Fixpoint prefix (n : nat) (s : string) : string :=
  match n, s with
  | S n', String c rest => String c (prefix n' rest)
  | _, _ => EmptyString
  end.

(** The line feed character. *)
Definition newline : ascii := ascii_of_nat 10.

(** [s.replace('\n\n', '\n')]: left to right, without overlap. *)
Fixpoint collapse_blank_lines (s : string) : string :=
  match s with
  | EmptyString => EmptyString
  | String a rest =>
      match rest with
      | String b rest' =>
          if Ascii.eqb a newline && Ascii.eqb b newline
          then String newline (collapse_blank_lines rest')
          else String a (collapse_blank_lines rest)
      | EmptyString => String a EmptyString
      end
  end.

End Str.

(** * [PerformanceMonitor] *)

Record Metrics := {
  fps : float;
  cpu_usage : float;
  memory_usage : float;
  ocr_success_rate : float;
  avg_processing_time : float;
  frames_processed : Z;
  frames_skipped : Z;
  error_count : Z
}.

Module PerformanceMonitor.

Definition __init__ : Metrics :=
  {| fps := 0; cpu_usage := 0; memory_usage := 0; ocr_success_rate := 0;
     avg_processing_time := 0; frames_processed := 0; frames_skipped := 0;
     error_count := 0 |}.

Definition update_ocr_metrics (metrics : Metrics)
    (processing_time : float) (success : bool) : Metrics :=
  let metrics :=
    {| fps := fps metrics; cpu_usage := cpu_usage metrics;
       memory_usage := memory_usage metrics;
       ocr_success_rate := ocr_success_rate metrics;
       avg_processing_time := avg_processing_time metrics;
       frames_processed := frames_processed metrics + 1;
       frames_skipped := frames_skipped metrics;
       error_count := error_count metrics |} in
  if success then
    let current_rate := ocr_success_rate metrics in
    let current_time := avg_processing_time metrics in
    {| fps := fps metrics; cpu_usage := cpu_usage metrics;
       memory_usage := memory_usage metrics;
       ocr_success_rate := (current_rate * 0.95 + (100 * 0.05))%float;
       avg_processing_time :=
         (current_time * 0.9 + (processing_time * 0.1))%float;
       frames_processed := frames_processed metrics;
       frames_skipped := frames_skipped metrics;
       error_count := error_count metrics |}
  else
    let current_rate := ocr_success_rate metrics in
    {| fps := fps metrics; cpu_usage := cpu_usage metrics;
       memory_usage := memory_usage metrics;
       ocr_success_rate := (current_rate * 0.95)%float;
       avg_processing_time := avg_processing_time metrics;
       frames_processed := frames_processed metrics;
       frames_skipped := frames_skipped metrics + 1;
       error_count := error_count metrics + 1 |}.

(** The sampling thread ([_monitor_loop]) overwrites the two process
    gauges once a second. *)
Definition sample (metrics : Metrics) (cpu mem : float) : Metrics :=
  {| fps := fps metrics; cpu_usage := cpu; memory_usage := mem;
     ocr_success_rate := ocr_success_rate metrics;
     avg_processing_time := avg_processing_time metrics;
     frames_processed := frames_processed metrics;
     frames_skipped := frames_skipped metrics;
     error_count := error_count metrics |}.

(** [get_recommendations]: one advisory per threshold crossed, in the
    order checked. *)
Definition get_recommendations (metrics : Metrics) : list string :=
  let recommendations := [] in
  let recommendations :=
    if (80 <? cpu_usage metrics)%float
    then recommendations
           ++ ["High CPU usage - consider reducing OCR frequency"]
    else recommendations in
  let recommendations :=
    if (500 <? memory_usage metrics)%float
    then recommendations
           ++ ["High memory usage - consider clearing cache or restarting"]
    else recommendations in
  let recommendations :=
    if (ocr_success_rate metrics <? 60)%float
    then recommendations
           ++ ["Low OCR success rate - check image quality and preprocessing"]
    else recommendations in
  let recommendations :=
    if (3.0 <? avg_processing_time metrics)%float
    then recommendations
           ++ ["Slow OCR processing - consider using faster OCR engine"]
    else recommendations in
  let recommendations :=
    if (error_count metrics >? 10)%Z
    then recommendations ++ ["High error count - check system stability"]
    else recommendations in
  recommendations.

(** What one pass of [_monitor_loop] finds: both gauges and the time, or
    an exception from the process probe before or after the CPU gauge was
    stored. *)
Inductive probe :=
  | Probed (cpu mem now : float)
  | MemoryFailed (cpu : float)
  | ProbeFailed.

(** The monitor with its history: [(timestamp, metrics)] entries, oldest
    first. *)
Record t := {
  metrics : Metrics;
  history : list (float * Metrics);
  max_history : Z
}.

Definition create : t :=
  {| metrics := __init__; history := []; max_history := 300 |}.

(** One pass of the body of [_monitor_loop]. *)
Definition monitor_pass (self : t) (p : probe) : t :=
  match p with
  | Probed cpu mem now =>
      let metrics := sample (metrics self) cpu mem in
      let history := history self ++ [(now, metrics)] in
      let history :=
        if (Z.of_nat (length history) >? max_history self)%Z
        then tail history else history in
      {| metrics := metrics; history := history;
         max_history := max_history self |}
  | MemoryFailed cpu =>
      {| metrics := sample (metrics self) cpu (memory_usage (metrics self));
         history := history self; max_history := max_history self |}
  | ProbeFailed => self
  end.

Definition _monitor_loop (self : t) (probes : list probe) : t :=
  fold_left monitor_pass probes self.

(** Outcomes recorded one after another. *)
Definition record_all (metrics : Metrics) (outcomes : list (float * bool))
    : Metrics :=
  fold_left (fun m o => update_ocr_metrics m o.1 o.2) outcomes metrics.

End PerformanceMonitor.

(** * [AdaptiveOCRController] *)

Record Controller := {
  current_interval : float;
  min_interval : float;
  max_interval : float;
  adjustment_factor : float
}.

(** The [adjustments] dictionary: each key is present or absent. *)
Record Adjustments := {
  interval_increased : option float;
  interval_decreased : option float;
  suggested_timeout : float
}.

Module AdaptiveOCRController.

Definition __init__ : Controller :=
  {| current_interval := 2.0; min_interval := 0.5; max_interval := 10.0;
     adjustment_factor := 0.1 |}.

Definition set_interval (self : Controller) (x : float) : Controller :=
  {| current_interval := x; min_interval := min_interval self;
     max_interval := max_interval self;
     adjustment_factor := adjustment_factor self |}.

Definition suggest_timeout (metrics : Metrics) : float :=
  if (2.0 <? avg_processing_time metrics)%float
  then (avg_processing_time metrics + 1.0)%float
  else 3.0%float.

Definition adjust_parameters (self : Controller) (metrics : Metrics)
    : Adjustments * Controller :=
  if (80 <? cpu_usage metrics)%float then
    let self := set_interval self
      (Py.min (current_interval self * (1 + adjustment_factor self))%float
              (max_interval self)) in
    ({| interval_increased := Some (current_interval self);
        interval_decreased := None;
        suggested_timeout := suggest_timeout metrics |}, self)
  else if (cpu_usage metrics <? 40)%float
          && (min_interval self <? current_interval self)%float then
    let self := set_interval self
      (Py.max (current_interval self * (1 - adjustment_factor self))%float
              (min_interval self)) in
    ({| interval_increased := None;
        interval_decreased := Some (current_interval self);
        suggested_timeout := suggest_timeout metrics |}, self)
  else
    ({| interval_increased := None; interval_decreased := None;
        suggested_timeout := suggest_timeout metrics |}, self).

(** The controller driven over successive metric snapshots. *)
Fixpoint run (self : Controller) (snapshots : list Metrics) : Controller :=
  match snapshots with
  | [] => self
  | metrics :: rest => run (snd (adjust_parameters self metrics)) rest
  end.

End AdaptiveOCRController.

(** * Insertion-ordered dictionaries

    A Python [dict] iterates in insertion order; assigning to a key that is
    already present keeps its position. [text_cache] maps image hashes to
    recognised text. *)

Module Dict.

Definition t := list (Z * string).

Definition keys (d : t) : list Z := map fst d.

Fixpoint get (k : Z) (d : t) : option string :=
  match d with
  | [] => None
  | (k', v) :: rest => if (k =? k')%Z then Some v else get k rest
  end.

Definition contains (k : Z) (d : t) : bool :=
  match get k d with Some _ => true | None => false end.

(** [d[k] = v] *)
Fixpoint set (k : Z) (v : string) (d : t) : t :=
  match d with
  | [] => [(k, v)]
  | (k', v') :: rest =>
      if (k =? k')%Z then (k, v) :: rest else (k', v') :: set k v rest
  end.

(** [del d[k]] *)
Fixpoint del (k : Z) (d : t) : Py.exn + t :=
  match d with
  | [] => inl Py.KeyError
  | (k', v') :: rest =>
      if (k =? k')%Z then inr rest
      else match del k rest with
           | inr rest' => inr ((k', v') :: rest')
           | inl e => inl e
           end
  end.

(** [list(d.keys())[0]] *)
Definition first_key (d : t) : Py.exn + Z :=
  match d with
  | [] => inl Py.IndexError
  | (k, _) :: _ => inr k
  end.

End Dict.

(** * [WorkingQuickOCR] *)

(** What the worker thread of one [ocr_with_timeout] call is observed to
    have done when [join(timeout)] returns. *)
Inductive worker :=
  | Alive                                    (* [is_alive()]: deadline passed *)
  | Failed (error_msg : string)              (* an entry on [error_queue] *)
  | Done (text : string) (processing_time : float)
                                             (* stripped text on [result_queue];
                                                [time.time() - start_time] *)
  | Vanished                                 (* both queues empty *)
  | Crashed.                                 (* exception in the calling thread *)

(** An image as far as the OCR classes can tell: its 8x8 hash ([None] when
    the resize raises) and what recognising it does. *)
Record Image := {
  fingerprint : option Z;
  recognition : worker
}.

Module WorkingQuickOCR.

Record stats := {
  total_calls : Z;
  successful_calls : Z;
  timeout_calls : Z;
  avg_processing_time : float
}.

Record t := {
  timeout : float;
  performance_stats : stats
}.

Definition __init__ (timeout : float) : t :=
  {| timeout := timeout;
     performance_stats :=
       {| total_calls := 0; successful_calls := 0; timeout_calls := 0;
          avg_processing_time := 0 |} |}.

Definition set_stats (self : t) (s : stats) : t :=
  {| timeout := timeout self; performance_stats := s |}.

Definition ocr_with_timeout (self : t) (image : Image) : string * t :=
  let s := performance_stats self in
  let s := {| total_calls := total_calls s + 1;
              successful_calls := successful_calls s;
              timeout_calls := timeout_calls s;
              avg_processing_time := avg_processing_time s |} in
  match recognition image with
  | Alive =>
      ("", set_stats self
             {| total_calls := total_calls s;
                successful_calls := successful_calls s;
                timeout_calls := timeout_calls s + 1;
                avg_processing_time := avg_processing_time s |})
  | Failed _ => ("", set_stats self s)
  | Done result processing_time =>
      (result, set_stats self
             {| total_calls := total_calls s;
                successful_calls := successful_calls s + 1;
                timeout_calls := timeout_calls s;
                avg_processing_time :=
                  (avg_processing_time s * 0.9 + processing_time * 0.1)%float |})
  | Vanished => ("", set_stats self s)
  | Crashed => ("", set_stats self s)
  end.




(** What importing and constructing an optional OCR backend does. *)
Inductive backend := Available | NotInstalled | Broken.

(** The attributes [_setup_ocr_engine] works on: the engine name and which
    of the backend attributes exist on the object afterwards. *)
Record engine_setup := {
  engine : string;
  tesseract_config : option string;
  easyocr_reader : bool;
  paddleocr : bool
}.

Definition requested (engine : string) : engine_setup :=
  {| engine := engine; tesseract_config := None; easyocr_reader := false;
     paddleocr := false |}.

Definition _setup_ocr_engine (self : engine_setup) (easyocr paddle : backend)
    : Py.exn + engine_setup :=
  let tesseract (self : engine_setup) :=
    {| engine := engine self; tesseract_config := Some "--oem 3 --psm 6";
       easyocr_reader := easyocr_reader self; paddleocr := paddleocr self |} in
  let fall_back (self : engine_setup) :=
    {| engine := "tesseract"; tesseract_config := tesseract_config self;
       easyocr_reader := easyocr_reader self; paddleocr := paddleocr self |} in
  if String.eqb (engine self) "tesseract" then inr (tesseract self)
  else if String.eqb (engine self) "easyocr" then
    match easyocr with
    | Available =>
        inr {| engine := engine self; tesseract_config := tesseract_config self;
               easyocr_reader := true; paddleocr := paddleocr self |}
    | NotInstalled => inr (tesseract (fall_back self))
    | Broken => inr (tesseract (fall_back self))
    end
  else if String.eqb (engine self) "paddleocr" then
    match paddle with
    | Available =>
        inr {| engine := engine self; tesseract_config := tesseract_config self;
               easyocr_reader := easyocr_reader self; paddleocr := true |}
    | NotInstalled => inr (fall_back self)
    | Broken => inl Py.Exception
    end
  else inr self.

(** Whether [ocr_worker] finds the attribute its branch reads: the
    Tesseract configuration (also in the final [else]), the EasyOCR reader
    or the PaddleOCR object. A missing attribute raises inside the worker,
    which reports it on [error_queue]. *)
Definition worker_equipped (self : engine_setup) : bool :=
  if String.eqb (engine self) "tesseract" then
    match tesseract_config self with Some _ => true | None => false end
  else if String.eqb (engine self) "easyocr" then easyocr_reader self
  else if String.eqb (engine self) "paddleocr" then paddleocr self
  else match tesseract_config self with Some _ => true | None => false end.

(** A sequence of calls on one object. *)
Fixpoint recognise_all (self : t) (images : list Image) : list string * t :=
  match images with
  | [] => ([], self)
  | image :: rest =>
      let '(result, self) := ocr_with_timeout self image in
      let '(results, self) := recognise_all self rest in
      (result :: results, self)
  end.

End WorkingQuickOCR.

(** * [WorkingFastScreenOCR] *)

Module WorkingFastScreenOCR.

Record t := {
  base : WorkingQuickOCR.t;
  cache_size : Z;
  text_cache : Dict.t
}.

Definition __init__ (timeout : float) (cache_size : Z) : t :=
  {| base := WorkingQuickOCR.__init__ timeout; cache_size := cache_size;
     text_cache := [] |}.

Definition _calculate_image_hash (image : Image) : option Z :=
  fingerprint image.

Definition _is_similar_to_cached (self : t) (current_hash : option Z) : bool :=
  match current_hash with
  | None => false
  | Some h =>
      if negb (Py.truthy_hash current_hash)
         || match text_cache self with [] => true | _ => false end
      then false
      else if Dict.contains h (text_cache self) then true
      else false
  end.

(** The body of [if image_hash and result:]: store, then trim to size.
    An exception leaves the dictionary as it was when raised. *)
Definition store (cache_size : Z) (image_hash : Z) (result : string)
    (text_cache : Dict.t) : option Py.exn * Dict.t :=
  let text_cache := Dict.set image_hash result text_cache in
  if (Z.of_nat (length text_cache) >? cache_size)%Z then
    match Dict.first_key text_cache with
    | inl e => (Some e, text_cache)
    | inr oldest_key =>
        match Dict.del oldest_key text_cache with
        | inr trimmed => (None, trimmed)
        | inl e => (Some e, text_cache)
        end
    end
  else (None, text_cache).

Definition fast_ocr (self : t) (image : Image) (force_process : bool)
    : string * t :=
  let image_hash := _calculate_image_hash image in
  if negb force_process && _is_similar_to_cached self image_hash then
    match image_hash with
    | Some h =>
        (match Dict.get h (text_cache self) with
         | Some text => text
         | None => ""
         end, self)
    | None => ("", self)
    end
  else
    let '(result, base) := WorkingQuickOCR.ocr_with_timeout (base self) image in
    let self := {| base := base; cache_size := cache_size self;
                   text_cache := text_cache self |} in
    match image_hash with
    | Some h =>
        if Py.truthy_hash image_hash && Py.truthy result then
          let '(raised, text_cache) :=
            store (cache_size self) h result (text_cache self) in
          let self := {| base := base; cache_size := cache_size self;
                         text_cache := text_cache |} in
          match raised with
          | None => (result, self)
          | Some _ => ("", self)
          end
        else (result, self)
    | None => (result, self)
    end.

(** A sequence of calls on one object; the results, then the object. *)
Fixpoint calls (self : t) (requests : list (Image * bool))
    : list string * t :=
  match requests with
  | [] => ([], self)
  | (image, force_process) :: rest =>
      let '(result, self) := fast_ocr self image force_process in
      let '(results, self) := calls self rest in
      (result :: results, self)
  end.

(** What [future.result(timeout=self.timeout + 1)] does for one
    submitted [fast_ocr] call. *)
Inductive future :=
  | Returned (result : string)
  | TimeoutError
  | Raised.

(** [batch_ocr]: [submit i img] is the future the executor hands back for
    the [i]-th image. Futures are distinct objects, so the dictionary
    keyed by them has one entry per image, in submission order. *)
Definition batch_ocr (submit : nat -> Image -> future) (images : list Image)
    : list string :=
  match images with
  | [] => []
  | _ =>
      let future_to_image := imap (fun i img => (submit i img, img)) images in
      fold_left
        (fun results entry =>
           match fst entry with
           | Returned result => results ++ [result]
           | TimeoutError => results ++ [""]
           | Raised => results ++ [""]
           end)
        future_to_image []
  end.

End WorkingFastScreenOCR.

(** * [DiscordOptimizedOCR] *)

Module DiscordOptimizedOCR.

Record t := {
  base : WorkingFastScreenOCR.t;
  min_text_length : Z
}.

Definition __init__ (timeout : float) : t :=
  {| base := WorkingFastScreenOCR.__init__ timeout 50; min_text_length := 3 |}.

(** [extract_discord_text]; [preprocess_discord_image] is the image
    library's work and catches its own exceptions. The fast-path cache is
    not consulted. *)
Definition extract_discord_text (preprocess_discord_image : Image -> Image)
    (self : t) (image : Image) : string * t :=
  let processed := preprocess_discord_image image in
  let '(text, quick) :=
    WorkingQuickOCR.ocr_with_timeout
      (WorkingFastScreenOCR.base (base self)) processed in
  let self :=
    {| base :=
         {| WorkingFastScreenOCR.base := quick;
            WorkingFastScreenOCR.cache_size :=
              WorkingFastScreenOCR.cache_size (base self);
            WorkingFastScreenOCR.text_cache :=
              WorkingFastScreenOCR.text_cache (base self) |};
       min_text_length := min_text_length self |} in
  if Py.truthy text && (Str.len (Str.strip text) >=? min_text_length self)%Z
  then (Str.strip (Str.collapse_blank_lines text), self)
  else ("", self).

End DiscordOptimizedOCR.

(** * Configuration files *)

(** What reading a JSON configuration file amounts to: the file is not
    there, reading or parsing it raises, it holds an object (given by its
    dictionary), or it holds some other JSON document: an array, a
    string, a number, [true], [false] or [null]. *)
Inductive config_file :=
  | Absent
  | Unreadable
  | Parsed (user_config : gmap string Py.value)
  | NotObject (document : Py.json).

(** What writing a configuration file does: written in full, not opened
    (the old content stays), cut short while writing, or the directory
    could not be made (raised before the [try]). *)
Inductive disk := Written | NotOpened | CutShort | NoDirectory.

(** * [DiscordScreenshareOCR] *)

Module DiscordScreenshareOCR.

Record t := {
  discord_webhook_url : Py.value;
  ocr_interval : Py.value;
  translation_enabled : Py.value
}.

(** The attributes as set before the file is read. *)
Definition defaults : t :=
  {| discord_webhook_url := Py.VNone; ocr_interval := Py.VFloat 2.0;
     translation_enabled := Py.VBool false |}.

(** [load_config]; a document that is not an object has no [get], and
    the exception is logged like any other. *)
Definition load_config (self : t) (file : config_file) : option Py.exn * t :=
  let read (config : gmap string Py.value) :=
    {| discord_webhook_url := default Py.VNone (config !! "webhook_url");
       ocr_interval := default (Py.VFloat 2.0) (config !! "ocr_interval");
       translation_enabled :=
         default (Py.VBool false) (config !! "translation_enabled") |} in
  match file with
  | Parsed config => (None, read config)
  | NotObject (Py.JObject members) => (None, read (Py.object members))
  | NotObject _ => (None, self)
  | Absent => (None, self)
  | Unreadable => (None, self)
  end.

Definition __init__ (file : config_file) : t :=
  snd (load_config defaults file).

Definition set_ocr_interval (self : t) (v : Py.value) : t :=
  {| discord_webhook_url := discord_webhook_url self; ocr_interval := v;
     translation_enabled := translation_enabled self |}.

(** [save_config]: the exception that escapes, if any, and the file left
    behind. *)
Definition save_config (self : t) (previous : config_file) (d : disk)
    : option Py.exn * config_file :=
  let config : gmap string Py.value :=
    <["translation_enabled" := translation_enabled self]>
      (<["ocr_interval" := ocr_interval self]>
         (<["webhook_url" := discord_webhook_url self]> ∅)) in
  match d with
  | Written => (None, Parsed config)
  | NotOpened => (None, previous)
  | CutShort => (None, Unreadable)
  | NoDirectory => (Some Py.Exception, previous)
  end.

Record stats := {
  frames_processed : Z;
  ocr_calls : Z;
  avg_processing_time : float;
  memory_usage : float
}.

(** An entry of [ocr_results]. *)
Record result := {
  timestamp : float;
  text : string;
  processing_time : float
}.

(** The object while the loop runs. *)
Record state := {
  settings : t;
  last_ocr_text : string;
  ocr_results : list result;
  performance_stats : stats
}.

Definition start (settings : t) : state :=
  {| settings := settings; last_ocr_text := ""; ocr_results := [];
     performance_stats :=
       {| frames_processed := 0; ocr_calls := 0; avg_processing_time := 0;
          memory_usage := 0 |} |}.

Definition with_stats (self : state) (s : stats) : state :=
  {| settings := settings self; last_ocr_text := last_ocr_text self;
     ocr_results := ocr_results self; performance_stats := s |}.

(** [perform_ocr_with_timeout]; [clock] is [time.time() - start_time] when
    the worker left no time of its own. An error is noticed only through
    a non-empty message. *)
Definition perform_ocr_with_timeout (self : state) (image : Image)
    (clock : float) : string * state :=
  let timed (processing_time : float) :=
    let s := performance_stats self in
    with_stats self
      {| frames_processed := frames_processed s; ocr_calls := ocr_calls s;
         avg_processing_time :=
           (avg_processing_time s * 0.9 + processing_time * 0.1)%float;
         memory_usage := memory_usage s |} in
  match recognition image with
  | Alive => ("", self)
  | Failed error_msg =>
      if Py.truthy error_msg then ("", self) else ("", timed clock)
  | Done text processing_time => (text, timed processing_time)
  | Vanished => ("", timed clock)
  | Crashed => ("", self)
  end.

(** What the translation service answers: a JSON object with or without
    [translatedText], or anything else (other status, exception). *)
Inductive translation :=
  | Answered (translatedText : option string)
  | Unanswered.

Definition translate_text (self : state) (text : string) (answer : translation)
    : string :=
  if negb (Py.truth (translation_enabled (settings self)))
     || negb (Py.strip_truthy text)
  then text
  else
    match answer with
    | Answered translatedText =>
        String.append "Original: "
          (String.append text
             (String.append (String (Str.newline)
                               (String (Str.newline) "Translated: "))
                (default text translatedText)))
    | Unanswered => text
    end.

(** Whether [send_to_discord] posts to the webhook. *)
Definition send_to_discord (self : state) (text : string) : bool :=
  Py.truth (discord_webhook_url (settings self)) && Py.strip_truthy text.

(** What the collaborators do during one pass of [ocr_processing_loop]. *)
Record Pass := {
  screen_image : option Image;       (* [capture_discord_screen()] *)
  ocr_clock : float;                 (* elapsed when recognition returns *)
  answer : translation;
  stored_at : float;                 (* [datetime.now()] *)
  stored_after : float;              (* elapsed when the result is stored *)
  memory : option float;             (* the process probe, if it works *)
  elapsed : float                    (* elapsed at the end of the pass *)
}.

(** The body of [try] in [ocr_processing_loop]: the exception raised, if
    any, the state, and the time slept. *)
Definition pass_body (env : Pass) (self : state)
    : option Py.exn * state * float :=
  let self :=
    match screen_image env with
    | None => self
    | Some image =>
        let s := performance_stats self in
        let self := with_stats self
          {| frames_processed := frames_processed s + 1;
             ocr_calls := ocr_calls s;
             avg_processing_time := avg_processing_time s;
             memory_usage := memory_usage s |} in
        let '(ocr_text, self) :=
          perform_ocr_with_timeout self image (ocr_clock env) in
        if Py.truthy ocr_text && negb (String.eqb ocr_text (last_ocr_text self))
        then
          let s := performance_stats self in
          let final_text := translate_text self ocr_text (answer env) in
          let results :=
            ocr_results self
            ++ [{| timestamp := stored_at env; text := final_text;
                   processing_time := stored_after env |}] in
          let results :=
            if (Z.of_nat (length results) >? 100)%Z
            then drop (length results - 100) results else results in
          {| settings := settings self; last_ocr_text := ocr_text;
             ocr_results := results;
             performance_stats :=
               {| frames_processed := frames_processed s;
                  ocr_calls := ocr_calls s + 1;
                  avg_processing_time := avg_processing_time s;
                  memory_usage := memory_usage s |} |}
        else self
    end in
  let self :=
    match memory env with
    | Some mb =>
        let s := performance_stats self in
        with_stats self
          {| frames_processed := frames_processed s; ocr_calls := ocr_calls s;
             avg_processing_time := avg_processing_time s;
             memory_usage := mb |}
    | None => self
    end in
  match Py.number (ocr_interval (settings self)) with
  | inl e => (Some e, self, 1%float)
  | inr seconds => (None, self, Py.max 0 (seconds - elapsed env))
  end.

Definition ocr_processing_loop (envs : list Pass) (self : state) : state :=
  fold_left (fun self env => (pass_body env self).1.2) envs self.

End DiscordScreenshareOCR.

(** * [IntegratedDiscordOCRSystem] *)

(** What the collaborators do during one iteration of the processing
    loop. The three OCR attributes are duck-typed (each may be bound to a
    fallback object), so an engine call is whatever it returns or raises. *)
Record Cycle := {
  gauges : float * float;             (* CPU and memory last sampled *)
  current_time : float;               (* [time.time()] at the top *)
  capture : Py.exn + option Image;    (* [capture_discord_screen()] *)
  invoke : string -> Image -> Py.exn + string;
                                      (* the selected engine on the frame *)
  finished : float;                   (* [time.time()] after extraction *)
  dispatch : option Py.exn            (* overlay update and delivery *)
}.

Module IntegratedDiscordOCRSystem.

Definition default_config : gmap string Py.value :=
  list_to_map
    [("ocr_engine", Py.VStr "tesseract");
     ("ocr_timeout", Py.VFloat 3.0);
     ("ocr_interval", Py.VFloat 2.0);
     ("discord_bot_token", Py.VNone);
     ("discord_webhook_url", Py.VNone);
     ("enable_overlays", Py.VBool true);
     ("enable_performance_monitoring", Py.VBool true);
     ("enable_adaptive_control", Py.VBool true);
     ("max_cpu_usage", Py.VInt 80);
     ("max_memory_usage", Py.VInt 1000);
     ("log_level", Py.VStr "INFO")].

(** [default_config.update(user_config)] inside [try]; every failure is
    logged and [default_config] is returned as it is by then: untouched
    when the file could not be read or parsed, and with the pairs already
    applied when [update] stops on a document that is not an object. *)
Definition load_config (file : config_file)
    : Py.exn + gmap string Py.value :=
  match file with
  | Parsed user_config => inr (user_config ∪ default_config)
  | NotObject document => inr (snd (Py.update default_config document))
  | Absent => inr default_config
  | Unreadable => inr default_config
  end.

Record t := {
  config : gmap string Py.value;
  metrics : Metrics;
  controller : Controller;
  main_timeout : Py.value;          (* [WorkingQuickOCR(timeout=...)] *)
  fast_timeout : float;             (* [ocr_timeout * 0.8] *)
  discord_timeout : float;          (* [ocr_timeout * 0.6] *)
  main_system : DiscordScreenshareOCR.t;
  last_capture_time : float;
  invoked : list string;            (* engines called so far, latest first *)
  delivered : list (string * string)  (* results handed on, with engine *)
}.

(** [initialize_components] with every optional module importable: the
    three engines get their timeouts and the capture system, which reads
    its own file [main_file] when constructed, gets the interval. An
    exception here is logged and raised again. *)
Definition initialize_components (config : gmap string Py.value)
    (main_file : config_file) : Py.exn + t :=
  match Py.item config "ocr_timeout" with
  | inl e => inl e
  | inr ocr_timeout =>
      match Py.number ocr_timeout with
      | inl e => inl e
      | inr seconds =>
          match Py.item config "ocr_interval" with
          | inl e => inl e
          | inr ocr_interval =>
              inr {| config := config;
                     metrics := PerformanceMonitor.__init__;
                     controller := AdaptiveOCRController.__init__;
                     main_timeout := ocr_timeout;
                     fast_timeout := (seconds * 0.8)%float;
                     discord_timeout := (seconds * 0.6)%float;
                     main_system :=
                       DiscordScreenshareOCR.set_ocr_interval
                         (DiscordScreenshareOCR.__init__ main_file)
                         ocr_interval;
                     last_capture_time := 0;
                     invoked := [];
                     delivered := [] |}
          end
      end
  end.

Definition __init__ (file main_file : config_file) : Py.exn + t :=
  match load_config file with
  | inl e => inl e
  | inr config => initialize_components config main_file
  end.

(** The engine choice at the top of an extraction. *)
Definition select_engine (metrics : Metrics) : string :=
  if (70 <? cpu_usage metrics)%float then "fast"
  else if (avg_processing_time metrics <? 1.0)%float then "main"
  else "discord".

Definition with_metrics (self : t) (m : Metrics) : t :=
  {| config := config self; metrics := m; controller := controller self;
     main_timeout := main_timeout self; fast_timeout := fast_timeout self;
     discord_timeout := discord_timeout self;
     main_system := main_system self;
     last_capture_time := last_capture_time self;
     invoked := invoked self; delivered := delivered self |}.

Definition with_last_capture_time (self : t) (x : float) : t :=
  {| config := config self; metrics := metrics self;
     controller := controller self;
     main_timeout := main_timeout self; fast_timeout := fast_timeout self;
     discord_timeout := discord_timeout self;
     main_system := main_system self;
     last_capture_time := x;
     invoked := invoked self; delivered := delivered self |}.

Definition with_invoked (self : t) (engine : string) : t :=
  {| config := config self; metrics := metrics self;
     controller := controller self;
     main_timeout := main_timeout self; fast_timeout := fast_timeout self;
     discord_timeout := discord_timeout self;
     main_system := main_system self;
     last_capture_time := last_capture_time self;
     invoked := engine :: invoked self; delivered := delivered self |}.

Definition with_delivered (self : t) (text engine : string) : t :=
  {| config := config self; metrics := metrics self;
     controller := controller self;
     main_timeout := main_timeout self; fast_timeout := fast_timeout self;
     discord_timeout := discord_timeout self;
     main_system := main_system self;
     last_capture_time := last_capture_time self;
     invoked := invoked self;
     delivered := (text, engine) :: delivered self |}.

Definition with_control (self : t) (c : Controller)
    (cfg : gmap string Py.value) : t :=
  {| config := cfg; metrics := metrics self; controller := c;
     main_timeout := main_timeout self; fast_timeout := fast_timeout self;
     discord_timeout := discord_timeout self;
     main_system := main_system self;
     last_capture_time := last_capture_time self;
     invoked := invoked self; delivered := delivered self |}.

(** The [if screen_image is not None:] block. *)
Definition extract (env : Cycle) (start_time : float) (screen_image : Image)
    (self : t) : option Py.exn * t :=
  let ocr_engine_used := select_engine (metrics self) in
  let self := with_invoked self ocr_engine_used in
  match invoke env ocr_engine_used screen_image with
  | inl e => (Some e, self)
  | inr ocr_text =>
      let processing_time := (finished env - start_time)%float in
      let success := Py.truthy ocr_text && Py.strip_truthy ocr_text in
      let self := with_metrics self
        (PerformanceMonitor.update_ocr_metrics (metrics self)
           processing_time success) in
      if success then
        match dispatch env with
        | Some e => (Some e, self)
        | None => (None, with_delivered self ocr_text ocr_engine_used)
        end
      else (None, self)
  end.

(** Adaptive control and the resource checks that close an iteration. *)
Definition adapt (self : t) : option Py.exn * t :=
  match Py.item (config self) "enable_adaptive_control" with
  | inl e => (Some e, self)
  | inr enabled =>
      let self :=
        if Py.truth enabled then
          let '(_, c) :=
            AdaptiveOCRController.adjust_parameters (controller self)
              (metrics self) in
          with_control self c
            (<["ocr_interval" := Py.VFloat (current_interval c)]>
               (config self))
        else self in
      match Py.item (config self) "max_cpu_usage" with
      | inl e => (Some e, self)
      | inr max_cpu =>
          match Py.gt (cpu_usage (metrics self)) max_cpu with
          | inl e => (Some e, self)
          | inr _ =>
              match Py.item (config self) "max_memory_usage" with
              | inl e => (Some e, self)
              | inr max_memory =>
                  match Py.gt (memory_usage (metrics self)) max_memory with
                  | inl e => (Some e, self)
                  | inr _ => (None, self)
                  end
              end
          end
      end
  end.

(** The [try] block of one loop iteration. *)
Definition attempt (env : Cycle) (self : t) : option Py.exn * t :=
  match Py.item (config self) "ocr_interval" with
  | inl e => (Some e, self)
  | inr ocr_interval =>
      match Py.lt (current_time env - last_capture_time self)%float
              ocr_interval with
      | inl e => (Some e, self)
      | inr true => (None, self)
      | inr false =>
          let start_time := current_time env in
          let self := with_last_capture_time self (current_time env) in
          match capture env with
          | inl e => (Some e, self)
          | inr None => adapt self
          | inr (Some screen_image) =>
              match extract env start_time screen_image self with
              | (Some e, self) => (Some e, self)
              | (None, self) => adapt self
              end
          end
      end
  end.

(** The [except Exception] clause. *)
Definition recover (self : t) : option Py.exn * t :=
  (None, with_metrics self
           (PerformanceMonitor.update_ocr_metrics (metrics self) 0 false)).

Definition iteration (env : Cycle) (self : t) : option Py.exn * t :=
  let self := with_metrics self
    (PerformanceMonitor.sample (metrics self) (fst (gauges env))
       (snd (gauges env))) in
  Py.try_except (attempt env) recover self.

(** [while self.running:] over the iterations that take place. *)
Fixpoint _main_processing_loop (envs : list Cycle) (self : t)
    : option Py.exn * t :=
  match envs with
  | [] => (None, self)
  | env :: rest =>
      match iteration env self with
      | (Some e, self) => (Some e, self)
      | (None, self) => _main_processing_loop rest self
      end
  end.

End IntegratedDiscordOCRSystem.

(** * [DiscordOCRBot] *)

(** What sending to one channel does: [get_channel] finds nothing, the
    embed is sent, or building or sending it raises. *)
Inductive delivery := NoChannel | Sent | SendFailed.

(** What posting to the webhook does. *)
Inductive post := Status204 (at_time : float) | OtherStatus | PostFailed.

Module DiscordOCRBot.

(** [message_history] holds the send times, oldest first;
    [active_channels] is the set in the order it is iterated;
    [ocr_sessions] keeps the message count of each session. *)
Record t := {
  webhook_url : Py.value;
  message_history : list float;
  last_message_hash : option string;
  rate_limit_window : float;
  max_messages_per_window : Z;
  active_channels : list Z;
  ocr_sessions : gmap Z Z
}.

Definition __init__ (webhook_url : Py.value) : t :=
  {| webhook_url := webhook_url; message_history := [];
     last_message_hash := None; rate_limit_window := 60;
     max_messages_per_window := 10; active_channels := [];
     ocr_sessions := ∅ |}.

Definition with_history (self : t) (h : list float) : t :=
  {| webhook_url := webhook_url self; message_history := h;
     last_message_hash := last_message_hash self;
     rate_limit_window := rate_limit_window self;
     max_messages_per_window := max_messages_per_window self;
     active_channels := active_channels self;
     ocr_sessions := ocr_sessions self |}.

Definition with_hash (self : t) (h : string) : t :=
  {| webhook_url := webhook_url self; message_history := message_history self;
     last_message_hash := Some h;
     rate_limit_window := rate_limit_window self;
     max_messages_per_window := max_messages_per_window self;
     active_channels := active_channels self;
     ocr_sessions := ocr_sessions self |}.

Definition with_channels (self : t) (channels : list Z) (sessions : gmap Z Z)
    : t :=
  {| webhook_url := webhook_url self; message_history := message_history self;
     last_message_hash := last_message_hash self;
     rate_limit_window := rate_limit_window self;
     max_messages_per_window := max_messages_per_window self;
     active_channels := channels; ocr_sessions := sessions |}.

(** [deque(maxlen=100).append(x)] *)
Definition append (history : list float) (x : float) : list float :=
  let history := history ++ [x] in
  if (100 <? length history)%nat then tail history else history.

(** The [while] loop of [is_rate_limited]. *)
Fixpoint expire (cutoff : float) (history : list float) : list float :=
  match history with
  | [] => []
  | oldest :: rest =>
      if (oldest <? cutoff)%float then expire cutoff rest else history
  end.

Definition is_rate_limited (self : t) (now : float) : bool * t :=
  let cutoff := (now - rate_limit_window self)%float in
  let history := expire cutoff (message_history self) in
  ((Z.of_nat (length history) >=? max_messages_per_window self)%Z,
   with_history self history).

(** [md5] stands for [hashlib.md5(text.encode()).hexdigest()]. *)
Definition is_duplicate_message (md5 : string -> string) (self : t)
    (text : string) : bool * t :=
  let text_hash := md5 text in
  match last_message_hash self with
  | Some h => if String.eqb text_hash h then (true, self)
              else (false, with_hash self text_hash)
  | None => (false, with_hash self text_hash)
  end.

(** The text shown by [create_ocr_embed] inside the code fence. *)
Definition display_text (text : string) : string :=
  if (Str.len text >? 1000)%Z then String.append (Str.prefix 1000 text) "..."
  else text.

(** The [for] loop of [send_ocr_to_discord] over a snapshot of the
    channels. *)
Fixpoint send_to_channels (channel : Z -> delivery) (snapshot : list Z)
    (self : t) (sent_count : Z) : Z * t :=
  match snapshot with
  | [] => (sent_count, self)
  | channel_id :: rest =>
      match channel channel_id with
      | NoChannel => send_to_channels channel rest self sent_count
      | Sent =>
          let sessions :=
            match ocr_sessions self !! channel_id with
            | Some count => <[channel_id := (count + 1)%Z]> (ocr_sessions self)
            | None => ocr_sessions self
            end in
          send_to_channels channel rest
            (with_channels self (active_channels self) sessions)
            (sent_count + 1)%Z
      | SendFailed =>
          send_to_channels channel rest
            (with_channels self
               (filter (fun c => c <> channel_id) (active_channels self))
               (ocr_sessions self))
            sent_count
      end
  end.

Definition send_ocr_to_discord (md5 : string -> string) (self : t)
    (text : string) (now sent_at : float) (channel : Z -> delivery)
    : bool * t :=
  if negb (Py.truthy (Str.strip text)) || (Str.len (Str.strip text) <? 3)%Z
  then (false, self)
  else
    let '(limited, self) := is_rate_limited self now in
    if limited then (false, self)
    else
      let '(duplicate, self) := is_duplicate_message md5 self text in
      if duplicate then (false, self)
      else
        let self := with_history self (append (message_history self) sent_at) in
        let '(sent_count, self) :=
          send_to_channels channel (active_channels self) self 0 in
        ((sent_count >? 0)%Z, self).

Definition send_webhook_message (md5 : string -> string) (self : t)
    (text : string) (now : float) (response : post) : bool * t :=
  if negb (Py.truth (webhook_url self)) || negb (Py.truthy (Str.strip text))
  then (false, self)
  else
    let '(limited, self) := is_rate_limited self now in
    if limited then (false, self)
    else
      let '(duplicate, self) := is_duplicate_message md5 self text in
      if duplicate then (false, self)
      else
        match response with
        | Status204 at_time =>
            (true, with_history self (append (message_history self) at_time))
        | OtherStatus => (false, self)
        | PostFailed => (false, self)
        end.

End DiscordOCRBot.

(** * [UnifiedDiscordOCRIntegration] *)

(** What happens around one [send_ocr_result]: the clock readings, the
    channels, the webhook and whether the WebSocket broadcast raises. The
    coroutine is taken to run without another one touching the bot in
    between. *)
Record Outbox := {
  bot_now : float;
  bot_sent_at : float;
  channel : Z -> delivery;
  webhook_now : float;
  response : post;
  broadcast_raises : bool
}.

Module UnifiedDiscordOCRIntegration.

Definition send_ocr_result (md5 : string -> string) (bot : DiscordOCRBot.t)
    (text : string) (env : Outbox)
    : option (list (string * bool)) * DiscordOCRBot.t :=
  if negb (Py.truthy text) || negb (Py.truthy (Str.strip text))
  then (None, bot)
  else
    let results := [] in
    let '(bot_result, bot) :=
      DiscordOCRBot.send_ocr_to_discord md5 bot text (bot_now env)
        (bot_sent_at env) (channel env) in
    let results := results ++ [("bot", bot_result)] in
    let '(webhook_result, bot) :=
      DiscordOCRBot.send_webhook_message md5 bot text (webhook_now env)
        (response env) in
    let results := results ++ [("webhook", webhook_result)] in
    let results := results ++ [("websocket", negb (broadcast_raises env))] in
    (Some results, bot).

End UnifiedDiscordOCRIntegration.

(** * Predicates used in the statements *)

(** [x] is the positive normal binary64 number [m * 2^e]. *)
Definition normal_pos (x : float) (m : positive) (e : Z) : Prop :=
  Prim2SF x = S754_finite false m e /\ (2 ^ 52 <= Zpos m < 2 ^ 53)%Z.

(** The interval lies between the controller's two bounds. *)
Definition interval_in_range (self : Controller) : Prop :=
  (min_interval self <=? current_interval self)%float = true
  /\ (current_interval self <=? max_interval self)%float = true.

(** The controller still has the bounds and factor [__init__] gave it. *)
Definition configured (self : Controller) : Prop :=
  min_interval self = 0.5%float /\ max_interval self = 10.0%float
  /\ adjustment_factor self = 0.1%float.

(** The metrics a run of recorded outcomes and gauge samples leads to. *)
Inductive reachable : Metrics -> Prop :=
  | reach_init : reachable PerformanceMonitor.__init__
  | reach_update metrics processing_time success :
      reachable metrics ->
      reachable
        (PerformanceMonitor.update_ocr_metrics metrics processing_time success)
  | reach_sample metrics cpu mem :
      reachable metrics ->
      reachable (PerformanceMonitor.sample metrics cpu mem).

(** A frame with a usable fingerprint whose recognition returns [text]
    after [seconds]. *)
Definition frame (e : Z * string * float) : Image :=
  {| fingerprint := Some e.1.1; recognition := Done e.1.2 e.2 |}.

(** The dictionary entry such a frame leaves in the cache. *)
Definition entry (e : Z * string * float) : Z * string := e.1.

(** A usable cache key with a non-empty text. *)
Definition storable (e : Z * string * float) : Prop :=
  e.1.1 <> 0%Z /\ e.1.2 <> "".

(** The string [batch_ocr] appends for a future. *)
Definition collected (f : WorkingFastScreenOCR.future) : string :=
  match f with
  | WorkingFastScreenOCR.Returned result => result
  | WorkingFastScreenOCR.TimeoutError => ""
  | WorkingFastScreenOCR.Raised => ""
  end.

(** A dictionary cut back to [cache_size] entries by dropping the oldest. *)
Definition trim (cache_size : Z) (d : Dict.t) : Dict.t :=
  if (Z.of_nat (length d) >? cache_size)%Z then tail d else d.

(** Every cached text is non-empty. *)
Definition texts_nonempty (d : Dict.t) : Prop :=
  Forall (fun kv => kv.2 <> "") d.

(** The place of a binary64 value in the order that comparisons use:
    sign class, then exponent, then mantissa (mirrored for negatives). *)
Definition order_key (x : spec_float) : Z * Z * Z :=
  match x with
  | S754_zero _ => (0, 0, 0)%Z
  | S754_infinity s => (if s then -2 else 2, 0, 0)%Z
  | S754_nan => (0, 0, 0)%Z
  | S754_finite s m e =>
      if s then (-1, - e, - Zpos m)%Z else (1, e, Zpos m)%Z
  end.

Definition key_compare (a b : Z * Z * Z) : comparison :=
  match (a.1.1 ?= b.1.1)%Z with
  | Eq => match (a.1.2 ?= b.1.2)%Z with
          | Eq => (a.2 ?= b.2)%Z
          | c => c
          end
  | c => c
  end.

Definition key_lt (a b : Z * Z * Z) : Prop :=
  (a.1.1 < b.1.1
   \/ (a.1.1 = b.1.1
       /\ (a.1.2 < b.1.2 \/ (a.1.2 = b.1.2 /\ a.2 < b.2))))%Z.

Definition key_le (a b : Z * Z * Z) : Prop :=
  (a.1.1 < b.1.1
   \/ (a.1.1 = b.1.1
       /\ (a.1.2 < b.1.2 \/ (a.1.2 = b.1.2 /\ a.2 <= b.2))))%Z.

(** Not a NaN. *)
Definition ordered (x : float) : Prop := Prim2SF x <> S754_nan.

(** Send times in the order the clock gave them, none a NaN. *)
Fixpoint chronological (history : list float) : Prop :=
  match history with
  | [] => True
  | t :: rest =>
      ordered t
      /\ match rest with
         | [] => True
         | t' :: _ => (t <=? t')%float = true
         end
      /\ chronological rest
  end.

(** How a recognition ended, as counted by the statistics. *)
Definition recognised (image : Image) : bool :=
  match recognition image with Done _ _ => true | _ => false end.

Definition timed_out (image : Image) : bool :=
  match recognition image with Alive => true | _ => false end.

(** The keys are pairwise distinct and none is zero. *)
Definition keys_valid (d : Dict.t) : Prop :=
  NoDup (Dict.keys d) /\ 0%Z ∉ Dict.keys d.

(** The time stamps of the passes that completed, in order. *)
Definition stamps (probes : list PerformanceMonitor.probe) : list float :=
  omap (fun p => match p with
                 | PerformanceMonitor.Probed _ _ now => Some now
                 | _ => None
                 end) probes.

(** The number of recorded outcomes that failed. *)
Definition failures (outcomes : list (float * bool)) : Z :=
  Z.of_nat (length (filter (fun o => o.2 = false) outcomes)).

(** The controller is as [__init__] set it up or as adjustments left it,
    and the configuration differs from [startup] at most in
    ["ocr_interval"], which then holds the controller's interval. *)
Definition steered (startup : gmap string Py.value)
    (self : IntegratedDiscordOCRSystem.t) : Prop :=
  configured (IntegratedDiscordOCRSystem.controller self)
  /\ interval_in_range (IntegratedDiscordOCRSystem.controller self)
  /\ (IntegratedDiscordOCRSystem.config self = startup
      \/ IntegratedDiscordOCRSystem.config self
         = <["ocr_interval" :=
               Py.VFloat (current_interval
                            (IntegratedDiscordOCRSystem.controller self))]>
             startup).

(** What has been handed on is accounted for: every delivered text has a
    visible character and names one of the three engines, there are no
    more deliveries than engine calls nor engine calls than [n], and the
    frames counted as processed and not skipped cover the deliveries. *)
Definition accounted (n : nat) (self : IntegratedDiscordOCRSystem.t) : Prop :=
  Forall (fun te => Py.strip_truthy te.1 = true
                    /\ te.2 ∈ ["fast"; "main"; "discord"])
    (IntegratedDiscordOCRSystem.delivered self)
  /\ (length (IntegratedDiscordOCRSystem.delivered self)
      <= length (IntegratedDiscordOCRSystem.invoked self))%nat
  /\ (length (IntegratedDiscordOCRSystem.invoked self) <= n)%nat
  /\ (Z.of_nat (length (IntegratedDiscordOCRSystem.delivered self))
      <= frames_processed (IntegratedDiscordOCRSystem.metrics self)
         - frames_skipped (IntegratedDiscordOCRSystem.metrics self))%Z
  /\ frames_skipped (IntegratedDiscordOCRSystem.metrics self)
     = error_count (IntegratedDiscordOCRSystem.metrics self).

(** Results sent one after another through [send_ocr_result]. *)
Definition send_all (md5 : string -> string) (bot : DiscordOCRBot.t)
    (calls : list (string * Outbox)) : DiscordOCRBot.t :=
  fold_left
    (fun bot c => (UnifiedDiscordOCRIntegration.send_ocr_result md5 bot c.1 c.2).2)
    calls bot.

(** The send times are no more than the limiter allows, and the limiter
    allows no more than the queue can hold. *)
Definition within_limit (bot : DiscordOCRBot.t) : Prop :=
  (Z.of_nat (length (DiscordOCRBot.message_history bot))
   <= DiscordOCRBot.max_messages_per_window bot <= 100)%Z.

(** A channel that took the message, and one whose [send] raised. *)
Definition reached (channel : Z -> delivery) (channel_id : Z) : bool :=
  match channel channel_id with Sent => true | _ => false end.

Definition refused (channel : Z -> delivery) (channel_id : Z) : bool :=
  match channel channel_id with SendFailed => true | _ => false end.

(** A configuration entry written as a JSON array [[key, value]]. *)
Definition pair_item (kv : string * Py.json) : Py.json :=
  Py.JArray [Py.JStr kv.1; kv.2].

(** A JSON document that cannot be iterated: [null], a truth value or a
    number. *)
Definition scalar (document : Py.json) : bool :=
  match document with
  | Py.JNull | Py.JBool _ | Py.JInt _ | Py.JFloat _ => true
  | _ => false
  end.

(** Every character is white space (so [strip] leaves nothing). *)
Fixpoint all_space (s : string) : bool :=
  match s with
  | EmptyString => true
  | String c rest => Py.isspace c && all_space rest
  end.

(** * Binary64 facts

    Rounding of products, read off the specification of the primitive
    operations ([SpecFloat]). *)

Section Binary64.
Local Open Scope Z_scope.

Lemma digits2_pos_bounds (p : positive) :
  2 ^ (Zpos (digits2_pos p) - 1) <= Zpos p < 2 ^ Zpos (digits2_pos p).
Proof.
  induction p as [p IH | p IH |]; cbn [digits2_pos].
  - rewrite Pos2Z.inj_succ.
    replace (Z.succ (Zpos (digits2_pos p)) - 1)
      with (Z.succ (Zpos (digits2_pos p) - 1)) by lia.
    rewrite !Z.pow_succ_r by lia. lia.
  - rewrite Pos2Z.inj_succ.
    replace (Z.succ (Zpos (digits2_pos p)) - 1)
      with (Z.succ (Zpos (digits2_pos p) - 1)) by lia.
    rewrite !Z.pow_succ_r by lia. lia.
  - cbn. lia.
Qed.

Lemma digits2_pos_unique (p : positive) (d : Z) :
  2 ^ (d - 1) <= Zpos p < 2 ^ d -> 0 < d -> Zpos (digits2_pos p) = d.
Proof.
  intros [Hlo Hhi] Hd.
  destruct (digits2_pos_bounds p) as [Hlo' Hhi'].
  assert (d - 1 < Zpos (digits2_pos p)).
  { apply (Z.pow_lt_mono_r_iff 2); lia. }
  assert (Zpos (digits2_pos p) - 1 < d).
  { apply (Z.pow_lt_mono_r_iff 2); lia. }
  lia.
Qed.

Lemma shr_1_m (r : shr_record) :
  0 <= shr_m r -> shr_m (shr_1 r) = shr_m r / 2.
Proof.
  destruct r as [m r s]; cbn [shr_m shr_1].
  destruct m as [|[p|p|]|p]; intros H; cbn [shr_m]; try lia.
  - reflexivity.
  - apply Z.div_unique with 1; lia.
  - apply Z.div_unique with 0; lia.
  - reflexivity.
Qed.

Lemma iter_pos_shr_m (p : positive) : forall r,
  0 <= shr_m r ->
  shr_m (SpecFloat.iter_pos shr_1 p r) = shr_m r / 2 ^ Zpos p.
Proof.
  induction p as [p IH | p IH |]; intros r Hr; cbn [SpecFloat.iter_pos].
  - assert (H1 : 0 <= shr_m (shr_1 r)).
    { rewrite shr_1_m by assumption. apply Z.div_pos; lia. }
    assert (H2 : 0 <= shr_m (SpecFloat.iter_pos shr_1 p (shr_1 r))).
    { rewrite IH by assumption. apply Z.div_pos; lia. }
    rewrite IH, IH, shr_1_m by assumption.
    rewrite !Z.div_div by lia.
    f_equal. replace (Zpos p~1) with (1 + Zpos p + Zpos p) by lia.
    rewrite !Z.pow_add_r, Z.pow_1_r by lia. ring.
  - assert (H2 : 0 <= shr_m (SpecFloat.iter_pos shr_1 p r)).
    { rewrite IH by assumption. apply Z.div_pos; lia. }
    rewrite IH, IH by assumption.
    rewrite !Z.div_div by lia.
    f_equal. replace (Zpos p~0) with (Zpos p + Zpos p) by lia.
    rewrite Z.pow_add_r by lia. ring.
  - rewrite shr_1_m by assumption. reflexivity.
Qed.

Lemma round_nearest_even_bounds (q : Z) (l : location) :
  q <= round_nearest_even q l <= q + 1.
Proof.
  destruct l as [|[| |]]; cbn [round_nearest_even]; try lia.
  destruct (Z.even q); lia.
Qed.

Lemma shr_fexp_shift (m : positive) (E n : Z) :
  Zpos (digits2_pos m) = 53 + n -> 0 < n -> -1074 <= E + n ->
  exists r, shr_fexp prec emax (Zpos m) E loc_Exact = (r, E + n)
            /\ shr_m r = Zpos m / 2 ^ n.
Proof.
  intros Hd Hn HE.
  unfold shr_fexp, fexp, emin, Zdigits2, prec, emax. rewrite Hd.
  replace (Z.max (53 + n + E - 53) (3 - 1024 - 53) - E) with n by lia.
  destruct n as [|p|p]; try lia.
  cbn [shr]. eexists; split; [reflexivity|].
  rewrite iter_pos_shr_m; cbn [shr_record_of_loc shr_m]; [reflexivity | lia].
Qed.

Lemma shr_fexp_noshift (m : positive) (E : Z) :
  Zpos (digits2_pos m) = 53 -> -1074 <= E ->
  shr_fexp prec emax (Zpos m) E loc_Exact
  = ({| shr_m := Zpos m; shr_r := false; shr_s := false |}, E).
Proof.
  intros Hd HE.
  unfold shr_fexp, fexp, emin, Zdigits2, prec, emax. rewrite Hd.
  replace (Z.max (53 + E - 53) (3 - 1024 - 53) - E) with 0 by lia.
  reflexivity.
Qed.

(** Rounding a mantissa that is at least one bit too long: the result is
    a normal number whose mantissa is the truncated one or its
    successor. *)
Lemma binary_round_aux_long (M : positive) (E n : Z) :
  Zpos (digits2_pos M) = 53 + n -> 0 < n -> -1074 <= E + n <= 900 ->
  exists m k,
    binary_round_aux prec emax false (Zpos M) E loc_Exact
      = S754_finite false m (E + k)
    /\ n <= k <= n + 1
    /\ 2 ^ 52 <= Zpos m < 2 ^ 53
    /\ Zpos M / 2 ^ k <= Zpos m <= Zpos M / 2 ^ k + 1.
Proof.
  intros Hd Hn HE.
  destruct (shr_fexp_shift M E n Hd Hn) as (r & Hr & Hq); [lia|].
  unfold binary_round_aux. rewrite Hr.
  pose proof (round_nearest_even_bounds (shr_m r) (loc_of_shr_record r))
    as Hrne.
  remember (round_nearest_even (shr_m r) (loc_of_shr_record r)) as z1 eqn:Ez1.
  clear Ez1.
  destruct (digits2_pos_bounds M) as [HMlo HMhi]. rewrite Hd in HMlo, HMhi.
  replace (53 + n - 1) with (52 + n) in HMlo by lia.
  rewrite Z.pow_add_r in HMlo, HMhi by lia.
  assert (Hpn : 0 < 2 ^ n) by (apply Z.pow_pos_nonneg; lia).
  assert (Hqlo : 2 ^ 52 <= shr_m r).
  { rewrite Hq. apply Z.div_le_lower_bound; lia. }
  assert (Hqhi : shr_m r < 2 ^ 53).
  { rewrite Hq. apply Z.div_lt_upper_bound; lia. }
  destruct z1 as [|m1|m1]; try lia.
  destruct (Z.eq_dec (Zpos m1) (2 ^ 53)) as [Hc | Hc].
  - (* the increment carried into a 54th bit *)
    assert (Hd1 : Zpos (digits2_pos m1) = 53 + 1).
    { apply digits2_pos_unique; [rewrite Hc|]; lia. }
    destruct (shr_fexp_shift m1 (E + n) 1 Hd1) as (r' & Hr' & Hq'); try lia.
    rewrite Hr', Hq', Hc. change (2 ^ 53 / 2 ^ 1) with (2 ^ 52).
    change (2 ^ 52) with (Zpos (2 ^ 52)) at 1. cbv iota.
    replace (E + n + 1 <=? emax - prec) with true
      by (symmetry; apply Z.leb_le; unfold emax, prec; lia).
    exists (2 ^ 52)%positive, (n + 1). rewrite Z.add_assoc.
    split; [reflexivity|]. split; [lia|]. split; [lia|].
    rewrite Z.pow_add_r, <- Z.div_div by lia. rewrite <- Hq.
    replace (shr_m r) with (2 ^ 53 - 1) by lia.
    change ((2 ^ 53 - 1) / 2 ^ 1) with (2 ^ 52 - 1). lia.
  - assert (Hd1 : Zpos (digits2_pos m1) = 53).
    { apply digits2_pos_unique; lia. }
    rewrite shr_fexp_noshift by (assumption || lia). cbn [shr_m].
    replace (E + n <=? emax - prec) with true
      by (symmetry; apply Z.leb_le; unfold emax, prec; lia).
    exists m1, n. split; [reflexivity|]. split; [lia|]. split; [lia|].
    rewrite <- Hq. lia.
Qed.

Lemma mul_normal_pos (x c : float) mx ex mc ec :
  normal_pos x mx ex -> normal_pos c mc ec -> -1000 <= ex + ec <= 800 ->
  exists m k,
    normal_pos (x * c) m (ex + ec + k)
    /\ 52 <= k <= 54
    /\ Zpos mx * Zpos mc / 2 ^ k <= Zpos m <= Zpos mx * Zpos mc / 2 ^ k + 1.
Proof.
  intros [Hx Hmx] [Hc Hmc] He.
  assert (Hlo : 2 ^ 104 <= Zpos (mx * mc)).
  { rewrite Pos2Z.inj_mul. change (2 ^ 104) with (2 ^ 52 * 2 ^ 52).
    apply Z.mul_le_mono_nonneg; lia. }
  assert (Hhi : Zpos (mx * mc) < 2 ^ 106).
  { rewrite Pos2Z.inj_mul. change (2 ^ 106) with (2 ^ 53 * 2 ^ 53).
    apply Z.mul_lt_mono_nonneg; lia. }
  assert (Hd : exists n,
             Zpos (digits2_pos (mx * mc)) = 53 + n /\ 52 <= n <= 53).
  { destruct (Z_lt_le_dec (Zpos (mx * mc)) (2 ^ 105)).
    - exists 52. split; [apply digits2_pos_unique|]; cbn; lia.
    - exists 53. split; [apply digits2_pos_unique|]; cbn; lia. }
  destruct Hd as (n & Hd & Hn).
  destruct (binary_round_aux_long (mx * mc) (ex + ec) n Hd)
    as (m & k & Hr & Hk & Hm & Hq); try lia.
  exists m, k. split; [split; [|assumption]|split; [lia|]].
  - rewrite mul_spec, Hx, Hc. exact Hr.
  - rewrite <- Pos2Z.inj_mul. exact Hq.
Qed.

Lemma SFleb_finite_pos m1 e1 m2 e2 :
  SFleb (S754_finite false m1 e1) (S754_finite false m2 e2) = true
  <-> e1 < e2 \/ (e1 = e2 /\ Zpos m1 <= Zpos m2).
Proof.
  unfold SFleb, SFcompare.
  destruct (Z.compare_spec e1 e2) as [He | He | He].
  - change (Pos.compare_cont Eq m1 m2) with (Pos.compare m1 m2).
    destruct (Pos.compare_spec m1 m2) as [Hm | Hm | Hm]; split; intros H;
      try reflexivity; try discriminate; lia.
  - split; [lia | reflexivity].
  - split; [discriminate | lia].
Qed.

Lemma SFcompare_antisym (a b : spec_float) (c : comparison) :
  SFcompare a b = Some c -> SFcompare b a = Some (CompOpp c).
Proof.
  destruct a as [sa | sa | | sa ma ea], b as [sb | sb | | sb mb eb];
    cbn [SFcompare]; try discriminate;
    try (destruct sa); try (destruct sb); intros [= <-]; try reflexivity.
  - rewrite (Z.compare_antisym ea eb).
    destruct (ea ?= eb); cbn [CompOpp]; try reflexivity.
    rewrite (Pos.compare_cont_antisym ma mb Eq). reflexivity.
  - rewrite (Z.compare_antisym ea eb).
    destruct (ea ?= eb); cbn [CompOpp]; try reflexivity.
    rewrite (Pos.compare_cont_antisym ma mb Eq). reflexivity.
Qed.

(** On ordered (non-NaN) operands, [not (a < b)] is [b <= a]. *)
Lemma ltb_false_leb (a b : float) :
  Prim2SF a <> S754_nan -> Prim2SF b <> S754_nan ->
  (a <? b)%float = false -> (b <=? a)%float = true.
Proof.
  rewrite ltb_spec, leb_spec. unfold SFltb, SFleb. intros Ha Hb.
  destruct (SFcompare (Prim2SF a) (Prim2SF b)) as [c|] eqn:Hc.
  - rewrite (SFcompare_antisym _ _ _ Hc). destruct c; cbn; congruence.
  - destruct (Prim2SF a) as [[]|[]| |[]], (Prim2SF b) as [[]|[]| |[]];
      cbn in Hc; congruence.
Qed.

Lemma normal_pos_not_nan x m e : normal_pos x m e -> Prim2SF x <> S754_nan.
Proof. intros [H _]. rewrite H. discriminate. Qed.

(** A float between 0.5 and 10 is normal, with exponent between those of
    the two bounds. *)
Lemma in_range_normal (x : float) :
  (0.5 <=? x)%float = true -> (x <=? 10)%float = true ->
  exists m e, normal_pos x m e /\ -53 <= e <= -49
              /\ (e = -49 -> Zpos m <= 5629499534213120).
Proof.
  rewrite !leb_spec.
  change (Prim2SF 0.5) with (S754_finite false 4503599627370496 (-53)).
  change (Prim2SF 10) with (S754_finite false 5629499534213120 (-49)).
  pose proof (Prim2SF_valid x) as Hv. intros Hlo Hhi.
  destruct (Prim2SF x) as [[] | [] | | [] m e] eqn:Hx;
    try discriminate Hlo; try discriminate Hhi.
  rewrite SFleb_finite_pos in Hlo, Hhi.
  cbn [valid_binary] in Hv. unfold bounded, canonical_mantissa in Hv.
  apply andb_prop in Hv as [Hc _]. apply Z.eqb_eq in Hc.
  unfold fexp, emin, prec, emax in Hc.
  assert (Hd : Zpos (digits2_pos m) = 53) by lia.
  destruct (digits2_pos_bounds m) as [H1 H2]. rewrite Hd in H1, H2.
  change (53 - 1) with 52 in H1.
  exists m, e. split; [split; [exact Hx | split; assumption]|].
  split; lia.
Qed.

(** Backing off never leaves the range from below: [x * 1.1 >= 0.5]. *)
Lemma scale_up_lower (x : float) :
  (0.5 <=? x)%float = true -> (x <=? 10)%float = true ->
  (0.5 <=? x * 1.1)%float = true /\ Prim2SF (x * 1.1)%float <> S754_nan.
Proof.
  intros Hlo Hhi.
  destruct (in_range_normal x Hlo Hhi) as (mx & ex & Hx & Hex & _).
  assert (Hc : normal_pos 1.1 4953959590107546 (-52))
    by (split; [reflexivity | lia]).
  destruct (mul_normal_pos _ _ _ _ _ _ Hx Hc) as (m & k & Hy & Hk & _);
    [lia|].
  split; [|exact (normal_pos_not_nan _ _ _ Hy)].
  destruct Hy as [Hy Hm]. rewrite leb_spec, Hy.
  change (Prim2SF 0.5) with (S754_finite false 4503599627370496 (-53)).
  apply SFleb_finite_pos. lia.
Qed.

(** Speeding up never leaves the range from above: [x * 0.9 <= 10]. *)
Lemma scale_down_upper (x : float) :
  (0.5 <=? x)%float = true -> (x <=? 10)%float = true ->
  (x * 0.9 <=? 10)%float = true /\ Prim2SF (x * 0.9)%float <> S754_nan.
Proof.
  intros Hlo Hhi.
  destruct (in_range_normal x Hlo Hhi) as (mx & ex & Hx & Hex & Hten).
  assert (Hc : normal_pos 0.9 8106479329266893 (-53))
    by (split; [reflexivity | lia]).
  destruct (mul_normal_pos _ _ _ _ _ _ Hx Hc) as (m & k & Hy & Hk & Hq);
    [lia|].
  split; [|exact (normal_pos_not_nan _ _ _ Hy)].
  destruct Hy as [Hy Hm]. rewrite leb_spec, Hy.
  change (Prim2SF 10) with (S754_finite false 5629499534213120 (-49)).
  apply SFleb_finite_pos.
  destruct Hx as [_ Hmx].
  assert (Hk' : k = 52 \/ k = 53 \/ k = 54) by lia.
  assert (Hsmall : k = 54 -> Zpos mx * 8106479329266893 / 2 ^ 54 < 2 ^ 52 - 1).
  { intros _. apply Z.div_lt_upper_bound; lia. }
  assert (Hmid : ex = -49 ->
                 Zpos mx * 8106479329266893 / 2 ^ 53 < 5629499534213120).
  { intros He. apply Z.div_lt_upper_bound; [lia|]. specialize (Hten He). lia. }
  destruct Hk' as [-> | [-> | ->]]; lia.
Qed.
End Binary64.

(** * Engine selection *)

Section Selection.
Import IntegratedDiscordOCRSystem.

Lemma adapt_invoked (self : t) : invoked (snd (adapt self)) = invoked self.
Proof.
  unfold adapt.
  destruct (Py.item (config self) "enable_adaptive_control") as [e | enabled];
    [reflexivity|].
  destruct (Py.truth enabled).
  - destruct (AdaptiveOCRController.adjust_parameters _ _) as [adj c].
    repeat case_match; reflexivity.
  - repeat case_match; reflexivity.
Qed.

Lemma extract_invoked (env : Cycle) (start_time : float) (image : Image)
    (self : t) :
  invoked (snd (extract env start_time image self))
  = select_engine (metrics self) :: invoked self.
Proof. unfold extract. repeat case_match; reflexivity. Qed.

Lemma attempt_invoked (env : Cycle) (self : t) :
  invoked (snd (attempt env self)) = invoked self
  \/ invoked (snd (attempt env self))
     = select_engine (metrics self) :: invoked self.
Proof.
  unfold attempt.
  destruct (Py.item (config self) "ocr_interval") as [e | v]; [by left|].
  destruct (Py.lt _ v) as [e | []]; [by left | by left |].
  destruct (capture env) as [e | [image |]]; [by left | | ].
  - right.
    pose proof (extract_invoked env (current_time env) image
                  (with_last_capture_time self (current_time env))) as H.
    destruct (extract _ _ _ _) as [[e |] self1]; cbn [snd] in *.
    + exact H.
    + rewrite adapt_invoked. exact H.
  - left. rewrite adapt_invoked. reflexivity.
Qed.
End Selection.

(** C2: the engine is chosen by strict precedence on the metrics snapshot:
    CPU usage above 70 gives the fast engine whatever the average time;
    otherwise an average below 1.0 s gives the main engine; otherwise the
    Discord-optimised engine. In particular 75 % gives fast, 50 % with
    0.5 s gives main, 50 % with 2.5 s gives discord. An iteration of the
    loop calls at most one engine, the one selected on its snapshot. *)
Theorem select_engine_precedence :
  (forall m, (70 <? cpu_usage m)%float = true ->
     IntegratedDiscordOCRSystem.select_engine m = "fast")
  /\ (forall m, (70 <? cpu_usage m)%float = false ->
        (avg_processing_time m <? 1.0)%float = true ->
        IntegratedDiscordOCRSystem.select_engine m = "main")
  /\ (forall m, (70 <? cpu_usage m)%float = false ->
        (avg_processing_time m <? 1.0)%float = false ->
        IntegratedDiscordOCRSystem.select_engine m = "discord")
  /\ (forall m, cpu_usage m = 75%float ->
        IntegratedDiscordOCRSystem.select_engine m = "fast")
  /\ (forall m, cpu_usage m = 50%float -> avg_processing_time m = 0.5%float ->
        IntegratedDiscordOCRSystem.select_engine m = "main")
  /\ (forall m, cpu_usage m = 50%float -> avg_processing_time m = 2.5%float ->
        IntegratedDiscordOCRSystem.select_engine m = "discord")
  /\ (forall env self,
        let sampled :=
          PerformanceMonitor.sample (IntegratedDiscordOCRSystem.metrics self)
            (fst (gauges env)) (snd (gauges env)) in
        let self' := snd (IntegratedDiscordOCRSystem.iteration env self) in
        IntegratedDiscordOCRSystem.invoked self'
          = IntegratedDiscordOCRSystem.invoked self
        \/ IntegratedDiscordOCRSystem.invoked self'
          = IntegratedDiscordOCRSystem.select_engine sampled
              :: IntegratedDiscordOCRSystem.invoked self).
Proof.
  unfold IntegratedDiscordOCRSystem.select_engine.
  repeat split.
  - intros m ->. reflexivity.
  - intros m -> ->. reflexivity.
  - intros m -> ->. reflexivity.
  - intros m ->. reflexivity.
  - intros m -> ->. reflexivity.
  - intros m -> ->. reflexivity.
  - intros env self. cbv zeta.
    unfold IntegratedDiscordOCRSystem.iteration, Py.try_except.
    set (s0 := IntegratedDiscordOCRSystem.with_metrics self _).
    pose proof (attempt_invoked env s0) as H.
    destruct (IntegratedDiscordOCRSystem.attempt env s0) as [[e |] s1];
      cbn [snd] in *; exact H.
Qed.

(** * Performance tracking *)

(** C4: [update_ocr_metrics] applies exactly the two moving averages: on
    success the rate becomes [rate*0.95 + 100*0.05] and the average time
    [time*0.9 + elapsed*0.1]; on failure or timeout the rate becomes
    [rate*0.95] and the average time is left as it was. One success of
    2.0 s from an average of 1.0 s gives 1.1 to within 1e-6. *)
Theorem update_ocr_metrics_ewma (metrics : Metrics) (elapsed : float) :
  let ok := PerformanceMonitor.update_ocr_metrics metrics elapsed true in
  let ko := PerformanceMonitor.update_ocr_metrics metrics elapsed false in
  ocr_success_rate ok = (ocr_success_rate metrics * 0.95 + 100 * 0.05)%float
  /\ avg_processing_time ok
     = (avg_processing_time metrics * 0.9 + elapsed * 0.1)%float
  /\ ocr_success_rate ko = (ocr_success_rate metrics * 0.95)%float
  /\ avg_processing_time ko = avg_processing_time metrics
  /\ (forall m, avg_processing_time m = 1.0%float ->
        let m' := PerformanceMonitor.update_ocr_metrics m 2.0 true in
        (abs (avg_processing_time m' - 1.1) <=? 1e-6)%float = true).
Proof.
  cbv zeta. repeat split.
  intros m Hm. cbn. rewrite Hm. reflexivity.
Qed.

(** * Adaptive control *)

(** C5: [adjust_parameters] takes exactly one of three branches on the
    interval: above 80 % CPU it is multiplied by [1 + k] and capped at the
    maximum; else below 40 % CPU with the interval above the minimum it is
    multiplied by [1 - k] and floored at the minimum; else it is unchanged.
    [k] is 0.1. The suggested deadline depends on the average time alone:
    [avg + 1.0] when the average exceeds 2.0 s, otherwise 3.0. *)
Theorem adjust_parameters_cases (self : Controller) (metrics : Metrics) :
  let result := AdaptiveOCRController.adjust_parameters self metrics in
  let cpu := cpu_usage metrics in
  let avg := avg_processing_time metrics in
  ((80 <? cpu)%float = true ->
     current_interval (snd result)
     = Py.min (current_interval self * (1 + adjustment_factor self))%float
         (max_interval self))
  /\ ((80 <? cpu)%float = false -> (cpu <? 40)%float = true ->
      (min_interval self <? current_interval self)%float = true ->
      current_interval (snd result)
      = Py.max (current_interval self * (1 - adjustment_factor self))%float
          (min_interval self))
  /\ ((80 <? cpu)%float = false ->
      (cpu <? 40)%float = false
      \/ (min_interval self <? current_interval self)%float = false ->
      snd result = self)
  /\ min_interval (snd result) = min_interval self
  /\ max_interval (snd result) = max_interval self
  /\ adjustment_factor (snd result) = adjustment_factor self
  /\ adjustment_factor AdaptiveOCRController.__init__ = 0.1%float
  /\ ((2.0 <? avg)%float = true ->
      suggested_timeout (fst result) = (avg + 1.0)%float)
  /\ ((2.0 <? avg)%float = false ->
      suggested_timeout (fst result) = 3.0%float).
Proof.
  cbv zeta. unfold AdaptiveOCRController.adjust_parameters,
    AdaptiveOCRController.suggest_timeout.
  destruct (80 <? cpu_usage metrics)%float eqn:Hhigh;
    [| destruct (cpu_usage metrics <? 40)%float eqn:Hlow;
       [destruct (min_interval self <? current_interval self)%float eqn:Hmin|]];
    cbn [andb fst snd suggested_timeout current_interval min_interval
         max_interval adjustment_factor AdaptiveOCRController.set_interval];
    repeat split; try congruence; try reflexivity;
    try (intros H; rewrite H; reflexivity);
    try (intros _ [H | H]; congruence).
Qed.

(** The two worked cases: 90 % CPU takes 2.0 s to 2.2 s, 20 % to 1.8 s. *)
Example adjust_parameters_back_off :
  current_interval
    (AdaptiveOCRController.adjust_parameters AdaptiveOCRController.__init__
       (PerformanceMonitor.sample PerformanceMonitor.__init__ 90 0)).2
  = 2.2%float.
Proof. reflexivity. Qed.

Example adjust_parameters_speed_up :
  current_interval
    (AdaptiveOCRController.adjust_parameters AdaptiveOCRController.__init__
       (PerformanceMonitor.sample PerformanceMonitor.__init__ 20 0)).2
  = 1.8%float.
Proof. reflexivity. Qed.

Lemma adjust_parameters_keeps_range (self : Controller) (metrics : Metrics) :
  configured self -> interval_in_range self ->
  configured (snd (AdaptiveOCRController.adjust_parameters self metrics))
  /\ interval_in_range
       (snd (AdaptiveOCRController.adjust_parameters self metrics)).
Proof.
  destruct self as [cur lo hi k].
  unfold configured, interval_in_range; cbn.
  intros (-> & -> & ->) [Hlo Hhi].
  unfold AdaptiveOCRController.adjust_parameters; cbn.
  change (1 + 0.1)%float with 1.1%float.
  change (1 - 0.1)%float with 0.9%float.
  destruct (80 <? cpu_usage metrics)%float; cbn.
  - split; [auto|].
    destruct (scale_up_lower cur Hlo Hhi) as [Hlow Hnan].
    unfold Py.min. destruct (10 <? cur * 1.1)%float eqn:Hcap.
    + split; reflexivity.
    + split; [exact Hlow|].
      apply ltb_false_leb; [discriminate | exact Hnan | exact Hcap].
  - destruct ((cpu_usage metrics <? 40)%float && (0.5 <? cur)%float); cbn.
    + split; [auto|].
      destruct (scale_down_upper cur Hlo Hhi) as [Hup Hnan].
      unfold Py.max. destruct (cur * 0.9 <? 0.5)%float eqn:Hfloor.
      * split; reflexivity.
      * split; [|exact Hup].
        apply ltb_false_leb; [exact Hnan | discriminate | exact Hfloor].
    + auto.
Qed.

(** C6 (as the code has it): with the bounds and factor set by [__init__]
    (0.5, 10.0 and 0.1), an interval that starts between the bounds stays
    between them after any sequence of adjustments, on every metrics
    input. The suggested deadline is not clamped: it is 3.0 when the
    average time is at most 2.0 s and the average plus 1.0 above that. *)
Theorem interval_stays_in_range (self : Controller) (snapshots : list Metrics) :
  configured self -> interval_in_range self ->
  interval_in_range (AdaptiveOCRController.run self snapshots)
  /\ configured (AdaptiveOCRController.run self snapshots)
  /\ (forall m,
        suggested_timeout (fst (AdaptiveOCRController.adjust_parameters self m))
        = if (2.0 <? avg_processing_time m)%float
          then (avg_processing_time m + 1.0)%float else 3.0%float).
Proof.
  intros Hc Hr. split; [|split].
  - revert self Hc Hr.
    induction snapshots as [| m rest IH]; intros self Hc Hr; cbn; [exact Hr|].
    destruct (adjust_parameters_keeps_range self m Hc Hr) as [Hc' Hr'].
    apply IH; assumption.
  - revert self Hc Hr.
    induction snapshots as [| m rest IH]; intros self Hc Hr; cbn; [exact Hc|].
    destruct (adjust_parameters_keeps_range self m Hc Hr) as [Hc' Hr'].
    apply IH; assumption.
  - intros m. unfold AdaptiveOCRController.adjust_parameters.
    destruct (80 <? cpu_usage m)%float; [reflexivity|].
    destruct (_ && _); reflexivity.
Qed.

Lemma interval_stays_in_range_witness :
  let busy := PerformanceMonitor.sample PerformanceMonitor.__init__ 90 0 in
  let idle := PerformanceMonitor.sample PerformanceMonitor.__init__ 20 0 in
  let snapshots := [busy; busy; idle; busy] in
  configured AdaptiveOCRController.__init__
  /\ interval_in_range AdaptiveOCRController.__init__
  /\ interval_in_range
       (AdaptiveOCRController.run AdaptiveOCRController.__init__ snapshots).
Proof.
  cbv zeta.
  assert (Hc : configured AdaptiveOCRController.__init__) by (repeat split).
  assert (Hr : interval_in_range AdaptiveOCRController.__init__)
    by (split; reflexivity).
  split; [exact Hc|]. split; [exact Hr|].
  exact (proj1 (interval_stays_in_range AdaptiveOCRController.__init__ _ Hc Hr)).
Defined.

(** C6 (as stated) fails for the deadline: after a single successful frame
    that took 500 s the suggested deadline is 51 s, above the only
    configured maximum (10.0); after one of 1e300 s it exceeds 1e298. No
    bound is applied to it. *)
Lemma suggested_timeout_unbounded :
  let m := PerformanceMonitor.update_ocr_metrics PerformanceMonitor.__init__
             500 true in
  let huge := PerformanceMonitor.update_ocr_metrics PerformanceMonitor.__init__
                1e300 true in
  let self := AdaptiveOCRController.__init__ in
  reachable m /\ reachable huge
  /\ suggested_timeout (fst (AdaptiveOCRController.adjust_parameters self m))
     = 51%float
  /\ (max_interval self
      <? suggested_timeout
           (fst (AdaptiveOCRController.adjust_parameters self m)))%float = true
  /\ (1e298
      <? suggested_timeout
           (fst (AdaptiveOCRController.adjust_parameters self huge)))%float
     = true.
Proof.
  cbv zeta. split; [|split]; [constructor; constructor.. |].
  repeat split.
Qed.

(** * The fast-path cache *)

Section Cache.
Import WorkingFastScreenOCR.

Lemma dict_set_nonempty k v d : Dict.set k v d <> [].
Proof. destruct d as [| [k' v'] rest]; cbn; [|case_match]; discriminate. Qed.

Lemma dict_set_length k v d :
  length (Dict.set k v d)
  = if Dict.contains k d then length d else S (length d).
Proof.
  unfold Dict.contains.
  induction d as [| [k' v'] rest IH]; cbn; [reflexivity|].
  destruct (k =? k')%Z; cbn; [reflexivity|].
  rewrite IH. destruct (Dict.get k rest); reflexivity.
Qed.

Lemma dict_set_fresh k v d :
  k ∉ Dict.keys d -> Dict.set k v d = d ++ [(k, v)].
Proof.
  unfold Dict.keys.
  induction d as [| [k' v'] rest IH]; cbn; [reflexivity|].
  rewrite not_elem_of_cons. intros [Hne Hrest].
  destruct (Z.eqb_spec k k'); [contradiction|].
  rewrite IH by assumption. reflexivity.
Qed.

Lemma dict_get_fresh k d : k ∉ Dict.keys d -> Dict.get k d = None.
Proof.
  unfold Dict.keys.
  induction d as [| [k' v'] rest IH]; cbn; [reflexivity|].
  rewrite not_elem_of_cons. intros [Hne Hrest].
  destruct (Z.eqb_spec k k'); [contradiction | auto].
Qed.

Lemma dict_get_elem k v d : Dict.get k d = Some v -> (k, v) ∈ d.
Proof.
  induction d as [| [k' v'] rest IH]; cbn; [discriminate|].
  destruct (Z.eqb_spec k k') as [-> |].
  - intros [= ->]. left.
  - intros H. right. auto.
Qed.

Lemma dict_set_elem k v d kv : kv ∈ Dict.set k v d -> kv = (k, v) \/ kv ∈ d.
Proof.
  induction d as [| [k' v'] rest IH]; cbn.
  - rewrite list_elem_of_singleton. auto.
  - destruct (k =? k')%Z; rewrite !elem_of_cons; intuition.
Qed.

(** Storing never raises; it drops the oldest entry when over capacity. *)
Lemma store_spec cache_size k v d :
  store cache_size k v d
  = (None, if (Z.of_nat (length (Dict.set k v d)) >? cache_size)%Z
           then tail (Dict.set k v d) else Dict.set k v d).
Proof.
  unfold store. destruct (_ >? _)%Z; [|reflexivity].
  pose proof (dict_set_nonempty k v d) as Hne.
  destruct (Dict.set k v d) as [| [k0 v0] rest]; [contradiction|].
  cbn. rewrite Z.eqb_refl. reflexivity.
Qed.

Lemma truthy_nonempty (s : string) : Py.truthy s = true <-> s <> "".
Proof. destruct s; cbn; split; congruence. Qed.

Lemma similar_cached (self : t) (current_hash : option Z) :
  _is_similar_to_cached self current_hash = true ->
  exists h text, current_hash = Some h /\ h <> 0%Z
                 /\ Dict.get h (text_cache self) = Some text.
Proof.
  unfold _is_similar_to_cached, Dict.contains.
  destruct current_hash as [h |]; [|discriminate]. cbn.
  destruct (Z.eqb_spec h 0); cbn; [discriminate|].
  destruct (text_cache self) as [| kv rest] eqn:Hc; [discriminate|].
  destruct (Dict.get h (kv :: rest)) as [text |] eqn:Hg; [|discriminate].
  intros _. exists h, text. auto.
Qed.

(** The two ways a call can go: served from the cache with nothing
    changed, or recognised, with the cache changed only by storing a
    non-empty result under a usable hash. *)
Lemma fast_ocr_cases (self : t) (image : Image) (force_process : bool) :
  let r := fast_ocr self image force_process in
  let ocr := WorkingQuickOCR.ocr_with_timeout (base self) image in
  cache_size r.2 = cache_size self
  /\ ((force_process = false
       /\ _is_similar_to_cached self (fingerprint image) = true
       /\ r.2 = self
       /\ exists h, fingerprint image = Some h
                    /\ Dict.get h (text_cache self) = Some r.1)
      \/ ((force_process = true
           \/ _is_similar_to_cached self (fingerprint image) = false)
          /\ r.1 = ocr.1 /\ base r.2 = ocr.2
          /\ ((Py.truthy_hash (fingerprint image) && Py.truthy ocr.1 = false
               /\ text_cache r.2 = text_cache self)
              \/ (exists h, fingerprint image = Some h /\ h <> 0%Z
                            /\ ocr.1 <> ""
                            /\ text_cache r.2
                               = trim (cache_size self)
                                   (Dict.set h ocr.1 (text_cache self)))))).
Proof.
  cbv zeta. unfold fast_ocr, _calculate_image_hash.
  destruct (negb force_process
            && _is_similar_to_cached self (fingerprint image)) eqn:Hhit.
  - apply andb_prop in Hhit as [Hf Hs]. apply negb_true_iff in Hf.
    destruct (similar_cached _ _ Hs) as (h & text & Hh & _ & Hget).
    rewrite Hh in Hs |- *. rewrite Hget. cbn.
    split; [reflexivity|]. left.
    split; [exact Hf|]. split; [exact Hs|]. split; [reflexivity|].
    exists h. split; [reflexivity | exact Hget].
  - assert (Hmiss : force_process = true
                    \/ _is_similar_to_cached self (fingerprint image) = false).
    { destruct force_process; cbn in Hhit; auto. }
    destruct (WorkingQuickOCR.ocr_with_timeout (base self) image)
      as [result base'] eqn:Hocr.
    destruct (fingerprint image) as [h |] eqn:Hh; cbn [Py.truthy_hash].
    + destruct (negb (h =? 0)%Z && Py.truthy result) eqn:Hok.
      * rewrite store_spec. cbn. split; [reflexivity|]. right.
        apply andb_prop in Hok as [Hnz Ht].
        apply negb_true_iff, Z.eqb_neq in Hnz. apply truthy_nonempty in Ht.
        split; [exact Hmiss|]. split; [reflexivity|]. split; [reflexivity|].
        right. exists h.
        split; [reflexivity|]. split; [exact Hnz|]. split; [exact Ht|].
        reflexivity.
      * cbn. split; [reflexivity|]. right.
        split; [exact Hmiss|]. split; [reflexivity|]. split; [reflexivity|].
        left. split; [exact Hok | reflexivity].
    + cbn. split; [reflexivity|]. right.
      split; [exact Hmiss|]. split; [reflexivity|]. split; [reflexivity|].
      left. split; reflexivity.
Qed.

Lemma trim_drop (cache_size : Z) (d : Dict.t) :
  (0 <= cache_size)%Z -> (length d <= S (Z.to_nat cache_size))%nat ->
  trim cache_size d = drop (length d - Z.to_nat cache_size) d.
Proof.
  intros Hc Hlen. unfold trim.
  destruct (Z.gtb_spec (Z.of_nat (length d)) cache_size) as [Hgt | Hle].
  - replace (length d - Z.to_nat cache_size)%nat with 1%nat by lia.
    destruct d; reflexivity.
  - replace (length d - Z.to_nat cache_size)%nat with 0%nat by lia.
    reflexivity.
Qed.

Lemma trim_length (cache_size : Z) (d : Dict.t) :
  (0 <= cache_size)%Z -> (length d <= S (Z.to_nat cache_size))%nat ->
  (length (trim cache_size d) <= Z.to_nat cache_size)%nat.
Proof.
  intros Hc Hlen. rewrite trim_drop, length_drop by assumption. lia.
Qed.

Lemma fast_ocr_capacity (self : t) (image : Image) (force_process : bool) :
  (0 <= cache_size self)%Z ->
  (length (text_cache self) <= Z.to_nat (cache_size self))%nat ->
  (length (text_cache (fast_ocr self image force_process).2)
   <= Z.to_nat (cache_size self))%nat.
Proof.
  intros Hc Hlen.
  destruct (fast_ocr_cases self image force_process)
    as (_ & [(_ & _ & -> & _) | (_ & _ & _ & [[_ ->] | (h & _ & _ & _ & ->)])]);
    try assumption.
  apply trim_length; [assumption|].
  rewrite dict_set_length. case_match; lia.
Qed.

Lemma calls_capacity (requests : list (Image * bool)) : forall self : t,
  (0 <= cache_size self)%Z ->
  (length (text_cache self) <= Z.to_nat (cache_size self))%nat ->
  (length (text_cache (calls self requests).2)
   <= Z.to_nat (cache_size self))%nat.
Proof.
  induction requests as [| [image force_process] rest IH]; intros self Hc Hlen;
    cbn; [assumption|].
  pose proof (fast_ocr_capacity self image force_process Hc Hlen) as Hstep.
  destruct (fast_ocr_cases self image force_process) as [Hsize _].
  destruct (fast_ocr self image force_process) as [result self1].
  cbn [snd] in *.
  specialize (IH self1). rewrite Hsize in IH.
  destruct (calls self1 rest) as [results self2]. cbn [snd] in *.
  apply IH; assumption.
Qed.

Lemma calls_cache_size (requests : list (Image * bool)) : forall self : t,
  cache_size (calls self requests).2 = cache_size self.
Proof.
  induction requests as [| [image force_process] rest IH]; intros self;
    cbn; [reflexivity|].
  destruct (fast_ocr_cases self image force_process) as [Hsize _].
  destruct (fast_ocr self image force_process) as [result self1].
  specialize (IH self1).
  destruct (calls self1 rest) as [results self2]. cbn [snd] in *. congruence.
Qed.

(** A fresh, storable frame is recognised and appended, and the cache is
    cut back to size. *)
Lemma fast_ocr_fresh (self : t) (e : Z * string * float) :
  storable e -> e.1.1 ∉ Dict.keys (text_cache self) ->
  text_cache (fast_ocr self (frame e) false).2
  = trim (cache_size self) (text_cache self ++ [entry e]).
Proof.
  intros [Hnz Htext] Hfresh.
  destruct (fast_ocr_cases self (frame e) false)
    as (_ & [(_ & Hs & _) | (_ & _ & _ & [[Hno _] | (h & Hh & _ & _ & ->)])]).
  - destruct (similar_cached _ _ Hs) as (h & text & [= <-] & _ & Hget).
    rewrite dict_get_fresh in Hget by assumption. discriminate.
  - exfalso. cbn in Hno. apply andb_false_iff in Hno as [Hno | Hno].
    + apply negb_false_iff, Z.eqb_eq in Hno. contradiction.
    + apply not_true_iff_false in Hno. apply Hno, truthy_nonempty, Htext.
  - cbn in Hh. injection Hh as <-. cbn.
    rewrite dict_set_fresh by assumption. destruct e as [[h text] seconds].
    reflexivity.
Qed.

(** First in, first out: storable frames with pairwise distinct new keys
    leave the last [cache_size] entries, in insertion order. *)
Lemma calls_fifo (entries : list (Z * string * float)) : forall self : t,
  (0 <= cache_size self)%Z ->
  (length (text_cache self) <= Z.to_nat (cache_size self))%nat ->
  Forall storable entries ->
  NoDup (map (fun e => e.1.1) entries) ->
  (forall e, e ∈ entries -> e.1.1 ∉ Dict.keys (text_cache self)) ->
  let all := text_cache self ++ map entry entries in
  text_cache (calls self (map (fun e => (frame e, false)) entries)).2
  = drop (length all - Z.to_nat (cache_size self)) all.
Proof.
  induction entries as [| e rest IH]; intros self Hc Hlen Hst Hnd Hfresh;
    cbv zeta; cbn [map calls].
  - cbn. rewrite app_nil_r.
    replace (_ - _)%nat with 0%nat by lia. reflexivity.
  - apply Forall_cons in Hst as [Hse Hst]. cbn in Hnd.
    apply NoDup_cons in Hnd as [Hne Hnd].
    pose proof (fast_ocr_fresh self e Hse (Hfresh e ltac:(left))) as Hstep.
    pose proof (fast_ocr_capacity self (frame e) false Hc Hlen) as Hcap.
    destruct (fast_ocr_cases self (frame e) false) as [Hsize _].
    destruct (fast_ocr self (frame e) false) as [result self1].
    cbn [snd] in *.
    specialize (IH self1). rewrite Hsize in IH. cbv zeta in IH.
    destruct (calls self1 _) as [results self2]. cbn [snd] in *.
    assert (Hlen1 : (length (text_cache self ++ [entry e])
                     <= S (Z.to_nat (cache_size self)))%nat).
    { rewrite length_app. cbn. lia. }
    rewrite trim_drop in Hstep by assumption.
    rewrite IH; try assumption.
    + rewrite Hstep.
      rewrite <- drop_app_le by lia.
      rewrite drop_drop, <- app_assoc. cbn [app].
      f_equal. rewrite length_drop, !length_app in *. cbn [length] in *. lia.
    + intros e' He' Hin. rewrite Hstep in Hin.
      unfold Dict.keys in Hin.
      apply list_elem_of_fmap in Hin as (kv & Hk & Hin).
      apply subseteq_drop in Hin. apply elem_of_app in Hin as [Hin | Hin].
      * apply (Hfresh e' ltac:(right; exact He')).
        unfold Dict.keys. apply list_elem_of_fmap. eauto.
      * apply list_elem_of_singleton in Hin. subst kv.
        apply Hne. unfold entry in Hk.
        apply list_elem_of_fmap. exists e'. auto.
Qed.
End Cache.

Lemma trim_elem (cache_size : Z) (d : Dict.t) kv : kv ∈ trim cache_size d -> kv ∈ d.
Proof.
  unfold trim. destruct (_ >? _)%Z; [|auto].
  destruct d; cbn; [auto | intros H; right; exact H].
Qed.

Lemma fast_ocr_texts_nonempty (self : WorkingFastScreenOCR.t) (image : Image)
    (force_process : bool) :
  texts_nonempty (WorkingFastScreenOCR.text_cache self) ->
  texts_nonempty
    (WorkingFastScreenOCR.text_cache
       (WorkingFastScreenOCR.fast_ocr self image force_process).2).
Proof.
  intros Hinv.
  destruct (fast_ocr_cases self image force_process)
    as (_ & [(_ & _ & -> & _) | (_ & _ & _ & [[_ ->] | (h & _ & _ & Ht & ->)])]);
    try assumption.
  unfold texts_nonempty in *. rewrite Forall_forall in *.
  intros kv Hin. apply trim_elem, dict_set_elem in Hin as [-> | Hin]; auto.
Qed.

Lemma ocr_with_timeout_counts (self : WorkingQuickOCR.t) (image : Image) :
  WorkingQuickOCR.total_calls
    (WorkingQuickOCR.performance_stats
       (WorkingQuickOCR.ocr_with_timeout self image).2)
  = (WorkingQuickOCR.total_calls (WorkingQuickOCR.performance_stats self) + 1)%Z.
Proof.
  unfold WorkingQuickOCR.ocr_with_timeout.
  destruct (recognition image); reflexivity.
Qed.

(** C3: the result cache is first-in first-out with bounded capacity. A
    call never leaves more than [cache_size] entries; storing distinct
    fingerprints into a fresh cache leaves the last [cache_size] of them in
    insertion order, so one more than the capacity drops exactly the
    oldest; and a lookup that hits returns the object unchanged, so reading
    an entry does not save it from eviction. *)
Theorem text_cache_fifo (timeout : float) (capacity : Z)
    (entries : list (Z * string * float)) :
  (0 <= capacity)%Z ->
  Forall storable entries ->
  NoDup (map (fun e => e.1.1) entries) ->
  let fresh := WorkingFastScreenOCR.__init__ timeout capacity in
  let puts := map (fun e => (frame e, false)) entries in
  let after := (WorkingFastScreenOCR.calls fresh puts).2 in
  (forall self image force_process,
     WorkingFastScreenOCR.cache_size self = capacity ->
     (length (WorkingFastScreenOCR.text_cache self) <= Z.to_nat capacity)%nat ->
     (length (WorkingFastScreenOCR.text_cache
                (WorkingFastScreenOCR.fast_ocr self image force_process).2)
      <= Z.to_nat capacity)%nat)
  /\ (forall requests,
        (length (WorkingFastScreenOCR.text_cache
                   (WorkingFastScreenOCR.calls fresh requests).2)
         <= Z.to_nat capacity)%nat)
  /\ WorkingFastScreenOCR.text_cache after
     = drop (length entries - Z.to_nat capacity) (map entry entries)
  /\ (length entries = S (Z.to_nat capacity) ->
      WorkingFastScreenOCR.text_cache after = tail (map entry entries)
      /\ length (WorkingFastScreenOCR.text_cache after) = Z.to_nat capacity)
  /\ (forall self image,
        WorkingFastScreenOCR._is_similar_to_cached self (fingerprint image)
          = true ->
        (WorkingFastScreenOCR.fast_ocr self image false).2 = self)
  /\ (let a := frame (1%Z, "a", 0.2%float) in
      let b := frame (2%Z, "b", 0.2%float) in
      let c := frame (3%Z, "c", 0.2%float) in
      let small := WorkingFastScreenOCR.__init__ timeout 2 in
      WorkingFastScreenOCR.text_cache
        (WorkingFastScreenOCR.calls small
           [(a, false); (b, false); (a, false); (c, false)]).2
      = [(2%Z, "b"); (3%Z, "c")]).
Proof.
  intros Hc Hst Hnd. cbv zeta.
  assert (Hfifo :
    WorkingFastScreenOCR.text_cache
      (WorkingFastScreenOCR.calls (WorkingFastScreenOCR.__init__ timeout capacity)
         (map (fun e => (frame e, false)) entries)).2
    = drop (length entries - Z.to_nat capacity) (map entry entries)).
  { pose proof (calls_fifo entries (WorkingFastScreenOCR.__init__ timeout capacity))
      as H.
    cbn in H. rewrite length_map in H. apply H; auto with lia.
    intros e _. apply not_elem_of_nil. }
  split; [|split; [|split; [|split; [|split]]]].
  - intros self image force_process <- Hlen.
    apply fast_ocr_capacity; assumption.
  - intros requests.
    apply (calls_capacity requests (WorkingFastScreenOCR.__init__ timeout capacity));
      cbn; lia.
  - exact Hfifo.
  - intros Hlen. rewrite Hfifo.
    replace (length entries - Z.to_nat capacity)%nat with 1%nat by lia.
    split; [destruct (map entry entries); reflexivity|].
    rewrite length_drop, length_map. lia.
  - intros self image Hs.
    destruct (fast_ocr_cases self image false)
      as (_ & [(_ & _ & Heq & _) | ([Hf | Hmiss] & _)]); congruence.
  - reflexivity.
Qed.

Lemma text_cache_fifo_witness :
  let entries := [(11%Z, "one", 0.5%float); (12%Z, "two", 0.5%float);
                  (13%Z, "three", 0.5%float)] in
  (0 <= 2)%Z /\ Forall storable entries
  /\ NoDup (map (fun e => e.1.1) entries)
  /\ WorkingFastScreenOCR.text_cache
       (WorkingFastScreenOCR.calls (WorkingFastScreenOCR.__init__ 3.0 2)
          (map (fun e => (frame e, false)) entries)).2
     = [(12%Z, "two"); (13%Z, "three")].
Proof.
  cbv zeta.
  assert (H0 : (0 <= 2)%Z) by lia.
  assert (H1 : Forall storable
                 [(11%Z, "one", 0.5%float); (12%Z, "two", 0.5%float);
                  (13%Z, "three", 0.5%float)]).
  { repeat constructor; cbn; discriminate. }
  assert (H2 : NoDup (map (fun e : Z * string * float => e.1.1)
                 [(11%Z, "one", 0.5%float); (12%Z, "two", 0.5%float);
                  (13%Z, "three", 0.5%float)])).
  { cbn. repeat constructor; rewrite ?elem_of_cons, ?elem_of_nil; intuition lia. }
  split; [exact H0|]. split; [exact H1|]. split; [exact H2|].
  exact (proj1 (proj2 (proj2 (text_cache_fifo 3.0 2 _ H0 H1 H2)))).
Defined.

Lemma calls_texts_nonempty (requests : list (Image * bool)) :
  forall self : WorkingFastScreenOCR.t,
    texts_nonempty (WorkingFastScreenOCR.text_cache self) ->
    texts_nonempty
      (WorkingFastScreenOCR.text_cache
         (WorkingFastScreenOCR.calls self requests).2).
Proof.
  induction requests as [| [image force_process] rest IH]; intros self Hinv;
    cbn; [assumption|].
  pose proof (fast_ocr_texts_nonempty self image force_process Hinv) as Hstep.
  destruct (WorkingFastScreenOCR.fast_ocr self image force_process)
    as [result self1].
  specialize (IH self1 Hstep).
  destruct (WorkingFastScreenOCR.calls self1 rest) as [results self2].
  exact IH.
Qed.

(** C9: the fast-path cache never stores an empty result. A call changes
    the cache only by storing a non-empty recognition result under a
    usable (non-[None], non-zero) hash; an empty result (timeout, failure,
    no text) leaves the cache as it was, so every cached text stays
    non-empty and a frame that was not cached is recognised again the next
    time its fingerprint comes up. *)
Theorem fast_ocr_stores_only_text (self : WorkingFastScreenOCR.t)
    (image : Image) (force_process : bool) :
  let r := WorkingFastScreenOCR.fast_ocr self image force_process in
  let cache := WorkingFastScreenOCR.text_cache in
  (cache r.2 <> cache self ->
     exists h, fingerprint image = Some h /\ h <> 0%Z /\ r.1 <> ""
               /\ cache r.2
                  = trim (WorkingFastScreenOCR.cache_size self)
                      (Dict.set h r.1 (cache self)))
  /\ (r.1 = "" -> cache r.2 = cache self)
  /\ (recognition image = Alive \/ (exists msg, recognition image = Failed msg)
      \/ (exists seconds, recognition image = Done "" seconds) ->
      cache r.2 = cache self)
  /\ (texts_nonempty (cache self) -> texts_nonempty (cache r.2))
  /\ (forall timeout capacity requests,
        texts_nonempty
          (cache (WorkingFastScreenOCR.calls
                    (WorkingFastScreenOCR.__init__ timeout capacity)
                    requests).2))
  /\ (texts_nonempty (cache self) ->
      WorkingFastScreenOCR._is_similar_to_cached self (fingerprint image)
        = true ->
      force_process = false -> r.1 <> "")
  /\ (WorkingFastScreenOCR._is_similar_to_cached self (fingerprint image)
        = false ->
      r.1 = "" ->
      forall again,
        fingerprint again = fingerprint image ->
        let r' := WorkingFastScreenOCR.fast_ocr r.2 again false in
        r'.1 = (WorkingQuickOCR.ocr_with_timeout
                  (WorkingFastScreenOCR.base r.2) again).1
        /\ WorkingQuickOCR.total_calls
             (WorkingQuickOCR.performance_stats
                (WorkingFastScreenOCR.base r'.2))
           = (WorkingQuickOCR.total_calls
                (WorkingQuickOCR.performance_stats
                   (WorkingFastScreenOCR.base r.2)) + 1)%Z).
Proof.
  cbv zeta.
  pose proof (fast_ocr_cases self image force_process) as Hcases.
  cbv zeta in Hcases. destruct Hcases as [Hsize Hcases].
  assert (Hempty :
    (WorkingFastScreenOCR.fast_ocr self image force_process).1 = "" ->
    WorkingFastScreenOCR.text_cache
      (WorkingFastScreenOCR.fast_ocr self image force_process).2
    = WorkingFastScreenOCR.text_cache self).
  { intros Hres.
    destruct Hcases
      as [(_ & _ & -> & _) | (_ & Hr & _ & [[_ ->] | (h & _ & _ & Ht & _)])];
      try reflexivity.
    rewrite Hr in Hres. contradiction. }
  split; [|split; [exact Hempty|split; [|split; [|split; [|split]]]]].
  - intros Hchanged.
    destruct Hcases
      as [(_ & _ & Heq & _) | (_ & Hr & _ & [[_ Heq] | (h & Hh & Hnz & Ht & Hc)])].
    + rewrite Heq in Hchanged. contradiction.
    + contradiction.
    + exists h. rewrite Hr. auto.
  - intros Hrec.
    destruct Hcases
      as [(_ & _ & -> & _) | (_ & _ & _ & [[_ ->] | (h & _ & _ & Ht & _)])];
      try reflexivity.
    exfalso. apply Ht. unfold WorkingQuickOCR.ocr_with_timeout.
    destruct Hrec as [-> | [[msg ->] | [seconds ->]]]; reflexivity.
  - apply fast_ocr_texts_nonempty.
  - intros timeout capacity requests.
    apply calls_texts_nonempty. constructor.
  - intros Hinv Hs ->.
    destruct Hcases as [(_ & _ & _ & h & _ & Hget) | ([Hf | Hmiss] & _)];
      try congruence.
    apply dict_get_elem in Hget. unfold texts_nonempty in Hinv.
    rewrite Forall_forall in Hinv. exact (Hinv _ Hget).
  - intros Hmiss Hres again Hfp.
    specialize (Hempty Hres).
    set (self1 := (WorkingFastScreenOCR.fast_ocr self image force_process).2)
      in *.
    assert (Hstill :
      WorkingFastScreenOCR._is_similar_to_cached self1 (fingerprint again)
      = false).
    { rewrite Hfp, <- Hmiss.
      unfold WorkingFastScreenOCR._is_similar_to_cached. rewrite Hempty.
      reflexivity. }
    destruct (fast_ocr_cases self1 again false)
      as (_ & [(_ & Hs & _) | (_ & Hr & Hb & _)]); [congruence|].
    rewrite Hr, Hb. split; [reflexivity | apply ocr_with_timeout_counts].
Qed.

(** * Batch processing *)

Lemma collect_loop (entries : list (WorkingFastScreenOCR.future * Image)) :
  forall results,
    fold_left
      (fun results entry =>
         match entry.1 with
         | WorkingFastScreenOCR.Returned result => results ++ [result]
         | WorkingFastScreenOCR.TimeoutError => results ++ [""]
         | WorkingFastScreenOCR.Raised => results ++ [""]
         end)
      entries results
    = results ++ map (fun entry => collected entry.1) entries.
Proof.
  induction entries as [| [f img] rest IH]; intros results; cbn.
  - rewrite app_nil_r. reflexivity.
  - rewrite IH. destruct f; cbn; rewrite <- app_assoc; reflexivity.
Qed.

Lemma batch_ocr_imap (submit : nat -> Image -> WorkingFastScreenOCR.future)
    (images : list Image) :
  WorkingFastScreenOCR.batch_ocr submit images
  = imap (fun i img => collected (submit i img)) images.
Proof.
  unfold WorkingFastScreenOCR.batch_ocr.
  destruct images as [| image rest] eqn:Himages; [reflexivity|].
  rewrite <- Himages. clear Himages.
  rewrite collect_loop. cbn [app].
  change (map (fun entry : WorkingFastScreenOCR.future * Image =>
                 collected entry.1))
    with (fmap (M := list)
            (fun entry : WorkingFastScreenOCR.future * Image =>
               collected entry.1)).
  rewrite fmap_imap. reflexivity.
Qed.

(** C7: [batch_ocr] over [n] images returns exactly [n] results in input
    order; the empty list gives the empty list; an item whose future times
    out or raises contributes the empty string, and every other item still
    contributes its own result. *)
Theorem batch_ocr_one_result_per_image
    (submit : nat -> Image -> WorkingFastScreenOCR.future)
    (images : list Image) :
  length (WorkingFastScreenOCR.batch_ocr submit images) = length images
  /\ WorkingFastScreenOCR.batch_ocr submit [] = []
  /\ (forall i img,
        images !! i = Some img ->
        WorkingFastScreenOCR.batch_ocr submit images !! i
        = Some match submit i img with
               | WorkingFastScreenOCR.Returned result => result
               | WorkingFastScreenOCR.TimeoutError => ""
               | WorkingFastScreenOCR.Raised => ""
               end).
Proof.
  rewrite batch_ocr_imap. split; [apply length_imap|]. split; [reflexivity|].
  intros i img Hi. rewrite list_lookup_imap, Hi. reflexivity.
Qed.

(** * Conversions and true division

    When an integer converts to a float and when a quotient of integers
    is one. *)

Section Conversion.
Local Open Scope Z_scope.

Lemma Zdigits2_upper (z k : Z) : 0 <= z -> 0 <= k -> z < 2 ^ k -> Zdigits2 z <= k.
Proof.
  intros Hz Hk Hlt. destruct z as [| p | p]; [cbn; lia | | lia].
  cbn [Zdigits2]. destruct (digits2_pos_bounds p) as [Hlo _].
  assert (Zpos (digits2_pos p) - 1 < k); [|lia].
  apply (Z.pow_lt_mono_r_iff 2); lia.
Qed.

Lemma Zdigits2_lower (z : Z) : 0 <= z -> z < 2 ^ Zdigits2 z.
Proof.
  intros Hz. destruct z as [| p | p]; [cbn; lia | | lia].
  apply digits2_pos_bounds.
Qed.

Lemma Zdigits2_nonneg (z : Z) : 0 <= Zdigits2 z.
Proof. destruct z; cbn; lia. Qed.

(** [shr_fexp] moves the exponent up to the one the format asks for and
    divides the mantissa accordingly. *)
Lemma shr_fexp_spec (m e : Z) (l : location) :
  0 <= m ->
  exists r,
    shr_fexp prec emax m e l
    = (r, Z.max e (fexp prec emax (Zdigits2 m + e)))
    /\ shr_m r = m / 2 ^ (Z.max e (fexp prec emax (Zdigits2 m + e)) - e).
Proof.
  intros Hm. unfold shr_fexp.
  destruct (fexp prec emax (Zdigits2 m + e) - e) as [| p | p] eqn:Hn;
    cbn [shr].
  - exists (shr_record_of_loc m l). split.
    + f_equal. lia.
    + replace (Z.max e _ - e) with 0 by lia.
      rewrite Z.pow_0_r, Z.div_1_r. destruct l as [|[| |]]; reflexivity.
  - eexists. split.
    + f_equal. lia.
    + rewrite iter_pos_shr_m by (destruct l as [|[| |]]; exact Hm).
      replace (Z.max e _ - e) with (Zpos p) by lia.
      destruct l as [|[| |]]; reflexivity.
  - exists (shr_record_of_loc m l). split.
    + f_equal. lia.
    + replace (Z.max e _ - e) with 0 by lia.
      rewrite Z.pow_0_r, Z.div_1_r. destruct l as [|[| |]]; reflexivity.
Qed.

(** Rounding stays finite as long as the value is below [2 ^ 1023]. *)
Lemma binary_round_aux_finite (s : bool) (m e : Z) (l : location) :
  0 <= m -> Zdigits2 m + e <= 1023 -> e <= 971 ->
  forall s', binary_round_aux prec emax s m e l <> S754_infinity s'.
Proof.
  intros Hm Hd He s'. unfold binary_round_aux.
  destruct (shr_fexp_spec m e l Hm) as (r1 & -> & Hr1).
  set (e1 := Z.max e (fexp prec emax (Zdigits2 m + e))) in *.
  pose proof (round_nearest_even_bounds (shr_m r1) (loc_of_shr_record r1))
    as Hrne.
  set (m2 := round_nearest_even (shr_m r1) (loc_of_shr_record r1)) in *.
  assert (He1 : e <= e1 <= 971).
  { subst e1. unfold fexp, emin, prec, emax. lia. }
  assert (H1 : 0 <= shr_m r1 < 2 ^ Z.max 0 (Zdigits2 m + e - e1)).
  { rewrite Hr1. split; [apply Z.div_pos; [lia | apply Z.pow_pos_nonneg; lia]|].
    pose proof (Zdigits2_lower m Hm) as Hlt.
    pose proof (Zdigits2_nonneg m) as Hdn.
    apply Z.div_lt_upper_bound; [apply Z.pow_pos_nonneg; lia|].
    rewrite <- Z.pow_add_r by lia.
    eapply Z.lt_le_trans; [exact Hlt|].
    apply Z.pow_le_mono_r; lia. }
  assert (Hm2 : 0 <= m2) by lia.
  assert (Hd2 : Zdigits2 m2 <= Z.max 0 (Zdigits2 m + e - e1) + 1).
  { apply Zdigits2_upper; [lia | lia |].
    rewrite Z.pow_add_r, Z.pow_1_r by lia. lia. }
  destruct (shr_fexp_spec m2 e1 loc_Exact Hm2) as (r2 & -> & Hr2).
  set (e2 := Z.max e1 (fexp prec emax (Zdigits2 m2 + e1))) in *.
  assert (He2 : e2 <= 971).
  { subst e2. unfold fexp, emin, prec, emax. lia. }
  destruct (shr_m r2) as [| p | p]; try discriminate.
  change (emax - prec) with 971.
  destruct (Z.leb_spec e2 971); [discriminate | lia].
Qed.


Lemma digits2_pos_iter_xO (d m : positive) :
  Zpos (digits2_pos (Pos.iter xO m d)) = Zpos (digits2_pos m) + Zpos d.
Proof.
  induction d as [| d IH] using Pos.peano_ind.
  - cbn [Pos.iter digits2_pos]. lia.
  - rewrite Pos.iter_succ. cbn [digits2_pos]. lia.
Qed.

Lemma float_of_int_finite (n : Z) :
  - 2 ^ 1023 < n < 2 ^ 1023 -> exists x, Py.float_of_int n = inr x.
Proof.
  intros Hn. unfold Py.float_of_int.
  assert (Hfin : forall s', binary_normalize prec emax n 0 false
                            <> S754_infinity s').
  { destruct n as [| m | m]; cbn [binary_normalize]; [discriminate | |];
      unfold binary_round, shl_align;
      (assert (Hd : Zpos (digits2_pos m) <= 1023)
         by (apply (Zdigits2_upper (Zpos m)); lia));
      (destruct (fexp prec emax (Zpos (digits2_pos m) + 0) - 0)
         as [| d | d] eqn:Hf);
      intros s'; apply binary_round_aux_finite; try lia;
      cbn [Zdigits2]; rewrite ?digits2_pos_iter_xO;
      unfold fexp, emin, prec, emax in *; lia. }
  destruct (binary_normalize prec emax n 0 false) as [sz | sz | | sz mz ez];
    eauto.
  exfalso. apply (Hfin sz). reflexivity.
Qed.
End Conversion.

(** * Statistics *)






(** * Configuration and error containment *)

Lemma iteration_contained (env : Cycle) (self : IntegratedDiscordOCRSystem.t) :
  (IntegratedDiscordOCRSystem.iteration env self).1 = None.
Proof.
  unfold IntegratedDiscordOCRSystem.iteration, Py.try_except.
  destruct (IntegratedDiscordOCRSystem.attempt env _) as [[e |] self1];
    reflexivity.
Qed.

Lemma loop_contained (envs : list Cycle) :
  forall self, (IntegratedDiscordOCRSystem._main_processing_loop envs self).1
               = None.
Proof.
  induction envs as [| env rest IH]; intros self; cbn; [reflexivity|].
  pose proof (iteration_contained env self) as Hit.
  destruct (IntegratedDiscordOCRSystem.iteration env self) as [[e |] self1];
    cbn in Hit; [discriminate | apply IH].
Qed.

(** C8 (as stated) fails: a configuration file with a negative interval
    and a negative deadline is accepted, and start-up completes with those
    values in force in the configuration, the engines and the capture
    system. *)
Lemma startup_accepts_out_of_range :
  let user : gmap string Py.value :=
    {[ "ocr_interval" := Py.VFloat (-5); "ocr_timeout" := Py.VFloat (-1) ]} in
  IntegratedDiscordOCRSystem.load_config (Parsed user)
  = inr (user ∪ IntegratedDiscordOCRSystem.default_config)
  /\ exists sys,
       IntegratedDiscordOCRSystem.__init__ (Parsed user) Absent = inr sys
       /\ IntegratedDiscordOCRSystem.config sys !! "ocr_interval"
          = Some (Py.VFloat (-5))
       /\ IntegratedDiscordOCRSystem.config sys !! "ocr_timeout"
          = Some (Py.VFloat (-1))
       /\ IntegratedDiscordOCRSystem.main_timeout sys = Py.VFloat (-1)
       /\ IntegratedDiscordOCRSystem.fast_timeout sys = (-0.8)%float
       /\ DiscordScreenshareOCR.ocr_interval
            (IntegratedDiscordOCRSystem.main_system sys)
          = Py.VFloat (-5).
Proof.
  cbv zeta. split; [reflexivity|].
  eexists. split; [vm_compute; reflexivity|].
  repeat split.
Qed.

Lemma update_from_covers (items : list Py.json) : forall d k,
  is_Some (d !! k) -> is_Some ((Py.update_from items d).2 !! k).
Proof.
  induction items as [| element rest IH]; intros d k Hk; [exact Hk|].
  cbn [Py.update_from].
  destruct (Py.pair_of element) as [e | [[| b | n | x | key | l | m] v]];
    try exact Hk; try (apply IH, Hk).
  apply IH. rewrite lookup_insert_is_Some.
  destruct (decide (key = k)); auto.
Qed.

Lemma update_covers (document : Py.json) (d : gmap string Py.value) k :
  is_Some (d !! k) -> is_Some ((Py.update d document).2 !! k).
Proof.
  intros Hk.
  destruct document as [| b | n | x | [| c s] | items | members];
    cbn [Py.update snd]; try exact Hk.
  - apply update_from_covers, Hk.
  - rewrite lookup_union. destruct (Py.object members !! k), Hk as [w ->];
      cbn; eauto.
Qed.

Lemma object_cons (kv : string * Py.json) (pairs : list (string * Py.json))
    (d : gmap string Py.value) :
  Py.object (kv :: pairs) ∪ d
  = Py.object pairs ∪ <[kv.1 := Py.of_json kv.2]> d.
Proof.
  unfold Py.object. cbn [map]. rewrite reverse_cons, list_to_map_app.
  cbn [list_to_map foldr]. rewrite <- (assoc_L (∪)).
  f_equal. rewrite <- insert_union_l, (left_id_L ∅ (∪)). reflexivity.
Qed.

(** An array of [[key, value]] pairs is applied in order, and what
    follows the pairs goes on from there. *)
Lemma update_from_pairs (pairs : list (string * Py.json))
    (rest : list Py.json) : forall d,
  Py.update_from (map pair_item pairs ++ rest) d
  = Py.update_from rest (Py.object pairs ∪ d).
Proof.
  induction pairs as [| kv pairs IH]; intros d.
  - cbn. unfold Py.object. cbn. rewrite (left_id_L ∅ (∪)). reflexivity.
  - cbn [map app pair_item Py.update_from Py.pair_of].
    rewrite IH, object_cons. reflexivity.
Qed.

Lemma load_config_total (file : config_file) :
  exists cfg,
    IntegratedDiscordOCRSystem.load_config file = inr cfg
    /\ forall key,
         is_Some (IntegratedDiscordOCRSystem.default_config !! key) ->
         is_Some (cfg !! key).
Proof.
  destruct file as [| | user | document]; cbn; eexists;
    (split; [reflexivity|]); intros key Hk; try exact Hk.
  - rewrite lookup_union. destruct (user !! key), Hk as [w ->]; cbn; eauto.
  - apply update_covers, Hk.
Qed.

(** C8 (as the code has it): loading the configuration never raises and
    checks no ranges. Every default key is present afterwards. Values
    from a JSON object override the defaults as they are; a missing or
    unreadable file, or a JSON scalar, leaves the defaults; of a JSON
    array the pairs before the first element that is no pair are applied
    and stay. Start-up then looks at the deadline only to multiply it: it
    goes through with any interval whenever the deadline is a number that
    converts to a float, which every float and every integer below
    [2 ^ 1023] in magnitude does, and raises at the multiplication
    otherwise. Inside the loop every exception of an iteration is caught:
    the iteration is recorded as a failed frame and the loop goes on. *)
Theorem configuration_is_not_validated (file main_file : config_file) :
  (exists cfg,
     IntegratedDiscordOCRSystem.load_config file = inr cfg
     /\ (forall key,
           is_Some (IntegratedDiscordOCRSystem.default_config !! key) ->
           is_Some (cfg !! key))
     /\ (forall user key v,
           file = Parsed user -> user !! key = Some v -> cfg !! key = Some v)
     /\ (forall user key,
           file = Parsed user -> user !! key = None ->
           cfg !! key = IntegratedDiscordOCRSystem.default_config !! key)
     /\ (file = Absent \/ file = Unreadable ->
         cfg = IntegratedDiscordOCRSystem.default_config)
     /\ (forall document,
           file = NotObject document -> scalar document = true ->
           cfg = IntegratedDiscordOCRSystem.default_config)
     /\ (forall pairs,
           file = NotObject (Py.JArray (map pair_item pairs)) ->
           cfg = Py.object pairs ∪ IntegratedDiscordOCRSystem.default_config)
     /\ (forall pairs bad rest e,
           file = NotObject (Py.JArray (map pair_item pairs ++ bad :: rest)) ->
           Py.pair_of bad = inl e ->
           cfg = Py.object pairs ∪ IntegratedDiscordOCRSystem.default_config)
     /\ (exists timeout interval,
           cfg !! "ocr_timeout" = Some timeout
           /\ cfg !! "ocr_interval" = Some interval
           /\ match Py.number timeout with
              | inr seconds =>
                  exists sys,
                    IntegratedDiscordOCRSystem.__init__ file main_file = inr sys
                    /\ IntegratedDiscordOCRSystem.config sys = cfg
                    /\ IntegratedDiscordOCRSystem.main_timeout sys = timeout
                    /\ IntegratedDiscordOCRSystem.fast_timeout sys
                       = (seconds * 0.8)%float
                    /\ IntegratedDiscordOCRSystem.discord_timeout sys
                       = (seconds * 0.6)%float
                    /\ DiscordScreenshareOCR.ocr_interval
                         (IntegratedDiscordOCRSystem.main_system sys)
                       = interval
              | inl e =>
                  IntegratedDiscordOCRSystem.__init__ file main_file = inl e
              end))
  /\ (forall x, Py.number (Py.VFloat x) = inr x)
  /\ (forall n, (- 2 ^ 1023 < n < 2 ^ 1023)%Z ->
                exists x, Py.number (Py.VInt n) = inr x)
  /\ (forall self, (DiscordScreenshareOCR.load_config self main_file).1 = None)
  /\ (forall envs self,
        (IntegratedDiscordOCRSystem._main_processing_loop envs self).1 = None)
  /\ (forall env self e self1,
        let sampled :=
          IntegratedDiscordOCRSystem.with_metrics self
            (PerformanceMonitor.sample (IntegratedDiscordOCRSystem.metrics self)
               (gauges env).1 (gauges env).2) in
        IntegratedDiscordOCRSystem.attempt env sampled = (Some e, self1) ->
        IntegratedDiscordOCRSystem.iteration env self
        = (None,
           IntegratedDiscordOCRSystem.with_metrics self1
             (PerformanceMonitor.update_ocr_metrics
                (IntegratedDiscordOCRSystem.metrics self1) 0 false))).
Proof.
  split; [|split; [|split; [|split; [|split]]]].
  - destruct (load_config_total file) as (cfg & Hload & Hkeys).
    exists cfg. split; [exact Hload|]. split; [exact Hkeys|].
    split; [|split; [|split; [|split; [|split; [|split]]]]].
    + intros user key v -> Hv. unfold IntegratedDiscordOCRSystem.load_config in Hload.
      injection Hload as <-.
      apply lookup_union_Some_l, Hv.
    + intros user key -> Hv. unfold IntegratedDiscordOCRSystem.load_config in Hload.
      injection Hload as <-.
      apply lookup_union_r, Hv.
    + intros [-> | ->]; unfold IntegratedDiscordOCRSystem.load_config in Hload;
        injection Hload as <-; reflexivity.
    + intros document -> Hs. unfold IntegratedDiscordOCRSystem.load_config in Hload.
      injection Hload as <-.
      destruct document; try discriminate Hs; reflexivity.
    + intros pairs ->.
      unfold IntegratedDiscordOCRSystem.load_config in Hload.
      injection Hload as <-.
      cbn [Py.update snd]. rewrite <- (app_nil_r (map pair_item pairs)).
      rewrite update_from_pairs. reflexivity.
    + intros pairs bad rest e -> Hbad. unfold IntegratedDiscordOCRSystem.load_config in Hload.
      injection Hload as <-.
      rewrite update_from_pairs. cbn [Py.update_from]. rewrite Hbad.
      reflexivity.
    + destruct (Hkeys "ocr_timeout") as [timeout Ht]; [vm_compute; eauto|].
      destruct (Hkeys "ocr_interval") as [interval Hi]; [vm_compute; eauto|].
      exists timeout, interval. split; [exact Ht|]. split; [exact Hi|].
      unfold IntegratedDiscordOCRSystem.__init__,
        IntegratedDiscordOCRSystem.initialize_components, Py.item.
      rewrite Hload, Ht, Hi.
      destruct (Py.number timeout) as [e | seconds]; [reflexivity|].
      eexists. split; [reflexivity|]. repeat split.
  - reflexivity.
  - intros n Hn. apply float_of_int_finite, Hn.
  - intros self. destruct main_file as [| | user | []]; reflexivity.
  - apply loop_contained.
  - intros env self e self1. cbv zeta. intros Hraise.
    unfold IntegratedDiscordOCRSystem.iteration, Py.try_except.
    rewrite Hraise. reflexivity.
Qed.

(** A file holding the array [[["ocr_interval", -5], 7]] is half
    applied: the pair is taken, the 7 stops [update], and the exception
    is only logged. *)
Example load_config_half_applied :
  IntegratedDiscordOCRSystem.load_config
    (NotObject (Py.JArray [Py.JArray [Py.JStr "ocr_interval"; Py.JInt (-5)];
                           Py.JInt 7]))
  = inr (<["ocr_interval" := Py.VInt (-5)]>
           IntegratedDiscordOCRSystem.default_config).
Proof. vm_compute. reflexivity. Qed.

(** A deadline that is an integer too large for a float stops start-up at
    [ocr_timeout * 0.8]; this is a failed conversion, not a range check. *)
Example startup_stops_on_unconvertible_deadline :
  IntegratedDiscordOCRSystem.__init__
    (Parsed {[ "ocr_timeout" := Py.VInt (10 ^ 400) ]}) Absent
  = inl Py.OverflowError.
Proof. vm_compute. reflexivity. Qed.

(** * The order of binary64 values *)

Section FloatOrder.
Local Open Scope Z_scope.

Lemma SFcompare_key (a b : spec_float) :
  a <> S754_nan -> b <> S754_nan ->
  SFcompare a b = Some (key_compare (order_key a) (order_key b)).
Proof.
  intros Ha Hb.
  destruct a as [sa | sa | | sa ma ea], b as [sb | sb | | sb mb eb];
    try contradiction; try (destruct sa); try (destruct sb);
    try reflexivity.
  unfold SFcompare, order_key, key_compare. cbn [fst snd].
  rewrite Z.compare_refl.
  rewrite !Z.compare_opp, (Z.compare_antisym ea eb).
  destruct (ea ?= eb) eqn:He; cbn [CompOpp]; try reflexivity.
  change (Pos.compare_cont Eq ma mb) with (Pos.compare ma mb).
  f_equal. symmetry. exact (Pos.compare_antisym ma mb).
Qed.

Lemma key_compare_lt a b : key_compare a b = Lt <-> key_lt a b.
Proof.
  unfold key_compare, key_lt.
  destruct (Z.compare_spec a.1.1 b.1.1);
    destruct (Z.compare_spec a.1.2 b.1.2);
    destruct (Z.compare_spec a.2 b.2);
    split; intros; try discriminate; try reflexivity; lia.
Qed.

Lemma key_compare_le a b : key_compare a b <> Gt <-> key_le a b.
Proof.
  unfold key_compare, key_le.
  destruct (Z.compare_spec a.1.1 b.1.1);
    destruct (Z.compare_spec a.1.2 b.1.2);
    destruct (Z.compare_spec a.2 b.2);
    split; intros; try discriminate; try congruence; lia.
Qed.

Lemma ltb_key (a b : float) :
  (a <? b)%float = true
  <-> ordered a /\ ordered b
      /\ key_lt (order_key (Prim2SF a)) (order_key (Prim2SF b)).
Proof.
  rewrite ltb_spec. unfold SFltb, ordered. split.
  - intros H.
    assert (Ha : Prim2SF a <> S754_nan).
    { intros E. rewrite E in H. discriminate. }
    assert (Hb : Prim2SF b <> S754_nan).
    { intros E. rewrite E in H. destruct (Prim2SF a); discriminate. }
    rewrite (SFcompare_key _ _ Ha Hb) in H.
    split; [assumption|]. split; [assumption|].
    apply key_compare_lt. destruct (key_compare _ _); congruence.
  - intros (Ha & Hb & Hk). rewrite (SFcompare_key _ _ Ha Hb).
    apply key_compare_lt in Hk. rewrite Hk. reflexivity.
Qed.

Lemma leb_key (a b : float) :
  (a <=? b)%float = true
  <-> ordered a /\ ordered b
      /\ key_le (order_key (Prim2SF a)) (order_key (Prim2SF b)).
Proof.
  rewrite leb_spec. unfold SFleb, ordered. split.
  - intros H.
    assert (Ha : Prim2SF a <> S754_nan).
    { intros E. rewrite E in H. discriminate. }
    assert (Hb : Prim2SF b <> S754_nan).
    { intros E. rewrite E in H. destruct (Prim2SF a); discriminate. }
    rewrite (SFcompare_key _ _ Ha Hb) in H.
    split; [assumption|]. split; [assumption|].
    apply key_compare_le. destruct (key_compare _ _); congruence.
  - intros (Ha & Hb & Hk). rewrite (SFcompare_key _ _ Ha Hb).
    apply key_compare_le in Hk. destruct (key_compare _ _); congruence.
Qed.

Lemma ltb_false_key (a b : float) :
  ordered a -> ordered b ->
  (a <? b)%float = false ->
  key_le (order_key (Prim2SF b)) (order_key (Prim2SF a)).
Proof.
  intros Ha Hb H.
  assert (Hn : ~ key_lt (order_key (Prim2SF a)) (order_key (Prim2SF b))).
  { intros Hk. assert ((a <? b)%float = true) by (apply ltb_key; auto).
    congruence. }
  unfold key_lt, key_le in *. lia.
Qed.

(** [a <= b] and [b < c] give [a < c]. *)
Lemma leb_ltb_trans (a b c : float) :
  (a <=? b)%float = true -> (b <? c)%float = true -> (a <? c)%float = true.
Proof.
  rewrite leb_key, !ltb_key. intros (Ha & Hb & Hab) (_ & Hc & Hbc).
  split; [assumption|]. split; [assumption|].
  unfold key_lt, key_le in *. lia.
Qed.

Lemma ltb_leb (a b : float) : (a <? b)%float = true -> (a <=? b)%float = true.
Proof.
  rewrite leb_key, ltb_key. intros (Ha & Hb & Hab).
  split; [assumption|]. split; [assumption|].
  unfold key_lt, key_le in *. lia.
Qed.
End FloatOrder.

(** * More on the OCR classes *)

Lemma ocr_with_timeout_step (self : WorkingQuickOCR.t) (image : Image) :
  let before := WorkingQuickOCR.performance_stats self in
  let after :=
    WorkingQuickOCR.performance_stats
      (WorkingQuickOCR.ocr_with_timeout self image).2 in
  WorkingQuickOCR.total_calls after
    = (WorkingQuickOCR.total_calls before + 1)%Z
  /\ WorkingQuickOCR.successful_calls after
     = (WorkingQuickOCR.successful_calls before
        + if recognised image then 1 else 0)%Z
  /\ WorkingQuickOCR.timeout_calls after
     = (WorkingQuickOCR.timeout_calls before
        + if timed_out image then 1 else 0)%Z.
Proof.
  cbv zeta. unfold WorkingQuickOCR.ocr_with_timeout, recognised, timed_out.
  destruct (recognition image); cbn; repeat split; lia.
Qed.

(** X1: the call statistics count what happened. After any sequence of
    [ocr_with_timeout] calls, [total_calls] has grown by the number of
    calls, [successful_calls] by the number of recognitions that returned,
    [timeout_calls] by the number that hit the deadline; failures count in
    neither, so the two never add up to more than the total. *)
Theorem ocr_with_timeout_counts_outcomes (self : WorkingQuickOCR.t)
    (images : list Image) :
  let before := WorkingQuickOCR.performance_stats self in
  let after :=
    WorkingQuickOCR.performance_stats
      (WorkingQuickOCR.recognise_all self images).2 in
  let done := Z.of_nat (length (filter (fun i => recognised i = true) images)) in
  let late := Z.of_nat (length (filter (fun i => timed_out i = true) images)) in
  WorkingQuickOCR.total_calls after
    = (WorkingQuickOCR.total_calls before + Z.of_nat (length images))%Z
  /\ WorkingQuickOCR.successful_calls after
     = (WorkingQuickOCR.successful_calls before + done)%Z
  /\ WorkingQuickOCR.timeout_calls after
     = (WorkingQuickOCR.timeout_calls before + late)%Z
  /\ (done + late <= Z.of_nat (length images))%Z
  /\ length (WorkingQuickOCR.recognise_all self images).1 = length images.
Proof.
  cbv zeta. revert self.
  induction images as [| image rest IH]; intros self.
  - cbn. repeat split; lia.
  - cbn [WorkingQuickOCR.recognise_all].
    pose proof (ocr_with_timeout_step self image) as Hstep. cbv zeta in Hstep.
    destruct (WorkingQuickOCR.ocr_with_timeout self image) as [result self1].
    specialize (IH self1).
    destruct (WorkingQuickOCR.recognise_all self1 rest) as [results self2].
    cbn [fst snd] in *. destruct IH as (Ht & Hs & Hl & Hsum & Hlen).
    destruct Hstep as (Ht1 & Hs1 & Hl1).
    rewrite Ht, Hs, Hl, Ht1, Hs1, Hl1, !filter_cons.
    assert (Hexcl : recognised image = true -> timed_out image = false).
    { unfold recognised, timed_out. destruct (recognition image); congruence. }
    destruct (recognised image), (timed_out image);
      repeat case_decide; try congruence; try (specialize (Hexcl eq_refl));
      try discriminate; cbn [length]; repeat split; lia.
Qed.

Lemma dict_get_set_eq k v d : Dict.get k (Dict.set k v d) = Some v.
Proof.
  induction d as [| [k' v'] rest IH]; cbn.
  - rewrite Z.eqb_refl. reflexivity.
  - destruct (Z.eqb_spec k k') as [-> | Hne]; cbn.
    + rewrite Z.eqb_refl. reflexivity.
    + destruct (Z.eqb_spec k k'); [contradiction | exact IH].
Qed.

Lemma dict_get_set_ne k k' v d :
  k' <> k -> Dict.get k' (Dict.set k v d) = Dict.get k' d.
Proof.
  intros Hne. induction d as [| [k0 v0] rest IH]; cbn.
  - destruct (Z.eqb_spec k' k); [contradiction | reflexivity].
  - destruct (Z.eqb_spec k k0) as [-> | Hk]; cbn.
    + destruct (Z.eqb_spec k' k0); [contradiction | reflexivity].
    + destruct (Z.eqb_spec k' k0); [reflexivity | exact IH].
Qed.

Lemma dict_contains_keys k d : Dict.contains k d = true <-> k ∈ Dict.keys d.
Proof.
  unfold Dict.contains, Dict.keys.
  induction d as [| [k' v'] rest IH]; cbn.
  - split; [discriminate | intros H; inversion H].
  - rewrite elem_of_cons. destruct (Z.eqb_spec k k') as [-> | Hne].
    + split; auto.
    + rewrite IH. split; [auto | intros [H | H]; [contradiction | exact H]].
Qed.

Lemma dict_keys_set k v d :
  Dict.keys (Dict.set k v d)
  = if Dict.contains k d then Dict.keys d else Dict.keys d ++ [k].
Proof.
  unfold Dict.contains, Dict.keys.
  induction d as [| [k' v'] rest IH]; cbn; [reflexivity|].
  destruct (Z.eqb_spec k k') as [-> | Hne]; cbn; [reflexivity|].
  rewrite IH. destruct (Dict.get k rest); reflexivity.
Qed.

Lemma dict_get_app_fresh k v d :
  k ∉ Dict.keys d -> Dict.get k (d ++ [(k, v)]) = Some v.
Proof.
  intros Hfresh. rewrite <- (dict_set_fresh k v d Hfresh).
  apply dict_get_set_eq.
Qed.

Lemma keys_valid_set k v d :
  k <> 0%Z -> keys_valid d -> keys_valid (Dict.set k v d).
Proof.
  intros Hk [Hnd Hz]. unfold keys_valid. rewrite dict_keys_set.
  destruct (Dict.contains k d) eqn:Hc; [split; assumption|].
  assert (Hfresh : k ∉ Dict.keys d).
  { intros Hin. apply dict_contains_keys in Hin. congruence. }
  split.
  - apply NoDup_app. split; [assumption|]. split.
    + intros x Hx Hx'. apply list_elem_of_singleton in Hx'. subst. contradiction.
    + apply NoDup_singleton.
  - rewrite elem_of_app, list_elem_of_singleton. intros [H | H]; auto.
Qed.

Lemma keys_valid_trim cache_size d : keys_valid d -> keys_valid (trim cache_size d).
Proof.
  unfold trim. destruct (_ >? _)%Z; [|auto].
  destruct d as [| kv rest]; [auto|]. cbn. unfold keys_valid, Dict.keys. cbn.
  rewrite NoDup_cons, not_elem_of_cons. tauto.
Qed.

Lemma fast_ocr_keys_valid (self : WorkingFastScreenOCR.t) (image : Image)
    (force_process : bool) :
  keys_valid (WorkingFastScreenOCR.text_cache self) ->
  keys_valid
    (WorkingFastScreenOCR.text_cache
       (WorkingFastScreenOCR.fast_ocr self image force_process).2).
Proof.
  intros Hinv.
  destruct (fast_ocr_cases self image force_process)
    as (_ & [(_ & _ & -> & _) | (_ & _ & _ & [[_ ->] | (h & _ & Hnz & _ & ->)])]);
    try assumption.
  apply keys_valid_trim, keys_valid_set; assumption.
Qed.

(** X2: the cache never holds two entries for one fingerprint, and never an
    entry under hash 0, after any sequence of calls on a new object. *)
Theorem text_cache_keys_distinct (timeout : float) (capacity : Z)
    (requests : list (Image * bool)) :
  let after :=
    (WorkingFastScreenOCR.calls
       (WorkingFastScreenOCR.__init__ timeout capacity) requests).2 in
  NoDup (Dict.keys (WorkingFastScreenOCR.text_cache after))
  /\ 0%Z ∉ Dict.keys (WorkingFastScreenOCR.text_cache after).
Proof.
  cbv zeta.
  assert (Hgen : forall self,
            keys_valid (WorkingFastScreenOCR.text_cache self) ->
            keys_valid
              (WorkingFastScreenOCR.text_cache
                 (WorkingFastScreenOCR.calls self requests).2)).
  { induction requests as [| [image force_process] rest IH]; intros self Hinv;
      cbn; [assumption|].
    pose proof (fast_ocr_keys_valid self image force_process Hinv) as Hstep.
    destruct (WorkingFastScreenOCR.fast_ocr self image force_process)
      as [result self1].
    specialize (IH self1 Hstep).
    destruct (WorkingFastScreenOCR.calls self1 rest) as [results self2].
    exact IH. }
  apply Hgen. split; [constructor | apply not_elem_of_nil].
Qed.

(** X3: what is stored can be read back. Once a frame with a new
    fingerprint has been recognised with some text, and the cache has room
    for at least one entry, the next call with that fingerprint returns
    the same text from the cache and changes nothing: no recognition runs,
    whatever it would have given. *)
Theorem fast_ocr_round_trip (self : WorkingFastScreenOCR.t)
    (e : Z * string * float) (again : Image) :
  storable e ->
  e.1.1 ∉ Dict.keys (WorkingFastScreenOCR.text_cache self) ->
  (1 <= WorkingFastScreenOCR.cache_size self)%Z ->
  fingerprint again = Some e.1.1 ->
  let stored := (WorkingFastScreenOCR.fast_ocr self (frame e) false).2 in
  WorkingFastScreenOCR.fast_ocr stored again false = (e.1.2, stored).
Proof.
  intros Hst Hfresh Hcap Hfp. cbv zeta.
  pose proof (fast_ocr_fresh self e Hst Hfresh) as Hcache.
  set (stored := (WorkingFastScreenOCR.fast_ocr self (frame e) false).2) in *.
  assert (Hget : Dict.get e.1.1 (WorkingFastScreenOCR.text_cache stored)
                 = Some e.1.2).
  { rewrite Hcache. unfold trim, entry. destruct e as [[h text] seconds]. cbn in *.
    destruct (Z.gtb_spec (Z.of_nat (length (WorkingFastScreenOCR.text_cache self
                                             ++ [(h, text)])))
                (WorkingFastScreenOCR.cache_size self)) as [Hgt | Hle].
    - destruct (WorkingFastScreenOCR.text_cache self) as [| kv rest] eqn:Hd.
      + cbn in Hgt. lia.
      + cbn. apply dict_get_app_fresh.
        unfold Dict.keys in *. cbn in Hfresh.
        rewrite not_elem_of_cons in Hfresh. tauto.
    - apply dict_get_app_fresh. exact Hfresh. }
  assert (Hsim : WorkingFastScreenOCR._is_similar_to_cached stored
                   (fingerprint again) = true).
  { rewrite Hfp. unfold WorkingFastScreenOCR._is_similar_to_cached, Dict.contains.
    rewrite Hget. destruct Hst as [Hnz _]. cbn.
    destruct (Z.eqb_spec e.1.1 0); [contradiction|]. cbn.
    destruct (WorkingFastScreenOCR.text_cache stored); [discriminate Hget|].
    reflexivity. }
  destruct (fast_ocr_cases stored again false)
    as (_ & [(_ & _ & Hsame & h & Hh & Hres) | ([Hf | Hmiss] & _)]);
    try congruence.
  rewrite Hfp in Hh. injection Hh as <-. rewrite Hget in Hres.
  injection Hres as Hres.
  destruct (WorkingFastScreenOCR.fast_ocr stored again false) as [r s1].
  cbn in *. congruence.
Qed.

Lemma fast_ocr_round_trip_witness :
  let e := (7%Z, "hello", 0.25%float) in
  let self := WorkingFastScreenOCR.__init__ 3 50 in
  let again := {| fingerprint := Some 7%Z; recognition := Alive |} in
  storable e
  /\ (e.1.1 ∉ Dict.keys (WorkingFastScreenOCR.text_cache self))
  /\ (1 <= WorkingFastScreenOCR.cache_size self)%Z
  /\ fingerprint again = Some e.1.1
  /\ WorkingFastScreenOCR.fast_ocr
       (WorkingFastScreenOCR.fast_ocr self (frame e) false).2 again false
     = ("hello", (WorkingFastScreenOCR.fast_ocr self (frame e) false).2).
Proof.
  cbv zeta.
  assert (H1 : storable (7%Z, "hello", 0.25%float))
    by (split; cbn; discriminate).
  assert (H2 : 7%Z ∉ Dict.keys (WorkingFastScreenOCR.text_cache
                                  (WorkingFastScreenOCR.__init__ 3 50)))
    by apply not_elem_of_nil.
  assert (H3 : (1 <= WorkingFastScreenOCR.cache_size
                       (WorkingFastScreenOCR.__init__ 3 50))%Z)
    by (cbn; lia).
  split; [exact H1|]. split; [exact H2|]. split; [exact H3|].
  split; [reflexivity|].
  exact (fast_ocr_round_trip (WorkingFastScreenOCR.__init__ 3 50)
           (7%Z, "hello", 0.25%float)
           {| fingerprint := Some 7%Z; recognition := Alive |}
           H1 H2 H3 eq_refl).
Defined.

(** X4: a cache of size zero (or less) is a cache switched off. Starting
    empty it stays empty, every call runs the recognition, and the results
    and statistics are those of calling [ocr_with_timeout] directly. *)
Theorem fast_ocr_without_capacity (self : WorkingFastScreenOCR.t)
    (requests : list (Image * bool)) :
  (WorkingFastScreenOCR.cache_size self <= 0)%Z ->
  WorkingFastScreenOCR.text_cache self = [] ->
  let direct :=
    WorkingQuickOCR.recognise_all (WorkingFastScreenOCR.base self)
      (map fst requests) in
  WorkingFastScreenOCR.calls self requests
  = (direct.1,
     {| WorkingFastScreenOCR.base := direct.2;
        WorkingFastScreenOCR.cache_size := WorkingFastScreenOCR.cache_size self;
        WorkingFastScreenOCR.text_cache := [] |}).
Proof.
  cbv zeta. revert self.
  induction requests as [| [image force_process] rest IH];
    intros [quick size cache] Hsize Hempty; cbn in Hsize, Hempty; subst cache.
  - reflexivity.
  - cbn [WorkingFastScreenOCR.calls map fst WorkingQuickOCR.recognise_all
         WorkingFastScreenOCR.base WorkingFastScreenOCR.cache_size].
    assert (Hstep :
      WorkingFastScreenOCR.fast_ocr
        {| WorkingFastScreenOCR.base := quick;
           WorkingFastScreenOCR.cache_size := size;
           WorkingFastScreenOCR.text_cache := [] |} image force_process
      = ((WorkingQuickOCR.ocr_with_timeout quick image).1,
         {| WorkingFastScreenOCR.base :=
              (WorkingQuickOCR.ocr_with_timeout quick image).2;
            WorkingFastScreenOCR.cache_size := size;
            WorkingFastScreenOCR.text_cache := [] |})).
    { unfold WorkingFastScreenOCR.fast_ocr,
        WorkingFastScreenOCR._calculate_image_hash,
        WorkingFastScreenOCR._is_similar_to_cached.
      cbn [WorkingFastScreenOCR.text_cache WorkingFastScreenOCR.base
           WorkingFastScreenOCR.cache_size].
      replace (negb force_process
               && match fingerprint image with
                  | Some h =>
                      if negb (Py.truthy_hash (fingerprint image)) || true
                      then false
                      else if Dict.contains h [] then true else false
                  | None => false
                  end) with false.
      2:{ destruct (fingerprint image); [rewrite orb_true_r|];
          rewrite andb_false_r; reflexivity. }
      destruct (WorkingQuickOCR.ocr_with_timeout quick image) as [result quick1].
      cbn [fst snd].
      destruct (fingerprint image) as [h |]; [|reflexivity].
      destruct (Py.truthy_hash (Some h) && Py.truthy result); [|reflexivity].
      rewrite store_spec. cbn.
      replace (Z.of_nat 1 >? size)%Z with true
        by (symmetry; apply Z.gtb_lt; lia).
      reflexivity. }
    rewrite Hstep.
    destruct (WorkingQuickOCR.ocr_with_timeout quick image) as [result quick1].
    cbn [fst snd].
    rewrite (IH {| WorkingFastScreenOCR.base := quick1;
                   WorkingFastScreenOCR.cache_size := size;
                   WorkingFastScreenOCR.text_cache := [] |} Hsize eq_refl).
    cbn [WorkingFastScreenOCR.base WorkingFastScreenOCR.cache_size].
    destruct (WorkingQuickOCR.recognise_all quick1 (map fst rest)).
    reflexivity.
Qed.

Lemma fast_ocr_without_capacity_witness :
  let self := WorkingFastScreenOCR.__init__ 3 0 in
  let requests := [(frame (7%Z, "hello", 0.25%float), false);
                   (frame (7%Z, "hello", 0.25%float), false)] in
  (WorkingFastScreenOCR.cache_size self <= 0)%Z
  /\ WorkingFastScreenOCR.text_cache self = []
  /\ (WorkingFastScreenOCR.calls self requests).1 = ["hello"; "hello"]
  /\ WorkingQuickOCR.total_calls
       (WorkingQuickOCR.performance_stats
          (WorkingFastScreenOCR.base
             (WorkingFastScreenOCR.calls self requests).2)) = 2%Z.
Proof.
  cbv zeta.
  assert (H1 : (WorkingFastScreenOCR.cache_size
                  (WorkingFastScreenOCR.__init__ 3 0) <= 0)%Z) by (cbn; lia).
  split; [exact H1|]. split; [reflexivity|].
  rewrite (fast_ocr_without_capacity (WorkingFastScreenOCR.__init__ 3 0) _
             H1 eq_refl).
  split; reflexivity.
Defined.

(** X5: forcing a frame that is already cached refreshes its text in
    place. The keys keep their order (the entry is not moved to the back,
    so it is still the next to be evicted if it was the oldest), the new
    text is what a later lookup finds, and no other entry changes. *)
Theorem fast_ocr_force_refreshes_in_place (self : WorkingFastScreenOCR.t)
    (e : Z * string * float) :
  storable e ->
  e.1.1 ∈ Dict.keys (WorkingFastScreenOCR.text_cache self) ->
  (Z.of_nat (length (WorkingFastScreenOCR.text_cache self))
   <= WorkingFastScreenOCR.cache_size self)%Z ->
  let r := WorkingFastScreenOCR.fast_ocr self (frame e) true in
  r.1 = e.1.2
  /\ Dict.keys (WorkingFastScreenOCR.text_cache r.2)
     = Dict.keys (WorkingFastScreenOCR.text_cache self)
  /\ Dict.get e.1.1 (WorkingFastScreenOCR.text_cache r.2) = Some e.1.2
  /\ (forall k, k <> e.1.1 ->
        Dict.get k (WorkingFastScreenOCR.text_cache r.2)
        = Dict.get k (WorkingFastScreenOCR.text_cache self)).
Proof.
  intros [Hnz Htext] Hin Hlen. cbv zeta.
  apply dict_contains_keys in Hin.
  destruct (fast_ocr_cases self (frame e) true)
    as (_ & [(Hf & _) | (_ & Hr & _ & [[Hno _] | (h & Hh & _ & _ & Hc)])]).
  - discriminate.
  - exfalso. cbn in Hno. apply andb_false_iff in Hno as [Hno | Hno].
    + apply negb_false_iff, Z.eqb_eq in Hno. contradiction.
    + apply not_true_iff_false in Hno. apply Hno, truthy_nonempty, Htext.
  - change (Some e.1.1 = Some h) in Hh. injection Hh as <-.
    assert (Hocr : (WorkingQuickOCR.ocr_with_timeout
                      (WorkingFastScreenOCR.base self) (frame e)).1 = e.1.2)
      by reflexivity.
    rewrite Hocr in Hr, Hc. rewrite Hr, Hc.
    assert (Hsame : trim (WorkingFastScreenOCR.cache_size self)
                      (Dict.set e.1.1 e.1.2
                         (WorkingFastScreenOCR.text_cache self))
                    = Dict.set e.1.1 e.1.2
                        (WorkingFastScreenOCR.text_cache self)).
    { unfold trim. rewrite dict_set_length, Hin.
      destruct (Z.gtb_spec (Z.of_nat (length (WorkingFastScreenOCR.text_cache self)))
                  (WorkingFastScreenOCR.cache_size self)); [lia | reflexivity]. }
    rewrite Hsame. split; [reflexivity|]. split; [|split].
    + rewrite dict_keys_set, Hin. reflexivity.
    + apply dict_get_set_eq.
    + intros k Hk. apply dict_get_set_ne. exact Hk.
Qed.

Lemma fast_ocr_force_refreshes_in_place_witness :
  let self :=
    (WorkingFastScreenOCR.calls (WorkingFastScreenOCR.__init__ 3 2)
       [(frame (1%Z, "old", 0.25%float), false);
        (frame (2%Z, "other", 0.25%float), false)]).2 in
  let e := (1%Z, "new", 0.25%float) in
  storable e
  /\ (e.1.1 ∈ Dict.keys (WorkingFastScreenOCR.text_cache self))
  /\ (Z.of_nat (length (WorkingFastScreenOCR.text_cache self))
      <= WorkingFastScreenOCR.cache_size self)%Z
  /\ Dict.keys
       (WorkingFastScreenOCR.text_cache
          (WorkingFastScreenOCR.fast_ocr self (frame e) true).2)
     = [1%Z; 2%Z].
Proof.
  cbv zeta.
  set (self := (WorkingFastScreenOCR.calls (WorkingFastScreenOCR.__init__ 3 2)
       [(frame (1%Z, "old", 0.25%float), false);
        (frame (2%Z, "other", 0.25%float), false)]).2).
  assert (H1 : storable (1%Z, "new", 0.25%float))
    by (split; cbn; discriminate).
  assert (H2 : 1%Z ∈ Dict.keys (WorkingFastScreenOCR.text_cache self))
    by (apply dict_contains_keys; reflexivity).
  assert (H3 : (Z.of_nat (length (WorkingFastScreenOCR.text_cache self))
                <= WorkingFastScreenOCR.cache_size self)%Z)
    by (unfold self; vm_compute; discriminate).
  split; [exact H1|]. split; [exact H2|]. split; [exact H3|].
  rewrite (proj1 (proj2 (fast_ocr_force_refreshes_in_place self _ H1 H2 H3))).
  reflexivity.
Defined.

(** X6: which engine requests leave the worker able to run. After
    [_setup_ocr_engine] on a new object, the attribute the worker reads
    exists exactly when Tesseract was requested, or EasyOCR (installed or
    not: it falls back to a fully configured Tesseract), or PaddleOCR with
    PaddleOCR installed. A request for PaddleOCR without the package
    renames the engine to Tesseract but leaves it unconfigured, an unknown
    engine name is left as it is, and only a PaddleOCR that breaks while
    being constructed makes the set-up raise. *)
Theorem setup_ocr_engine_equips_worker (name : string)
    (easyocr paddle : WorkingQuickOCR.backend) :
  match WorkingQuickOCR._setup_ocr_engine (WorkingQuickOCR.requested name)
          easyocr paddle with
  | inr self =>
      (WorkingQuickOCR.worker_equipped self = true
       <-> name = "tesseract" \/ name = "easyocr"
           \/ (name = "paddleocr" /\ paddle = WorkingQuickOCR.Available))
      /\ (name = "easyocr" -> easyocr <> WorkingQuickOCR.Available ->
          WorkingQuickOCR.engine self = "tesseract")
      /\ (name = "paddleocr" -> paddle = WorkingQuickOCR.NotInstalled ->
          WorkingQuickOCR.engine self = "tesseract"
          /\ WorkingQuickOCR.tesseract_config self = None)
  | inl _ => name = "paddleocr" /\ paddle = WorkingQuickOCR.Broken
  end.
Proof.
  unfold WorkingQuickOCR._setup_ocr_engine, WorkingQuickOCR.requested.
  cbn [WorkingQuickOCR.engine].
  destruct (String.eqb_spec name "tesseract") as [-> | Ht].
  { cbn. split; [split; auto|]. split; discriminate. }
  destruct (String.eqb_spec name "easyocr") as [-> | He].
  { destruct easyocr; cbn; (split; [split; auto|]);
      (split; [intros _ H; try reflexivity; contradiction | discriminate]). }
  destruct (String.eqb_spec name "paddleocr") as [-> | Hp].
  { destruct paddle; cbn.
    - split; [split; auto|]. split; [discriminate|]. discriminate.
    - split; [|split; [discriminate | auto]].
      split; [discriminate|]. intros [H | [H | [_ H]]]; discriminate.
    - auto. }
  unfold WorkingQuickOCR.worker_equipped. cbn.
  destruct (String.eqb_spec name "tesseract"); [contradiction|].
  destruct (String.eqb_spec name "easyocr"); [contradiction|].
  destruct (String.eqb_spec name "paddleocr"); [contradiction|].
  split; [|split; intros; contradiction].
  split; [discriminate|]. intros [H | [H | [H _]]]; contradiction.
Qed.

(** * Stripping and collapsing text

    [str.strip] and [str.replace] as used by [extract_discord_text]. *)

Lemma string_two_step (P : string -> Prop) :
  P "" -> (forall a, P (String a "")) ->
  (forall a b r, P r -> P (String b r) -> P (String a (String b r))) ->
  forall s, P s.
Proof.
  intros H0 H1 H2 s.
  assert (H : P s /\ forall a, P (String a s)).
  { induction s as [| b r [IHr IHbr]]; [split; auto|].
    split; [apply IHbr|]. intros a. apply H2; auto. }
  apply H.
Qed.

Lemma newline_isspace : Py.isspace Str.newline = true.
Proof. reflexivity. Qed.

Lemma eqb_newline_space a : Ascii.eqb a Str.newline = true -> Py.isspace a = true.
Proof. intros H. apply Ascii.eqb_eq in H. subst. reflexivity. Qed.

Lemma collapse_cons_plain c r :
  Py.isspace c = false ->
  Str.collapse_blank_lines (String c r) = String c (Str.collapse_blank_lines r).
Proof.
  intros Hc. cbn [Str.collapse_blank_lines].
  destruct r as [| b r']; [reflexivity|].
  destruct (Ascii.eqb c Str.newline) eqn:E.
  - apply eqb_newline_space in E. congruence.
  - reflexivity.
Qed.

Lemma collapse_app_plain x : forall d y,
  Py.isspace d = false ->
  Str.collapse_blank_lines (x +:+ String d y)
  = Str.collapse_blank_lines x +:+ String d (Str.collapse_blank_lines y).
Proof.
  induction x as [| a | a b r IHr IHbr] using string_two_step; intros d y Hd.
  - apply (collapse_cons_plain d y Hd).
  - change (String a "" +:+ String d y) with (String a (String d y)).
    cbn [Str.collapse_blank_lines].
    destruct (Ascii.eqb a Str.newline && Ascii.eqb d Str.newline) eqn:E.
    + apply andb_prop in E as [_ E]. apply eqb_newline_space in E. congruence.
    + change (String a "" +:+ String d (Str.collapse_blank_lines y))
        with (String a (String d (Str.collapse_blank_lines y))).
      f_equal. apply (collapse_cons_plain d y Hd).
  - change (String a (String b r) +:+ String d y)
      with (String a (String b (r +:+ String d y))).
    cbn [Str.collapse_blank_lines].
    destruct (Ascii.eqb a Str.newline && Ascii.eqb b Str.newline).
    + change (String Str.newline (Str.collapse_blank_lines r) +:+ ?z)
        with (String Str.newline (Str.collapse_blank_lines r +:+ z)).
      f_equal. apply IHr, Hd.
    + change (String a ?u +:+ ?z) with (String a (u +:+ z)).
      f_equal.
      change (String b (r +:+ String d y)) with (String b r +:+ String d y).
      apply IHbr, Hd.
Qed.

Lemma collapse_all_space s :
  all_space s = true -> all_space (Str.collapse_blank_lines s) = true.
Proof.
  induction s as [| a | a b r IHr IHbr] using string_two_step; intros H.
  - reflexivity.
  - exact H.
  - cbn [Str.collapse_blank_lines]. cbn [all_space] in H.
    apply andb_prop in H as [Ha H]. 
    destruct (Ascii.eqb a Str.newline && Ascii.eqb b Str.newline).
    + cbn [all_space]. apply andb_prop in H as [_ H]. rewrite IHr by exact H.
      reflexivity.
    + cbn [all_space]. rewrite Ha. cbn. apply IHbr. exact H.
Qed.

Lemma collapse_nonempty s : s <> "" -> Str.collapse_blank_lines s <> "".
Proof.
  destruct s as [| a [| b r]]; cbn; [congruence | discriminate |].
  destruct (_ && _); discriminate.
Qed.

Lemma append_nil_r s : s +:+ "" = s.
Proof.
  induction s as [| c s IH]; [reflexivity|].
  change (String c s +:+ "") with (String c (s +:+ "")). now rewrite IH.
Qed.

Lemma string_length_append a b :
  String.length (a +:+ b) = (String.length a + String.length b)%nat.
Proof.
  induction a as [| c a IH]; [reflexivity|].
  change (String c a +:+ b) with (String c (a +:+ b)).
  cbn [String.length]. now rewrite IH.
Qed.

Lemma lstrip_app_space w u :
  all_space w = true -> Str.lstrip (w +:+ u) = Str.lstrip u.
Proof.
  induction w as [| c w IH]; intros H; [reflexivity|].
  cbn [all_space] in H. apply andb_prop in H as [Hc H].
  change (String c w +:+ u) with (String c (w +:+ u)).
  cbn [Str.lstrip]. rewrite Hc. apply IH, H.
Qed.

Lemma lstrip_all_space w : all_space w = true -> Str.lstrip w = "".
Proof.
  induction w as [| c w IH]; intros H; [reflexivity|].
  cbn [all_space] in H. apply andb_prop in H as [Hc H].
  cbn [Str.lstrip]. rewrite Hc. apply IH, H.
Qed.

Lemma lstrip_cons_plain c t :
  Py.isspace c = false -> Str.lstrip (String c t) = String c t.
Proof. intros H. cbn [Str.lstrip]. now rewrite H. Qed.

Lemma rstrip_all_space w : all_space w = true -> Str.rstrip w = "".
Proof.
  induction w as [| c w IH]; intros H; [reflexivity|].
  cbn [all_space] in H. apply andb_prop in H as [Hc H].
  cbn [Str.rstrip]. rewrite (IH H), Hc. reflexivity.
Qed.

Lemma rstrip_app_plain x : forall d w,
  Py.isspace d = false -> all_space w = true ->
  Str.rstrip (x +:+ String d w) = x +:+ String d "".
Proof.
  induction x as [| c x IH]; intros d w Hd Hw.
  - change ("" +:+ String d w) with (String d w).
    cbn [Str.rstrip]. rewrite (rstrip_all_space w Hw), Hd. reflexivity.
  - change (String c x +:+ String d w) with (String c (x +:+ String d w)).
    cbn [Str.rstrip]. rewrite (IH d w Hd Hw).
    destruct x; reflexivity.
Qed.

Lemma string_right_decompose t :
  all_space t = true \/
  exists x d w, t = x +:+ String d w /\ Py.isspace d = false /\ all_space w = true.
Proof.
  induction t as [| c t [IH | (x & d & w & -> & Hd & Hw)]].
  - now left.
  - destruct (Py.isspace c) eqn:Hc.
    + left. cbn [all_space]. now rewrite Hc.
    + right. exists "", c, t. auto.
  - right. exists (String c x), d, w. auto.
Qed.

Lemma string_left_decompose s :
  all_space s = true \/
  exists w c t, s = w +:+ String c t /\ all_space w = true /\ Py.isspace c = false.
Proof.
  induction s as [| a s [IH | (w & c & t & -> & Hw & Hc)]].
  - now left.
  - destruct (Py.isspace a) eqn:Ha.
    + left. cbn [all_space]. now rewrite Ha.
    + right. exists "", a, s. auto.
  - destruct (Py.isspace a) eqn:Ha.
    + right. exists (String a w), c, t. repeat split; auto.
      cbn [all_space]. now rewrite Ha.
    + right. exists "", a, (w +:+ String c t). auto.
Qed.

Lemma collapse_length y :
  (String.length y <= 2 * String.length (Str.collapse_blank_lines y))%nat.
Proof.
  induction y as [| a | a b r IHr IHbr] using string_two_step.
  - cbn. lia.
  - cbn. lia.
  - cbn [Str.collapse_blank_lines].
    destruct (Ascii.eqb a Str.newline && Ascii.eqb b Str.newline).
    + simpl String.length. lia.
    + simpl String.length in *. lia.
Qed.

(** The three shapes of a string under [strip], and what
    [collapse_blank_lines] followed by [strip] makes of each. *)
Lemma strip_collapse_shape s :
  (Str.strip s = "" /\ Str.strip (Str.collapse_blank_lines s) = "")
  \/ (exists c, Py.isspace c = false /\ Str.strip s = String c "" /\
        Str.strip (Str.collapse_blank_lines s) = String c "")
  \/ (exists c y d, Py.isspace c = false /\ Py.isspace d = false /\
        Str.strip s = String c (y +:+ String d "") /\
        Str.strip (Str.collapse_blank_lines s)
        = String c (Str.collapse_blank_lines y +:+ String d "")).
Proof.
  destruct (string_left_decompose s) as [Hs | (w1 & c & t & -> & Hw1 & Hc)].
  { left. unfold Str.strip.
    rewrite (lstrip_all_space s Hs).
    rewrite (lstrip_all_space _ (collapse_all_space s Hs)). auto. }
  right.
  rewrite (collapse_app_plain w1 c t Hc).
  unfold Str.strip.
  rewrite (lstrip_app_space w1 _ Hw1), (lstrip_cons_plain c t Hc).
  rewrite (lstrip_app_space _ _ (collapse_all_space w1 Hw1)),
    (lstrip_cons_plain c _ Hc).
  destruct (string_right_decompose t) as [Ht | (y & d & w2 & -> & Hd & Hw2)].
  - left. exists c. split; [exact Hc|].
    split.
    + apply (rstrip_app_plain "" c t Hc Ht).
    + apply (rstrip_app_plain "" c _ Hc (collapse_all_space t Ht)).
  - right. exists c, y, d. split; [exact Hc|]. split; [exact Hd|].
    split.
    + apply (rstrip_app_plain (String c y) d w2 Hd Hw2).
    + rewrite (collapse_app_plain y d w2 Hd).
      apply (rstrip_app_plain (String c (Str.collapse_blank_lines y)) d _ Hd
               (collapse_all_space w2 Hw2)).
Qed.

Lemma strip_idempotent s : Str.strip (Str.strip s) = Str.strip s.
Proof.
  destruct (string_left_decompose s) as [Hs | (w1 & c & t & -> & Hw1 & Hc)].
  { unfold Str.strip. now rewrite (lstrip_all_space s Hs). }
  unfold Str.strip at 2 3.
  rewrite (lstrip_app_space w1 _ Hw1), (lstrip_cons_plain c t Hc).
  destruct (string_right_decompose t) as [Ht | (y & d & w2 & -> & Hd & Hw2)].
  - assert (E : Str.rstrip (String c t) = String c "")
      by apply (rstrip_app_plain "" c t Hc Ht).
    rewrite E. unfold Str.strip. rewrite (lstrip_cons_plain c _ Hc).
    apply (rstrip_app_plain "" c "" Hc eq_refl).
  - assert (E : Str.rstrip (String c (y +:+ String d w2))
                 = String c y +:+ String d "")
      by apply (rstrip_app_plain (String c y) d w2 Hd Hw2).
    rewrite E. unfold Str.strip.
    change (String c y +:+ String d "") with (String c (y +:+ String d "")).
    rewrite (lstrip_cons_plain c _ Hc).
    apply (rstrip_app_plain (String c y) d "" Hd eq_refl).
Qed.

Lemma ocr_with_timeout_text self image :
  (WorkingQuickOCR.ocr_with_timeout self image).1
  = match recognition image with Done result _ => result | _ => "" end.
Proof. unfold WorkingQuickOCR.ocr_with_timeout. now destruct (recognition image). Qed.

(** X7: what [extract_discord_text] returns. It leaves the text cache as
    it was; the text it returns has no white space at either end; and a
    non-empty text comes from a finished recognition of the preprocessed
    image, has at least [min(min_text_length, 3)] characters and at least
    half of [min_text_length]: the threshold is applied before the blank
    lines are collapsed, so the returned text can be shorter than it. *)
Theorem extract_discord_text_result preprocess self image :
  let r := DiscordOptimizedOCR.extract_discord_text preprocess self image in
  WorkingFastScreenOCR.text_cache (DiscordOptimizedOCR.base r.2)
  = WorkingFastScreenOCR.text_cache (DiscordOptimizedOCR.base self)
  /\ Str.strip r.1 = r.1
  /\ (r.1 <> "" ->
      recognised (preprocess image) = true
      /\ (DiscordOptimizedOCR.min_text_length self <= 2 * Str.len r.1)%Z
      /\ (Z.min (DiscordOptimizedOCR.min_text_length self) 3 <= Str.len r.1)%Z).
Proof.
  unfold DiscordOptimizedOCR.extract_discord_text.
  pose proof (ocr_with_timeout_text
                (WorkingFastScreenOCR.base (DiscordOptimizedOCR.base self))
                (preprocess image)) as Htext.
  destruct (WorkingQuickOCR.ocr_with_timeout _ (preprocess image))
    as [text quick].
  cbn [fst] in Htext.
  destruct (Py.truthy text && _) eqn:Hpass; cbn zeta; cbn [fst snd];
    cbn [DiscordOptimizedOCR.base WorkingFastScreenOCR.text_cache
         DiscordOptimizedOCR.min_text_length].
  2:{ split; [reflexivity|]. split; [reflexivity|]. congruence. }
  split; [reflexivity|]. split; [apply strip_idempotent|].
  intros Hne. split.
  { unfold recognised. destruct (recognition (preprocess image));
      try reflexivity; subst text; discriminate. }
  apply andb_prop in Hpass as [_ Hlen]. apply Z.geb_le in Hlen.
  cbn [DiscordOptimizedOCR.min_text_length] in Hlen.
  revert Hlen Hne. unfold Str.len.
  destruct (strip_collapse_shape text)
    as [[_ ->] | [(c & _ & -> & ->) | (c & y & d & _ & _ & -> & ->)]].
  - congruence.
  - simpl String.length. intros Hlen _. split; lia.
  - simpl String.length. rewrite !string_length_append. simpl String.length.
    pose proof (collapse_length y) as Hy.
    intros Hlen _.
    assert (y = "" \/ (1 <= String.length (Str.collapse_blank_lines y))%nat)
      as [-> | Hpos].
    { destruct y as [| a y']; [now left|]. right.
      pose proof (collapse_nonempty (String a y') ltac:(discriminate)).
      destruct (Str.collapse_blank_lines (String a y'));
        [congruence | simpl; lia]. }
    + simpl String.length in *. split; lia.
    + split; lia.
Qed.

(** * The performance monitor *)

Lemma monitor_loop_snoc self probes p :
  PerformanceMonitor._monitor_loop self (probes ++ [p])
  = PerformanceMonitor.monitor_pass
      (PerformanceMonitor._monitor_loop self probes) p.
Proof. unfold PerformanceMonitor._monitor_loop. now rewrite fold_left_app. Qed.

Lemma stamps_snoc probes p :
  stamps (probes ++ [p])
  = stamps probes ++ match p with
                     | PerformanceMonitor.Probed _ _ now => [now]
                     | _ => []
                     end.
Proof.
  unfold stamps. rewrite omap_app. f_equal. destruct p; reflexivity.
Qed.

(** X8: the monitor's history is a sliding window. Starting from a new
    monitor, after any sequence of passes of [_monitor_loop] the history
    holds the time stamps of the last 300 completed passes (all of them
    while there are fewer), oldest first; a pass whose probe raised adds
    nothing. *)
Theorem monitor_loop_keeps_newest (probes : list PerformanceMonitor.probe) :
  let r := PerformanceMonitor._monitor_loop PerformanceMonitor.create probes in
  (PerformanceMonitor.history r).*1
  = drop (length (stamps probes) - 300) (stamps probes)
  /\ (length (PerformanceMonitor.history r) <= 300)%nat
  /\ PerformanceMonitor.max_history r = 300%Z.
Proof.
  cbv zeta.
  induction probes as [| p probes IH] using rev_ind.
  { cbn. split; [reflexivity|]. split; [lia | reflexivity]. }
  rewrite monitor_loop_snoc, stamps_snoc.
  destruct IH as (Hst & Hlen & Hmax).
  set (r := PerformanceMonitor._monitor_loop _ probes) in *.
  assert (Hl : length (PerformanceMonitor.history r)
               = (length (stamps probes) - (length (stamps probes) - 300))%nat).
  { rewrite <- (length_fmap fst), Hst, length_drop. reflexivity. }
  destruct p as [cpu mem now | cpu |]; cbn [PerformanceMonitor.monitor_pass
    PerformanceMonitor.history PerformanceMonitor.max_history].
  - rewrite Hmax. rewrite length_app. cbn [length].
    rewrite length_app. cbn [length].
    destruct (Z.gtb_spec (Z.of_nat (length (PerformanceMonitor.history r) + 1))
                300) as [Hgt | Hle].
    + assert (Hn : (300 <= length (stamps probes))%nat) by lia.
      split; [|split; [|reflexivity]].
      * destruct (PerformanceMonitor.history r) as [| h hs] eqn:Hh;
          [cbn in Hgt; lia|].
        cbn [tail app]. rewrite fmap_app. cbn [fmap list_fmap].
        replace (length (stamps probes) + 1 - 300)%nat
          with ((length (stamps probes) - 300) + 1)%nat by lia.
        rewrite drop_app_le by lia.
        f_equal.
        rewrite <- drop_drop, <- Hst. reflexivity.
      * destruct (PerformanceMonitor.history r) as [| h hs];
          cbn [tail app length] in *; [lia|]. rewrite length_app. cbn. lia.
    + split; [|split; [|reflexivity]].
      * rewrite fmap_app, Hst. cbn [fmap list_fmap].
        replace (length (stamps probes) + 1 - 300)%nat with 0%nat by lia.
        replace (length (stamps probes) - 300)%nat with 0%nat by lia.
        reflexivity.
      * rewrite length_app. cbn. lia.
  - rewrite app_nil_r. auto.
  - rewrite app_nil_r. auto.
Qed.

Lemma record_all_snoc metrics outcomes o :
  PerformanceMonitor.record_all metrics (outcomes ++ [o])
  = PerformanceMonitor.update_ocr_metrics
      (PerformanceMonitor.record_all metrics outcomes) o.1 o.2.
Proof. unfold PerformanceMonitor.record_all. now rewrite fold_left_app. Qed.

Lemma failures_snoc outcomes o :
  failures (outcomes ++ [o])
  = (failures outcomes + if o.2 then 0 else 1)%Z.
Proof.
  unfold failures. rewrite filter_app, length_app.
  destruct o as [x [|]]; cbn [snd].
  - rewrite filter_cons_False by (cbn; discriminate). cbn. lia.
  - rewrite filter_cons_True by reflexivity. cbn. lia.
Qed.

(** X9: the frame counters of [update_ocr_metrics]. After any sequence of
    recorded outcomes [frames_processed] has grown by their number,
    [frames_skipped] and [error_count] each by the number of failures, and
    the CPU, memory and fps entries are untouched. *)
Theorem record_all_counters (metrics : Metrics)
    (outcomes : list (float * bool)) :
  let r := PerformanceMonitor.record_all metrics outcomes in
  frames_processed r
  = (frames_processed metrics + Z.of_nat (length outcomes))%Z
  /\ frames_skipped r = (frames_skipped metrics + failures outcomes)%Z
  /\ error_count r = (error_count metrics + failures outcomes)%Z
  /\ (failures outcomes <= Z.of_nat (length outcomes))%Z
  /\ cpu_usage r = cpu_usage metrics
  /\ memory_usage r = memory_usage metrics
  /\ fps r = fps metrics.
Proof.
  cbv zeta.
  induction outcomes as [| o outcomes IH] using rev_ind.
  { cbn. unfold failures. cbn. repeat split; lia. }
  rewrite record_all_snoc, failures_snoc, length_app.
  destruct IH as (Hp & Hs & He & Hf & Hc & Hm & Hfps).
  set (r := PerformanceMonitor.record_all metrics outcomes) in *.
  unfold PerformanceMonitor.update_ocr_metrics.
  destruct o as [x [|]]; cbn [fst snd length frames_processed frames_skipped
    error_count cpu_usage memory_usage fps];
    repeat split; try assumption; lia.
Qed.

Lemma get_recommendations_parts (metrics : Metrics) :
  PerformanceMonitor.get_recommendations metrics
  = (if (80 <? cpu_usage metrics)%float
     then ["High CPU usage - consider reducing OCR frequency"] else [])
    ++ (if (500 <? memory_usage metrics)%float
        then ["High memory usage - consider clearing cache or restarting"]
        else [])
    ++ (if (ocr_success_rate metrics <? 60)%float
        then ["Low OCR success rate - check image quality and preprocessing"]
        else [])
    ++ (if (3.0 <? avg_processing_time metrics)%float
        then ["Slow OCR processing - consider using faster OCR engine"]
        else [])
    ++ (if (error_count metrics >? 10)%Z
        then ["High error count - check system stability"] else []).
Proof.
  unfold PerformanceMonitor.get_recommendations.
  destruct (80 <? _)%float, (500 <? _)%float, (_ <? 60)%float,
    (3.0 <? _)%float, (_ >? 10)%Z; reflexivity.
Qed.

(** X10: [get_recommendations] against its thresholds and the controller.
    The list is empty exactly when no threshold is crossed; it never
    repeats an advisory; the high-CPU advisory is given exactly when
    [adjust_parameters] on the same metrics lengthens the interval; and
    with the slow-processing advisory the suggested deadline is the
    average time plus one second. *)
Theorem recommendations_follow_thresholds (metrics : Metrics)
    (self : Controller) :
  let advice := PerformanceMonitor.get_recommendations metrics in
  (advice = [] <->
     (80 <? cpu_usage metrics)%float = false
     /\ (500 <? memory_usage metrics)%float = false
     /\ (ocr_success_rate metrics <? 60)%float = false
     /\ (3.0 <? avg_processing_time metrics)%float = false
     /\ (error_count metrics <= 10)%Z)
  /\ ("High CPU usage - consider reducing OCR frequency" ∈ advice <->
      interval_increased
        (AdaptiveOCRController.adjust_parameters self metrics).1 <> None)
  /\ ("Slow OCR processing - consider using faster OCR engine" ∈ advice ->
      suggested_timeout
        (AdaptiveOCRController.adjust_parameters self metrics).1
      = (avg_processing_time metrics + 1.0)%float)
  /\ NoDup advice.
Proof.
  cbv zeta. rewrite get_recommendations_parts.
  split; [|split; [|split]].
  - destruct (80 <? _)%float, (500 <? _)%float, (_ <? 60)%float,
      (3.0 <? _)%float, (Z.gtb_spec (error_count metrics) 10);
      cbn [app]; split;
      try (intros E; discriminate E);
      try (intros (? & ? & ? & ? & ?); first [discriminate | lia]);
      try (intros _; repeat split; lia);
      try reflexivity.
  - unfold AdaptiveOCRController.adjust_parameters.
    destruct (80 <? cpu_usage metrics)%float.
    + split; [discriminate | intros _; apply elem_of_app; left; apply list_elem_of_singleton; reflexivity].
    + split.
      * rewrite !elem_of_app.
        destruct (500 <? _)%float, (_ <? 60)%float, (3.0 <? _)%float,
          (_ >? 10)%Z; rewrite ?list_elem_of_singleton, ?elem_of_nil;
          intros Hin; decompose [or] Hin; try contradiction;
          discriminate.
      * intros Hne. exfalso. apply Hne. destruct (_ && _); reflexivity.
  - intros Hin.
    assert (Hslow : (3.0 <? avg_processing_time metrics)%float = true).
    { destruct (3.0 <? avg_processing_time metrics)%float; [reflexivity|].
      exfalso. revert Hin. rewrite !elem_of_app.
      destruct (80 <? _)%float, (500 <? _)%float, (_ <? 60)%float,
        (_ >? 10)%Z; rewrite ?list_elem_of_singleton, ?elem_of_nil;
        intros Hin; decompose [or] Hin; try contradiction; discriminate. }
    assert (H2 : (2.0 <? avg_processing_time metrics)%float = true)
      by (apply (leb_ltb_trans 2.0 3.0); [reflexivity | exact Hslow]).
    unfold AdaptiveOCRController.adjust_parameters,
      AdaptiveOCRController.suggest_timeout.
    destruct (80 <? _)%float; [|destruct (_ && _)];
      cbn [fst suggested_timeout]; rewrite H2; reflexivity.
  - destruct (80 <? _)%float, (500 <? _)%float, (_ <? 60)%float,
      (3.0 <? _)%float, (_ >? 10)%Z; cbn [app];
      repeat (apply NoDup_cons; split;
              [rewrite ?elem_of_cons, elem_of_nil; intros Hin;
               decompose [or] Hin; try contradiction; discriminate|]);
      apply NoDup_nil; exact I.
Qed.

(** * The processing loop *)

Section Steering.
Import IntegratedDiscordOCRSystem.

Lemma extract_control env start_time image self :
  config (extract env start_time image self).2 = config self
  /\ controller (extract env start_time image self).2 = controller self.
Proof. unfold extract. repeat case_match; split; reflexivity. Qed.

Lemma adapt_steered startup self :
  steered startup self -> steered startup (adapt self).2.
Proof.
  intros (Hc & Hr & Hcfg). unfold adapt.
  destruct (Py.item (config self) "enable_adaptive_control") as [e | enabled];
    [exact (conj Hc (conj Hr Hcfg))|].
  assert (Hgoal : forall self', steered startup self' ->
    steered startup
      (match Py.item (config self') "max_cpu_usage" with
       | inl e => (Some e, self')
       | inr max_cpu =>
           match Py.gt (cpu_usage (metrics self')) max_cpu with
           | inl e => (Some e, self')
           | inr _ =>
               match Py.item (config self') "max_memory_usage" with
               | inl e => (Some e, self')
               | inr max_memory =>
                   match Py.gt (memory_usage (metrics self')) max_memory with
                   | inl e => (Some e, self')
                   | inr _ => (None, self')
                   end
               end
           end
       end).2).
  { intros self' H. repeat case_match; exact H. }
  apply Hgoal.
  destruct (Py.truth enabled); [|exact (conj Hc (conj Hr Hcfg))].
  destruct (adjust_parameters_keeps_range (controller self) (metrics self)
              Hc Hr) as [Hc' Hr'].
  destruct (AdaptiveOCRController.adjust_parameters _ _) as [adj c].
  cbn [snd] in Hc', Hr'.
  split; [exact Hc'|]. split; [exact Hr'|].
  right. cbn [with_control config controller].
  destruct Hcfg as [-> | ->]; [reflexivity|].
  apply insert_insert_eq.
Qed.

Lemma attempt_steered startup env self :
  steered startup self -> steered startup (attempt env self).2.
Proof.
  intros H. unfold attempt.
  destruct (Py.item (config self) "ocr_interval") as [e | v]; [exact H|].
  destruct (Py.lt _ v) as [e | []]; [exact H | exact H |].
  assert (H1 : steered startup
                 (with_last_capture_time self (current_time env)))
    by exact H.
  destruct (capture env) as [e | [image |]]; [exact H1 | |].
  - pose proof (extract_control env (current_time env) image
                  (with_last_capture_time self (current_time env)))
      as [Hcfg Hctl].
    destruct (extract _ _ _ _) as [[e |] self1]; cbn [snd] in *.
    + unfold steered. rewrite Hcfg, Hctl. exact H1.
    + apply adapt_steered. unfold steered. rewrite Hcfg, Hctl. exact H1.
  - apply adapt_steered, H1.
Qed.

Lemma iteration_steered startup env self :
  steered startup self -> steered startup (iteration env self).2.
Proof.
  intros H. unfold iteration, Py.try_except.
  set (self0 := with_metrics self _).
  pose proof (attempt_steered startup env self0 H) as Ha.
  destruct (attempt env self0) as [[e |] self1]; exact Ha.
Qed.

Lemma loop_steered startup envs : forall self,
  steered startup self ->
  steered startup (_main_processing_loop envs self).2.
Proof.
  induction envs as [| env rest IH]; intros self H; [exact H|].
  cbn [_main_processing_loop].
  pose proof (iteration_steered startup env self H) as Hi.
  destruct (iteration env self) as [[e |] self1]; [exact Hi|].
  apply IH, Hi.
Qed.
End Steering.

(** X11: what the processing loop does to the configuration. After start-up
    and any number of iterations the controller's interval lies between
    0.5 and 10.0; no configuration key other than ["ocr_interval"] has
    changed; and ["ocr_interval"] holds either its start-up value or the
    controller's current interval. *)
Theorem main_loop_keeps_interval_in_range (file main_file : config_file)
    (sys : IntegratedDiscordOCRSystem.t) (envs : list Cycle) :
  IntegratedDiscordOCRSystem.__init__ file main_file = inr sys ->
  let r := (IntegratedDiscordOCRSystem._main_processing_loop envs sys).2 in
  let c := IntegratedDiscordOCRSystem.controller r in
  (0.5 <=? current_interval c)%float = true
  /\ (current_interval c <=? 10.0)%float = true
  /\ (forall key, key <> "ocr_interval" ->
        IntegratedDiscordOCRSystem.config r !! key
        = IntegratedDiscordOCRSystem.config sys !! key)
  /\ (IntegratedDiscordOCRSystem.config r !! "ocr_interval"
      = IntegratedDiscordOCRSystem.config sys !! "ocr_interval"
      \/ IntegratedDiscordOCRSystem.config r !! "ocr_interval"
         = Some (Py.VFloat (current_interval c))).
Proof.
  intros Hinit. cbv zeta.
  assert (H0 : steered (IntegratedDiscordOCRSystem.config sys) sys).
  { unfold IntegratedDiscordOCRSystem.__init__,
      IntegratedDiscordOCRSystem.initialize_components in Hinit.
    repeat case_match; try discriminate.
    injection Hinit as <-. 
    split; [repeat split|]. split; [split; reflexivity | left; reflexivity]. }
  destruct (loop_steered _ envs sys H0) as ((Hlo & Hhi & _) & (Hmin & Hmax) & Hcfg).
  rewrite Hlo in Hmin. rewrite Hhi in Hmax.
  split; [exact Hmin|]. split; [exact Hmax|].
  destruct Hcfg as [-> | ->].
  - split; [reflexivity | left; reflexivity].
  - split.
    + intros key Hkey. apply lookup_insert_ne. congruence.
    + right. apply lookup_insert_eq.
Qed.

Lemma main_loop_keeps_interval_in_range_witness :
  let busy : Cycle :=
    {| gauges := (95%float, 100%float); current_time := 1000%float;
       capture := inr None; invoke := fun _ _ => inr "";
       finished := 1000%float; dispatch := None |} in
  exists sys,
    IntegratedDiscordOCRSystem.__init__ Absent Absent = inr sys
    /\ (current_interval
          (IntegratedDiscordOCRSystem.controller
             (IntegratedDiscordOCRSystem._main_processing_loop
                [busy; busy] sys).2)
        <=? 10.0)%float = true.
Proof.
  cbv zeta.
  destruct (IntegratedDiscordOCRSystem.__init__ Absent Absent)
    as [e | sys] eqn:Hinit; [vm_compute in Hinit; discriminate Hinit|].
  exists sys. split; [reflexivity|].
  exact (proj1 (proj2
    (main_loop_keeps_interval_in_range Absent Absent sys _ Hinit))).
Defined.

Section Accounting.
Import IntegratedDiscordOCRSystem.

Lemma select_engine_known metrics :
  select_engine metrics ∈ ["fast"; "main"; "discord"].
Proof.
  unfold select_engine. repeat case_match; set_solver.
Qed.

Lemma adapt_fields self :
  metrics (adapt self).2 = metrics self
  /\ delivered (adapt self).2 = delivered self
  /\ invoked (adapt self).2 = invoked self.
Proof.
  unfold adapt.
  destruct (Py.item (config self) "enable_adaptive_control") as [e | enabled];
    [auto|].
  destruct (Py.truth enabled).
  - destruct (AdaptiveOCRController.adjust_parameters _ _) as [adj c].
    repeat case_match; auto.
  - repeat case_match; auto.
Qed.

Lemma adapt_accounted n self : accounted n self -> accounted n (adapt self).2.
Proof.
  unfold accounted. destruct (adapt_fields self) as (-> & -> & ->). auto.
Qed.

Lemma update_failed_accounted n self :
  accounted n self ->
  accounted n (with_metrics self
                 (PerformanceMonitor.update_ocr_metrics (metrics self) 0 false)).
Proof.
  unfold accounted. cbn. intros (Hd & Hl & Hn & Hz & He).
  repeat split; try assumption; lia.
Qed.

Lemma extract_accounted n env start_time image self :
  accounted n self ->
  accounted (S n) (extract env start_time image self).2.
Proof.
  unfold accounted. intros (Hd & Hl & Hn & Hz & He).
  unfold extract.
  destruct (invoke env _ image) as [e | ocr_text]; cbn [snd].
  { cbn. repeat split; try assumption; lia. }
  destruct (Py.truthy ocr_text && Py.strip_truthy ocr_text) eqn:Hok.
  - apply andb_prop in Hok as [_ Hvis].
    destruct (dispatch env) as [e |]; cbn.
    + repeat split; try assumption; lia.
    + split; [|repeat split; try assumption; lia].
      constructor; [|exact Hd]. split; [exact Hvis|].
      apply select_engine_known.
  - cbn. repeat split; try assumption; lia.
Qed.

Lemma accounted_mono n m self :
  (n <= m)%nat -> accounted n self -> accounted m self.
Proof.
  unfold accounted. intros Hnm (Hd & Hl & Hn & Hz & He).
  repeat split; try assumption; lia.
Qed.

Lemma attempt_accounted n env self :
  accounted n self -> accounted (S n) (attempt env self).2.
Proof.
  intros H. pose proof (accounted_mono n (S n) self ltac:(lia) H) as HS.
  unfold attempt.
  destruct (Py.item (config self) "ocr_interval") as [e | v]; [exact HS|].
  destruct (Py.lt _ v) as [e | []]; [exact HS | exact HS |].
  assert (H1 : accounted n (with_last_capture_time self (current_time env)))
    by exact H.
  destruct (capture env) as [e | [image |]].
  - exact HS.
  - pose proof (extract_accounted n env (current_time env) image _ H1) as He.
    destruct (extract _ _ _ _) as [[e |] self1]; cbn [snd] in *.
    + exact He.
    + apply adapt_accounted, He.
  - apply adapt_accounted. exact HS.
Qed.

Lemma iteration_accounted n env self :
  accounted n self -> accounted (S n) (iteration env self).2.
Proof.
  intros H. unfold iteration, Py.try_except.
  set (self0 := with_metrics self _).
  assert (H0 : accounted n self0) by exact H.
  pose proof (attempt_accounted n env self0 H0) as Ha.
  destruct (attempt env self0) as [[e |] self1]; cbn [snd] in *.
  - unfold recover. cbn [snd]. apply update_failed_accounted, Ha.
  - exact Ha.
Qed.

Lemma loop_accounted envs : forall n self,
  accounted n self ->
  accounted (n + length envs) (_main_processing_loop envs self).2.
Proof.
  induction envs as [| env rest IH]; intros n self H.
  { cbn. rewrite Nat.add_0_r. exact H. }
  cbn [_main_processing_loop length].
  pose proof (iteration_accounted n env self H) as Hi.
  destruct (iteration env self) as [[e |] self1] eqn:Hit.
  - pose proof (iteration_contained env self) as Hc. rewrite Hit in Hc.
    discriminate Hc.
  - replace (n + S (length rest))%nat with (S n + length rest)%nat by lia.
    apply IH, Hi.
Qed.
End Accounting.

(** X12: what the processing loop hands on. After start-up and any number
    of iterations every delivered text has a character that is not white
    space and comes from one of the three engines; there are no more
    deliveries than engine calls and no more engine calls than
    iterations; the deliveries are covered by the frames counted as
    processed and not skipped; and [frames_skipped] equals
    [error_count]. *)
Theorem main_loop_delivers_only_text (file main_file : config_file)
    (sys : IntegratedDiscordOCRSystem.t) (envs : list Cycle) :
  IntegratedDiscordOCRSystem.__init__ file main_file = inr sys ->
  let r := (IntegratedDiscordOCRSystem._main_processing_loop envs sys).2 in
  Forall (fun te => Py.strip_truthy te.1 = true
                    /\ te.2 ∈ ["fast"; "main"; "discord"])
    (IntegratedDiscordOCRSystem.delivered r)
  /\ (length (IntegratedDiscordOCRSystem.delivered r)
      <= length (IntegratedDiscordOCRSystem.invoked r))%nat
  /\ (length (IntegratedDiscordOCRSystem.invoked r) <= length envs)%nat
  /\ (Z.of_nat (length (IntegratedDiscordOCRSystem.delivered r))
      <= frames_processed (IntegratedDiscordOCRSystem.metrics r)
         - frames_skipped (IntegratedDiscordOCRSystem.metrics r))%Z
  /\ frames_skipped (IntegratedDiscordOCRSystem.metrics r)
     = error_count (IntegratedDiscordOCRSystem.metrics r).
Proof.
  intros Hinit. cbv zeta.
  assert (H0 : accounted 0 sys).
  { unfold IntegratedDiscordOCRSystem.__init__,
      IntegratedDiscordOCRSystem.initialize_components in Hinit.
    repeat case_match; try discriminate.
    injection Hinit as <-. unfold accounted. cbn.
    repeat split; try lia. constructor. }
  exact (loop_accounted envs 0 sys H0).
Qed.

Lemma main_loop_delivers_only_text_witness :
  let frame : Image := {| fingerprint := Some 7%Z;
                          recognition := Done "hello" 0.2%float |} in
  let seen : Cycle :=
    {| gauges := (20%float, 100%float); current_time := 1000%float;
       capture := inr (Some frame); invoke := fun _ _ => inr "hello";
       finished := 1000.2%float; dispatch := None |} in
  exists sys,
    IntegratedDiscordOCRSystem.__init__ Absent Absent = inr sys
    /\ (length (IntegratedDiscordOCRSystem.delivered
                  (IntegratedDiscordOCRSystem._main_processing_loop
                     [seen] sys).2)
        <= length (IntegratedDiscordOCRSystem.invoked
                     (IntegratedDiscordOCRSystem._main_processing_loop
                        [seen] sys).2))%nat.
Proof.
  cbv zeta.
  destruct (IntegratedDiscordOCRSystem.__init__ Absent Absent)
    as [e | sys] eqn:Hinit; [vm_compute in Hinit; discriminate Hinit|].
  exists sys. split; [reflexivity|].
  exact (proj1 (proj2
    (main_loop_delivers_only_text Absent Absent sys _ Hinit))).
Defined.

(** * The capture loop *)

Section Screenshare.
Import DiscordScreenshareOCR.

Lemma perform_ocr_with_timeout_fields self image clock :
  let r := perform_ocr_with_timeout self image clock in
  settings r.2 = settings self
  /\ last_ocr_text r.2 = last_ocr_text self
  /\ ocr_results r.2 = ocr_results self
  /\ frames_processed (performance_stats r.2)
     = frames_processed (performance_stats self)
  /\ ocr_calls (performance_stats r.2) = ocr_calls (performance_stats self)
  /\ r.1 = match recognition image with Done text _ => text | _ => "" end.
Proof.
  unfold perform_ocr_with_timeout.
  destruct (recognition image) as [| msg | text time | |]; cbn;
    try destruct (Py.truthy msg); cbn; repeat split.
Qed.

Lemma pass_body_step env self :
  let r := (pass_body env self).1.2 in
  exists stored : bool,
    settings r = settings self
    /\ ocr_calls (performance_stats r)
       = (ocr_calls (performance_stats self) + if stored then 1 else 0)%Z
    /\ frames_processed (performance_stats r)
       = (frames_processed (performance_stats self)
          + match screen_image env with Some _ => 1 | None => 0 end)%Z
    /\ Z.of_nat (length (ocr_results r))
       = (if stored
          then Z.min 100 (Z.of_nat (length (ocr_results self)) + 1)
          else Z.of_nat (length (ocr_results self)))
    /\ (if stored then last_ocr_text r <> ""
        else last_ocr_text r = last_ocr_text self)
    /\ (stored = true -> screen_image env <> None).
Proof.
  cbv zeta. unfold pass_body.
  set (mid := match screen_image env with None => self | Some _ => _ end).
  assert (Hmid : exists stored : bool,
    settings mid = settings self
    /\ ocr_calls (performance_stats mid)
       = (ocr_calls (performance_stats self) + if stored then 1 else 0)%Z
    /\ frames_processed (performance_stats mid)
       = (frames_processed (performance_stats self)
          + match screen_image env with Some _ => 1 | None => 0 end)%Z
    /\ Z.of_nat (length (ocr_results mid))
       = (if stored
          then Z.min 100 (Z.of_nat (length (ocr_results self)) + 1)
          else Z.of_nat (length (ocr_results self)))
    /\ (if stored then last_ocr_text mid <> ""
        else last_ocr_text mid = last_ocr_text self)
    /\ (stored = true -> screen_image env <> None)).
  { subst mid. destruct (screen_image env) as [image |].
    2:{ exists false. repeat split; try lia; try discriminate. }
    set (self1 := with_stats self _).
    pose proof (perform_ocr_with_timeout_fields self1 image (ocr_clock env))
      as (Hs & Hl & Hr & Hf & Hc & _).
    destruct (perform_ocr_with_timeout self1 image (ocr_clock env))
      as [ocr_text self2].
    cbn [fst snd] in *.
    destruct (Py.truthy ocr_text && _) eqn:Hnew.
    - exists true. cbn [settings performance_stats ocr_calls frames_processed
                        ocr_results last_ocr_text].
      rewrite Hs, Hc, Hf, Hr. subst self1. cbn.
      split; [reflexivity|]. split; [reflexivity|]. split; [reflexivity|].
      split; [|split; [|discriminate]].
      + rewrite length_app. cbn [length].
        destruct (Z.gtb_spec (Z.of_nat (length (ocr_results self) + 1)) 100).
        * rewrite length_drop. rewrite length_app. cbn [length]. lia.
        * rewrite length_app. cbn [length]. lia.
      + apply andb_prop in Hnew as [Ht _].
        destruct ocr_text; [discriminate | discriminate].
    - exists false. rewrite Hs, Hc, Hf, Hr, Hl. subst self1. cbn.
      repeat split; try lia; try discriminate. }
  destruct Hmid as (stored & H1 & H2 & H3 & H4 & H5 & H6).
  exists stored.
  destruct (memory env) as [mb |];
    destruct (Py.number _) as [e | seconds]; cbn [fst snd];
    cbn [with_stats settings performance_stats ocr_calls frames_processed
         ocr_results last_ocr_text];
    auto 10.
Qed.

Lemma loop_snoc envs env self :
  ocr_processing_loop (envs ++ [env]) self
  = (pass_body env (ocr_processing_loop envs self)).1.2.
Proof. unfold ocr_processing_loop. now rewrite fold_left_app. Qed.

Lemma sleep_time_not_negative env self :
  (0 <=? (pass_body env self).2)%float = true.
Proof.
  unfold pass_body.
  destruct (Py.number _) as [e | seconds]; cbn [snd]; [reflexivity|].
  unfold Py.max.
  destruct (0 <? seconds - elapsed env)%float eqn:H; [|reflexivity].
  apply ltb_leb, H.
Qed.
End Screenshare.

(** X13: the capture loop of [DiscordScreenshareOCR]. From a fresh start and
    after any number of passes, [ocr_results] holds [min(100, ocr_calls)]
    entries; [ocr_calls] is at most [frames_processed], which is at most
    the number of passes; [last_ocr_text] is empty exactly while nothing
    has been recorded; the settings are untouched; and the time a pass
    sleeps is never negative and never a NaN. *)
Theorem ocr_processing_loop_bounds (settings : DiscordScreenshareOCR.t)
    (envs : list DiscordScreenshareOCR.Pass) :
  let r := DiscordScreenshareOCR.ocr_processing_loop envs
             (DiscordScreenshareOCR.start settings) in
  let s := DiscordScreenshareOCR.performance_stats r in
  Z.of_nat (length (DiscordScreenshareOCR.ocr_results r))
  = Z.min 100 (DiscordScreenshareOCR.ocr_calls s)
  /\ (0 <= DiscordScreenshareOCR.ocr_calls s
      <= DiscordScreenshareOCR.frames_processed s)%Z
  /\ (DiscordScreenshareOCR.frames_processed s <= Z.of_nat (length envs))%Z
  /\ (DiscordScreenshareOCR.last_ocr_text r = ""
      <-> DiscordScreenshareOCR.ocr_calls s = 0%Z)
  /\ DiscordScreenshareOCR.settings r = settings
  /\ (forall env self,
        (0 <=? (DiscordScreenshareOCR.pass_body env self).2)%float = true).
Proof.
  cbv zeta.
  assert (H : let r := DiscordScreenshareOCR.ocr_processing_loop envs
                         (DiscordScreenshareOCR.start settings) in
              let s := DiscordScreenshareOCR.performance_stats r in
              Z.of_nat (length (DiscordScreenshareOCR.ocr_results r))
              = Z.min 100 (DiscordScreenshareOCR.ocr_calls s)
              /\ (0 <= DiscordScreenshareOCR.ocr_calls s
                  <= DiscordScreenshareOCR.frames_processed s)%Z
              /\ (DiscordScreenshareOCR.frames_processed s
                  <= Z.of_nat (length envs))%Z
              /\ (DiscordScreenshareOCR.last_ocr_text r = ""
                  <-> DiscordScreenshareOCR.ocr_calls s = 0%Z)
              /\ DiscordScreenshareOCR.settings r = settings).
  { cbv zeta. induction envs as [| env envs IH] using rev_ind.
    { cbn. repeat split; lia. }
    rewrite loop_snoc, length_app. cbn [length].
    destruct IH as (Hlen & Hcalls & Hframes & Hlast & Hset).
    set (self := DiscordScreenshareOCR.ocr_processing_loop envs _) in *.
    destruct (pass_body_step env self)
      as (stored & H1 & H2 & H3 & H4 & H5 & H6).
    cbv zeta in *. rewrite H1, H2, H3, H4.
    destruct stored.
    - assert (Hcap : DiscordScreenshareOCR.screen_image env <> None)
        by (apply H6; reflexivity).
      destruct (DiscordScreenshareOCR.screen_image env); [|contradiction].
      split; [lia|]. split; [lia|]. split; [lia|].
      split; [|exact Hset].
      split; [intros E; contradiction | lia].
    - rewrite H5.
      split; [lia|].
      split; [destruct (DiscordScreenshareOCR.screen_image env); lia|].
      split; [destruct (DiscordScreenshareOCR.screen_image env); lia|].
      split; [|exact Hset].
      rewrite Z.add_0_r. exact Hlast. }
  cbv zeta in H. destruct H as (H1 & H2 & H3 & H4 & H5).
  repeat (split; [assumption|]).
  intros env self. apply sleep_time_not_negative.
Qed.

(** * Configuration round trips *)

(** X14: saving and loading the capture settings. What [save_config] wrote
    in full, [load_config] reads back into the same three settings,
    whatever the object held before; a file cut short leaves the loading
    object as it was; a write that did not start leaves the previous
    file; and [save_config] raises only when the directory cannot be
    made. *)
Theorem screenshare_config_round_trip (self other : DiscordScreenshareOCR.t)
    (previous : config_file) :
  DiscordScreenshareOCR.load_config other
    (DiscordScreenshareOCR.save_config self previous Written).2
  = (None, self)
  /\ DiscordScreenshareOCR.load_config other
       (DiscordScreenshareOCR.save_config self previous CutShort).2
     = (None, other)
  /\ (forall d, d <> Written -> d <> CutShort ->
        (DiscordScreenshareOCR.save_config self previous d).2 = previous)
  /\ (forall d, (DiscordScreenshareOCR.save_config self previous d).1 <> None
                <-> d = NoDirectory).
Proof.
  split; [|split; [|split]].
  - destruct self as [url interval enabled]. cbn. reflexivity.
  - reflexivity.
  - intros [] H1 H2; try contradiction; reflexivity.
  - intros []; cbn; split; intros H; try discriminate; try contradiction;
      try reflexivity.
Qed.

Lemma init_steered file main_file sys :
  IntegratedDiscordOCRSystem.__init__ file main_file = inr sys ->
  steered (IntegratedDiscordOCRSystem.config sys) sys.
Proof.
  intros Hinit.
  unfold IntegratedDiscordOCRSystem.__init__,
    IntegratedDiscordOCRSystem.initialize_components in Hinit.
  repeat case_match; try discriminate.
  injection Hinit as <-.
  split; [repeat split|]. split; [split; reflexivity | left; reflexivity].
Qed.

(** X15: the default keys are never lost. Whatever the configuration
    file holds, a document that [update] gave up on included, after
    start-up and any number of loop iterations every default key is still
    in the configuration, so none of the loop's own look-ups raises
    [KeyError]. *)
Theorem integrated_config_keeps_default_keys (file main_file : config_file)
    (sys : IntegratedDiscordOCRSystem.t) (envs : list Cycle) :
  IntegratedDiscordOCRSystem.__init__ file main_file = inr sys ->
  let r := (IntegratedDiscordOCRSystem._main_processing_loop envs sys).2 in
  (forall key, is_Some (IntegratedDiscordOCRSystem.default_config !! key) ->
               is_Some (IntegratedDiscordOCRSystem.config r !! key))
  /\ (forall key,
        key ∈ ["ocr_interval"; "enable_adaptive_control"; "max_cpu_usage";
               "max_memory_usage"] ->
        Py.item (IntegratedDiscordOCRSystem.config r) key <> inl Py.KeyError).
Proof.
  intros Hinit. cbv zeta.
  assert (Hcov : forall k,
            is_Some (IntegratedDiscordOCRSystem.default_config !! k) ->
            is_Some (IntegratedDiscordOCRSystem.config sys !! k)).
  { unfold IntegratedDiscordOCRSystem.__init__ in Hinit.
    destruct (load_config_total file) as (cfg & Hl & Hkeys).
    rewrite Hl in Hinit.
    unfold IntegratedDiscordOCRSystem.initialize_components in Hinit.
    repeat case_match; try discriminate.
    injection Hinit as <-. exact Hkeys. }
  destruct (loop_steered _ envs sys (init_steered _ _ _ Hinit))
    as (_ & _ & Hcfg).
  set (r := (IntegratedDiscordOCRSystem._main_processing_loop envs sys).2) in *.
  assert (Hr : forall k,
            is_Some (IntegratedDiscordOCRSystem.default_config !! k) ->
            is_Some (IntegratedDiscordOCRSystem.config r !! k)).
  { intros k Hk. destruct Hcfg as [-> | ->]; [apply Hcov, Hk|].
    destruct (decide (k = "ocr_interval")) as [-> | Hne].
    - rewrite lookup_insert_eq. eauto.
    - rewrite lookup_insert_ne by congruence. apply Hcov, Hk. }
  split; [exact Hr|].
  intros key Hin. unfold Py.item.
  destruct (Hr key) as [v ->]; [|discriminate].
  rewrite !elem_of_cons, elem_of_nil in Hin.
  decompose [or] Hin; subst; try contradiction; vm_compute; eauto.
Qed.

Lemma integrated_config_keeps_default_keys_witness :
  let busy : Cycle :=
    {| gauges := (95%float, 100%float); current_time := 1000%float;
       capture := inr None; invoke := fun _ _ => inr "";
       finished := 1000%float; dispatch := None |} in
  let file :=
    NotObject (Py.JArray [Py.JArray [Py.JStr "ocr_interval"; Py.JInt (-5)];
                          Py.JInt 7]) in
  exists sys,
    IntegratedDiscordOCRSystem.__init__ file Absent = inr sys
    /\ forall key,
         is_Some (IntegratedDiscordOCRSystem.default_config !! key) ->
         is_Some (IntegratedDiscordOCRSystem.config
                    (IntegratedDiscordOCRSystem._main_processing_loop
                       [busy] sys).2 !! key).
Proof.
  cbv zeta.
  destruct (IntegratedDiscordOCRSystem.__init__ _ Absent)
    as [e | sys] eqn:Hinit; [vm_compute in Hinit; discriminate Hinit|].
  exists sys. split; [reflexivity|].
  exact (proj1
    (integrated_config_keeps_default_keys _ Absent sys _ Hinit)).
Defined.

(** * The rate limiter *)

Section RateLimit.
Import DiscordOCRBot.

Lemma expire_suffix cutoff history :
  exists k, expire cutoff history = drop k history.
Proof.
  induction history as [| t rest [k IH]]; [exists 0%nat; reflexivity|].
  cbn [expire]. destruct (t <? cutoff)%float.
  - exists (S k). exact IH.
  - exists 0%nat. reflexivity.
Qed.

Lemma expire_length cutoff history :
  (length (expire cutoff history) <= length history)%nat.
Proof.
  destruct (expire_suffix cutoff history) as [k ->].
  rewrite length_drop. lia.
Qed.

Lemma expire_head cutoff history :
  match expire cutoff history with
  | t :: _ => (t <? cutoff)%float = false
  | [] => True
  end.
Proof.
  induction history as [| t rest IH]; [exact I|].
  cbn [expire]. destruct (t <? cutoff)%float eqn:H; [exact IH | exact H].
Qed.

Lemma expire_idempotent cutoff history :
  expire cutoff (expire cutoff history) = expire cutoff history.
Proof.
  pose proof (expire_head cutoff history) as H.
  destruct (expire cutoff history) as [| t rest]; [reflexivity|].
  cbn [expire]. now rewrite H.
Qed.

Lemma chronological_tail t rest : chronological (t :: rest) -> chronological rest.
Proof. cbn. tauto. Qed.

Lemma chronological_expire cutoff history :
  chronological history -> chronological (expire cutoff history).
Proof.
  induction history as [| t rest IH]; intros H; [exact I|].
  cbn [expire]. destruct (t <? cutoff)%float; [|exact H].
  apply IH, (chronological_tail t rest H).
Qed.

Lemma chronological_from cutoff history :
  ordered cutoff -> chronological history ->
  match history with
  | t :: _ => key_le (order_key (Prim2SF cutoff)) (order_key (Prim2SF t))
  | [] => True
  end ->
  Forall (fun t => (cutoff <=? t)%float = true) history.
Proof.
  intros Hc. induction history as [| t rest IH]; intros Hchr Hhead;
    [constructor|].
  destruct Hchr as (Ht & Hnext & Hrest).
  constructor.
  - apply leb_key. auto.
  - apply IH; [exact Hrest|].
    destruct rest as [| t' rest']; [exact I|].
    apply leb_key in Hnext as (_ & _ & Hle).
    unfold key_le in *. lia.
Qed.
End RateLimit.

(** X16: [is_rate_limited] drops send times from the front only. What is
    left is a suffix of the history, its oldest entry is not before the
    cut-off, the answer is whether at least [max_messages_per_window]
    entries are left, and asking again at the same time changes nothing
    and gives the same answer. *)
Theorem is_rate_limited_expires_prefix (self : DiscordOCRBot.t) (now : float) :
  let r := DiscordOCRBot.is_rate_limited self now in
  (exists k, DiscordOCRBot.message_history r.2
             = drop k (DiscordOCRBot.message_history self))
  /\ (r.1 = true
      <-> (DiscordOCRBot.max_messages_per_window self
           <= Z.of_nat (length (DiscordOCRBot.message_history r.2)))%Z)
  /\ DiscordOCRBot.is_rate_limited r.2 now = r
  /\ match DiscordOCRBot.message_history r.2 with
     | oldest :: _ =>
         (oldest <? now - DiscordOCRBot.rate_limit_window self)%float = false
     | [] => True
     end.
Proof.
  cbv zeta. unfold DiscordOCRBot.is_rate_limited.
  cbn [fst snd DiscordOCRBot.with_history DiscordOCRBot.message_history
       DiscordOCRBot.rate_limit_window DiscordOCRBot.max_messages_per_window].
  split; [apply expire_suffix|].
  split; [rewrite Z.geb_le; reflexivity|].
  split; [|apply expire_head].
  rewrite expire_idempotent. reflexivity.
Qed.

(** X17: with send times in clock order, [is_rate_limited] leaves exactly
    entries inside the window: every remaining time is at or after the
    cut-off, the order is kept, and an answer of "limited" means that the
    last sends of the history, at least [max_messages_per_window] of them
    counted with multiplicity, lie inside the window. *)
Theorem is_rate_limited_keeps_window (self : DiscordOCRBot.t) (now : float) :
  chronological (DiscordOCRBot.message_history self) ->
  ordered (now - DiscordOCRBot.rate_limit_window self)%float ->
  let r := DiscordOCRBot.is_rate_limited self now in
  Forall (fun t => (now - DiscordOCRBot.rate_limit_window self <=? t)%float
                   = true)
    (DiscordOCRBot.message_history r.2)
  /\ chronological (DiscordOCRBot.message_history r.2)
  /\ (r.1 = true ->
      exists recent,
        (DiscordOCRBot.max_messages_per_window self
         <= Z.of_nat (length recent))%Z
        /\ (exists k, recent = drop k (DiscordOCRBot.message_history self))
        /\ Forall (fun t =>
                     (now - DiscordOCRBot.rate_limit_window self <=? t)%float
                     = true) recent).
Proof.
  intros Hchr Hcut. cbv zeta. unfold DiscordOCRBot.is_rate_limited.
  cbn [fst snd DiscordOCRBot.with_history DiscordOCRBot.message_history
       DiscordOCRBot.rate_limit_window DiscordOCRBot.max_messages_per_window].
  set (cutoff := (now - DiscordOCRBot.rate_limit_window self)%float) in *.
  pose proof (chronological_expire cutoff _ Hchr) as Hchr'.
  assert (Hall : Forall (fun t => (cutoff <=? t)%float = true)
                   (DiscordOCRBot.expire cutoff
                      (DiscordOCRBot.message_history self))).
  { apply chronological_from; [exact Hcut | exact Hchr' |].
    pose proof (expire_head cutoff (DiscordOCRBot.message_history self)) as Hh.
    destruct (DiscordOCRBot.expire cutoff _) as [| t rest]; [exact I|].
    apply ltb_false_key; [apply Hchr' | exact Hcut | exact Hh]. }
  split; [exact Hall|]. split; [exact Hchr'|].
  intros Hlim. apply Z.geb_le in Hlim.
  exists (DiscordOCRBot.expire cutoff (DiscordOCRBot.message_history self)).
  split; [exact Hlim|]. split; [|exact Hall].
  apply expire_suffix.
Qed.

Lemma is_rate_limited_keeps_window_witness :
  let self :=
    DiscordOCRBot.with_history (DiscordOCRBot.__init__ Py.VNone)
      [1000%float; 1030%float; 1070%float] in
  chronological (DiscordOCRBot.message_history self)
  /\ ordered (1100 - DiscordOCRBot.rate_limit_window self)%float
  /\ Forall (fun t => (1100 - DiscordOCRBot.rate_limit_window self <=? t)%float
                      = true)
       (DiscordOCRBot.message_history
          (DiscordOCRBot.is_rate_limited self 1100).2).
Proof.
  cbv zeta.
  assert (Hchr : chronological [1000%float; 1030%float; 1070%float]).
  { cbn. unfold ordered. repeat split; try reflexivity;
      vm_compute; discriminate. }
  assert (Hcut : ordered (1100 - 60)%float)
    by (unfold ordered; vm_compute; discriminate).
  split; [exact Hchr|]. split; [exact Hcut|].
  exact (proj1 (is_rate_limited_keeps_window
                  (DiscordOCRBot.with_history (DiscordOCRBot.__init__ Py.VNone)
                     [1000%float; 1030%float; 1070%float])
                  1100%float Hchr Hcut)).
Defined.

(** * Delivery through the bot *)

Section Bot.
Import DiscordOCRBot.

Lemma send_to_channels_keeps channel snapshot : forall self n,
  let r := send_to_channels channel snapshot self n in
  message_history r.2 = message_history self
  /\ last_message_hash r.2 = last_message_hash self
  /\ webhook_url r.2 = webhook_url self
  /\ rate_limit_window r.2 = rate_limit_window self
  /\ max_messages_per_window r.2 = max_messages_per_window self.
Proof.
  induction snapshot as [| c rest IH]; intros self n; cbn zeta;
    [repeat split|].
  cbn [send_to_channels]. destruct (channel c).
  - apply IH.
  - destruct (IH (with_channels self (active_channels self)
                    match ocr_sessions self !! c with
                    | Some count => <[c := (count + 1)%Z]> (ocr_sessions self)
                    | None => ocr_sessions self
                    end) (n + 1)%Z) as (-> & -> & -> & -> & ->).
    repeat split.
  - destruct (IH (with_channels self
                    (filter (fun c' => c' <> c) (active_channels self))
                    (ocr_sessions self)) n) as (-> & -> & -> & -> & ->).
    repeat split.
Qed.

Lemma is_duplicate_message_hash md5 self text :
  let r := is_duplicate_message md5 self text in
  last_message_hash r.2 = Some (md5 text)
  /\ message_history r.2 = message_history self
  /\ webhook_url r.2 = webhook_url self
  /\ rate_limit_window r.2 = rate_limit_window self
  /\ max_messages_per_window r.2 = max_messages_per_window self
  /\ active_channels r.2 = active_channels self
  /\ (r.1 = true <-> last_message_hash self = Some (md5 text)).
Proof.
  cbv zeta. unfold is_duplicate_message.
  destruct (last_message_hash self) as [h |] eqn:Hh.
  - destruct (String.eqb_spec (md5 text) h) as [<- | Hne]; cbn.
    + rewrite Hh. repeat split; auto.
    + repeat split; auto; try discriminate. intros [= E]. congruence.
  - cbn. repeat split; auto; discriminate.
Qed.

Lemma send_webhook_message_duplicate md5 self text now response :
  last_message_hash self = Some (md5 text) ->
  (send_webhook_message md5 self text now response).1 = false.
Proof.
  intros Hh. unfold send_webhook_message.
  destruct (negb _ || negb _); [reflexivity|].
  unfold is_rate_limited.
  destruct (_ >=? _)%Z; [reflexivity|].
  pose proof (is_duplicate_message_hash md5
                (with_history self
                   (expire (now - rate_limit_window self)
                      (message_history self))) text) as (_ & _ & _ & _ & _ & _ & Hd).
  cbv zeta in Hd.
  destruct (is_duplicate_message md5 _ text) as [[|] self2];
    [reflexivity|].
  cbn [fst] in Hd. apply Hd in Hh. discriminate Hh.
Qed.

Lemma send_ocr_to_discord_hash md5 self text now sent_at channel :
  (3 <= Str.len (Str.strip text))%Z ->
  (is_rate_limited self now).1 = false ->
  last_message_hash (send_ocr_to_discord md5 self text now sent_at channel).2
  = Some (md5 text).
Proof.
  intros Hlen Hlim. unfold send_ocr_to_discord.
  assert (Hguard : negb (Py.truthy (Str.strip text))
                   || (Str.len (Str.strip text) <? 3)%Z = false).
  { apply orb_false_intro.
    - destruct (Str.strip text); [unfold Str.len in Hlen; simpl in Hlen; lia | reflexivity].
    - apply Z.ltb_ge. exact Hlen. }
  rewrite Hguard.
  destruct (is_rate_limited self now) as [limited self1].
  cbn [fst] in Hlim. subst limited.
  pose proof (is_duplicate_message_hash md5 self1 text) as (Hh & _).
  cbv zeta in Hh.
  destruct (is_duplicate_message md5 self1 text) as [[|] self2];
    cbn [snd] in *; [exact Hh|].
  pose proof (send_to_channels_keeps channel
                (active_channels
                   (with_history self2 (append (message_history self2) sent_at)))
                (with_history self2 (append (message_history self2) sent_at))
                0%Z) as (_ & Hk & _).
  cbv zeta in Hk.
  destruct (send_to_channels _ _ _ _) as [count self3].
  cbn [snd] in *. rewrite Hk. exact Hh.
Qed.
End Bot.

(** X18: in [send_ocr_result] the bot path shadows the webhook. When the
    text has at least three characters after stripping and the bot is not
    rate limited, the bot's duplicate check stores the hash of the text,
    so the webhook path that follows sees a duplicate and reports False,
    whatever the webhook would have answered. (The call is taken to run
    without another one touching the bot in between.) *)
Theorem webhook_shadowed_by_bot (md5 : string -> string)
    (bot : DiscordOCRBot.t) (text : string) (env : Outbox) :
  (3 <= Str.len (Str.strip text))%Z ->
  (DiscordOCRBot.is_rate_limited bot (bot_now env)).1 = false ->
  exists bot_result bot',
    UnifiedDiscordOCRIntegration.send_ocr_result md5 bot text env
    = (Some [("bot", bot_result); ("webhook", false);
             ("websocket", negb (broadcast_raises env))], bot').
Proof.
  intros Hlen Hlim. unfold UnifiedDiscordOCRIntegration.send_ocr_result.
  assert (Hguard : negb (Py.truthy text) || negb (Py.truthy (Str.strip text))
                   = false).
  { apply orb_false_intro.
    - destruct text; [unfold Str.len in Hlen; simpl in Hlen; lia | reflexivity].
    - destruct (Str.strip text); [unfold Str.len in Hlen; simpl in Hlen; lia | reflexivity]. }
  rewrite Hguard.
  pose proof (send_ocr_to_discord_hash md5 bot text (bot_now env)
                (bot_sent_at env) (channel env) Hlen Hlim) as Hh.
  destruct (DiscordOCRBot.send_ocr_to_discord md5 bot text _ _ _)
    as [bot_result bot1].
  cbn [snd] in Hh.
  pose proof (send_webhook_message_duplicate md5 bot1 text (webhook_now env)
                (response env) Hh) as Hw.
  destruct (DiscordOCRBot.send_webhook_message md5 bot1 text _ _)
    as [webhook_result bot2].
  cbn [fst] in Hw. subst webhook_result.
  exists bot_result, bot2. reflexivity.
Qed.

Lemma webhook_shadowed_by_bot_witness :
  let bot := DiscordOCRBot.__init__ (Py.VStr "https://hook") in
  let env := {| bot_now := 1000%float; bot_sent_at := 1000%float;
                channel := fun _ => Sent; webhook_now := 1001%float;
                response := Status204 1001%float;
                broadcast_raises := false |} in
  (3 <= Str.len (Str.strip "hello"))%Z
  /\ (DiscordOCRBot.is_rate_limited bot (bot_now env)).1 = false
  /\ exists bot_result bot',
       UnifiedDiscordOCRIntegration.send_ocr_result id bot "hello" env
       = (Some [("bot", bot_result); ("webhook", false);
                ("websocket", negb (broadcast_raises env))], bot').
Proof.
  cbv zeta.
  assert (Hlen : (3 <= Str.len (Str.strip "hello"))%Z) by (vm_compute; discriminate).
  split; [exact Hlen|]. split; [reflexivity|].
  exact (webhook_shadowed_by_bot id
           (DiscordOCRBot.__init__ (Py.VStr "https://hook")) "hello"
           {| bot_now := 1000%float; bot_sent_at := 1000%float;
              channel := fun _ => Sent; webhook_now := 1001%float;
              response := Status204 1001%float;
              broadcast_raises := false |} Hlen eq_refl).
Defined.

(** * The send history *)

Section BotHistory.
Import DiscordOCRBot.

Lemma append_short history x :
  (length history < 100)%nat -> append history x = history ++ [x].
Proof.
  intros H. unfold append.
  destruct (Nat.ltb_spec 100 (length (history ++ [x]))) as [Hlt |];
    [|reflexivity].
  rewrite length_app in Hlt. cbn in Hlt. lia.
Qed.

Lemma is_rate_limited_fields self now :
  let r := is_rate_limited self now in
  (length (message_history r.2) <= length (message_history self))%nat
  /\ (r.1 = false ->
      (Z.of_nat (length (message_history r.2))
       < max_messages_per_window self)%Z)
  /\ max_messages_per_window r.2 = max_messages_per_window self
  /\ rate_limit_window r.2 = rate_limit_window self
  /\ webhook_url r.2 = webhook_url self.
Proof.
  cbv zeta. unfold is_rate_limited. cbn.
  split; [apply expire_length|]. split; [|auto].
  intros H.
  destruct (Z.geb_spec (Z.of_nat (length (expire (now - rate_limit_window self)
                                            (message_history self))))
              (max_messages_per_window self)); [discriminate | lia].
Qed.

Lemma checked_within_limit md5 self text now :
  within_limit self ->
  let limited := is_rate_limited self now in
  let duplicate := is_duplicate_message md5 limited.2 text in
  within_limit limited.2
  /\ within_limit duplicate.2
  /\ max_messages_per_window duplicate.2 = max_messages_per_window self
  /\ rate_limit_window duplicate.2 = rate_limit_window self
  /\ (limited.1 = false -> forall x,
        within_limit
          (with_history duplicate.2 (append (message_history duplicate.2) x))).
Proof.
  unfold within_limit. intros H. cbv zeta.
  destruct (is_rate_limited_fields self now) as (Hlen & Hfree & Hmax & Hwin & _).
  destruct (is_duplicate_message_hash md5 (is_rate_limited self now).2 text)
    as (_ & Hhist & _ & Hwin' & Hmax' & _).
  cbv zeta in *. rewrite Hhist, Hmax', Hmax, Hwin', Hwin.
  split; [lia|]. split; [lia|]. split; [reflexivity|]. split; [reflexivity|].
  intros Hlim x. specialize (Hfree Hlim).
  cbn [with_history message_history max_messages_per_window].
  rewrite ?Hhist, ?Hmax', ?Hmax.
  rewrite append_short by lia. rewrite length_app. cbn [length]. lia.
Qed.

Lemma send_ocr_to_discord_within_limit md5 self text now sent_at channel :
  within_limit self ->
  let r := send_ocr_to_discord md5 self text now sent_at channel in
  within_limit r.2
  /\ max_messages_per_window r.2 = max_messages_per_window self
  /\ rate_limit_window r.2 = rate_limit_window self.
Proof.
  intros H. cbv zeta. unfold send_ocr_to_discord.
  destruct (negb _ || _); [auto|].
  destruct (checked_within_limit md5 self text now H)
    as (H1 & H2 & Hmax & Hwin & H3).
  cbv zeta in *.
  destruct (is_rate_limited_fields self now) as (_ & _ & Hmax1 & Hwin1 & _).
  cbv zeta in *.
  destruct (is_rate_limited self now) as [limited self1]. cbn [fst snd] in *.
  destruct limited; [auto|].
  destruct (is_duplicate_message md5 self1 text) as [duplicate self2].
  cbn [fst snd] in *.
  destruct duplicate; [auto|].
  specialize (H3 eq_refl sent_at).
  pose proof (send_to_channels_keeps channel
                (active_channels
                   (with_history self2 (append (message_history self2) sent_at)))
                (with_history self2 (append (message_history self2) sent_at))
                0%Z) as (Hh & _ & _ & Hw & Hm).
  cbv zeta in *.
  destruct (send_to_channels _ _ _ _) as [count self3]. cbn [snd] in *.
  unfold within_limit in *. rewrite Hh, Hm, Hw. cbn in *. auto.
Qed.

Lemma send_webhook_message_within_limit md5 self text now response :
  within_limit self ->
  let r := send_webhook_message md5 self text now response in
  within_limit r.2
  /\ max_messages_per_window r.2 = max_messages_per_window self
  /\ rate_limit_window r.2 = rate_limit_window self.
Proof.
  intros H. cbv zeta. unfold send_webhook_message.
  destruct (negb _ || _); [auto|].
  destruct (checked_within_limit md5 self text now H)
    as (H1 & H2 & Hmax & Hwin & H3).
  cbv zeta in *.
  destruct (is_rate_limited_fields self now) as (_ & _ & Hmax1 & Hwin1 & _).
  cbv zeta in *.
  destruct (is_rate_limited self now) as [limited self1]. cbn [fst snd] in *.
  destruct limited; [auto|].
  destruct (is_duplicate_message md5 self1 text) as [duplicate self2].
  cbn [fst snd] in *.
  destruct duplicate; [auto|].
  destruct response as [at_time | |]; cbn [snd]; auto.
Qed.

Lemma send_ocr_result_within_limit md5 bot text env :
  within_limit bot ->
  let r := UnifiedDiscordOCRIntegration.send_ocr_result md5 bot text env in
  within_limit r.2
  /\ max_messages_per_window r.2 = max_messages_per_window bot
  /\ rate_limit_window r.2 = rate_limit_window bot.
Proof.
  intros H. cbv zeta. unfold UnifiedDiscordOCRIntegration.send_ocr_result.
  destruct (negb _ || _); [auto|].
  destruct (send_ocr_to_discord_within_limit md5 bot text (bot_now env)
              (bot_sent_at env) (channel env) H) as (H1 & Hm1 & Hw1).
  cbv zeta in *.
  destruct (send_ocr_to_discord md5 bot text _ _ _) as [bot_result bot1].
  cbn [snd] in *.
  destruct (send_webhook_message_within_limit md5 bot1 text (webhook_now env)
              (response env) H1) as (H2 & Hm2 & Hw2).
  cbv zeta in *.
  destruct (send_webhook_message md5 bot1 text _ _) as [webhook_result bot2].
  cbn [snd] in *. rewrite Hm2, Hw2. auto.
Qed.
End BotHistory.

(** X19: the send history never outgrows the rate limit. Starting with at
    most [max_messages_per_window] entries (and a limit of at most 100),
    after any sequence of [send_ocr_result] calls the history still has at
    most [max_messages_per_window] entries, so the queue's own bound of
    100 is never reached; the limit and the window are not changed. *)
Theorem message_history_within_rate_limit (md5 : string -> string)
    (bot : DiscordOCRBot.t) (calls : list (string * Outbox)) :
  within_limit bot ->
  let r := send_all md5 bot calls in
  (Z.of_nat (length (DiscordOCRBot.message_history r))
   <= DiscordOCRBot.max_messages_per_window bot)%Z
  /\ DiscordOCRBot.max_messages_per_window r
     = DiscordOCRBot.max_messages_per_window bot
  /\ DiscordOCRBot.rate_limit_window r = DiscordOCRBot.rate_limit_window bot.
Proof.
  intros H. cbv zeta.
  assert (Hall : within_limit (send_all md5 bot calls)
                 /\ DiscordOCRBot.max_messages_per_window (send_all md5 bot calls)
                    = DiscordOCRBot.max_messages_per_window bot
                 /\ DiscordOCRBot.rate_limit_window (send_all md5 bot calls)
                    = DiscordOCRBot.rate_limit_window bot).
  { induction calls as [| c calls IH] using rev_ind; [cbn; auto|].
    unfold send_all in *. rewrite fold_left_app. cbn [fold_left].
    destruct IH as (H1 & Hm & Hw).
    destruct (send_ocr_result_within_limit md5 _ c.1 c.2 H1) as (H2 & Hm2 & Hw2).
    cbv zeta in *. rewrite Hm2, Hw2. auto. }
  destruct Hall as (H1 & Hm & Hw). unfold within_limit in H1.
  rewrite Hm in H1. split; [lia | auto].
Qed.

Lemma message_history_within_rate_limit_witness :
  let bot := DiscordOCRBot.__init__ (Py.VStr "https://hook") in
  let env := {| bot_now := 1000%float; bot_sent_at := 1000%float;
                channel := fun _ => Sent; webhook_now := 1001%float;
                response := Status204 1001%float;
                broadcast_raises := false |} in
  within_limit bot
  /\ (Z.of_nat (length (DiscordOCRBot.message_history
                          (send_all id bot [("hello", env); ("world", env)])))
      <= 10)%Z.
Proof.
  cbv zeta.
  assert (H : within_limit (DiscordOCRBot.__init__ (Py.VStr "https://hook")))
    by (unfold within_limit; cbn; lia).
  split; [exact H|].
  exact (proj1 (message_history_within_rate_limit id _ _ H)).
Defined.

(** * Channels and display *)

(** X20: the channel loop of [send_ocr_to_discord]. The count grows by the
    number of channels of the snapshot that took the message; afterwards
    the active channels are the previous ones without those of the
    snapshot whose send raised; and sessions of channels outside the
    snapshot are untouched. *)
Theorem send_to_channels_result (channel : Z -> delivery) (snapshot : list Z)
    (self : DiscordOCRBot.t) (sent_count : Z) :
  let r := DiscordOCRBot.send_to_channels channel snapshot self sent_count in
  r.1 = (sent_count
         + Z.of_nat (length (filter (fun c => reached channel c = true)
                               snapshot)))%Z
  /\ (forall c, c ∈ DiscordOCRBot.active_channels r.2
                <-> c ∈ DiscordOCRBot.active_channels self
                    /\ ~ (c ∈ snapshot /\ refused channel c = true))
  /\ (forall c, c ∉ snapshot ->
        DiscordOCRBot.ocr_sessions r.2 !! c
        = DiscordOCRBot.ocr_sessions self !! c).
Proof.
  cbv zeta. revert self sent_count.
  induction snapshot as [| c0 rest IH]; intros self n.
  { cbn. split; [lia|]. split; [|reflexivity].
    intros c. rewrite elem_of_nil. tauto. }
  cbn [DiscordOCRBot.send_to_channels].
  unfold reached, refused in *.
  destruct (channel c0) eqn:Hc0.
  - destruct (IH self n) as (Hn & Hact & Hses).
    split; [|split].
    + rewrite Hn. rewrite filter_cons_False by (rewrite Hc0; discriminate).
      reflexivity.
    + intros c. rewrite Hact, elem_of_cons.
      split; intros [Hin Hno]; (split; [exact Hin|]); intros [Hc Hr].
      * destruct Hc as [-> | Hc]; [rewrite Hc0 in Hr; discriminate|].
        apply Hno. auto.
      * apply Hno. auto.
    + intros c Hc. apply Hses. intros Hin. apply Hc. now right.
  - destruct (IH (DiscordOCRBot.with_channels self
                    (DiscordOCRBot.active_channels self)
                    match DiscordOCRBot.ocr_sessions self !! c0 with
                    | Some count =>
                        <[c0 := (count + 1)%Z]> (DiscordOCRBot.ocr_sessions self)
                    | None => DiscordOCRBot.ocr_sessions self
                    end) (n + 1)%Z) as (Hn & Hact & Hses).
    split; [|split].
    + rewrite Hn. rewrite filter_cons_True by (rewrite Hc0; reflexivity).
      cbn [length]. lia.
    + intros c. rewrite Hact, elem_of_cons.
      cbn [DiscordOCRBot.with_channels DiscordOCRBot.active_channels].
      split; intros [Hin Hno]; (split; [exact Hin|]); intros [Hc Hr].
      * destruct Hc as [-> | Hc]; [rewrite Hc0 in Hr; discriminate|].
        apply Hno. auto.
      * apply Hno. auto.
    + intros c Hc. rewrite Hses by (intros Hin; apply Hc; now right).
      cbn [DiscordOCRBot.with_channels DiscordOCRBot.ocr_sessions].
      assert (c <> c0) by (intros ->; apply Hc; now left).
      destruct (DiscordOCRBot.ocr_sessions self !! c0); [|reflexivity].
      apply lookup_insert_ne. congruence.
  - destruct (IH (DiscordOCRBot.with_channels self
                    (filter (fun c => c <> c0)
                       (DiscordOCRBot.active_channels self))
                    (DiscordOCRBot.ocr_sessions self)) n) as (Hn & Hact & Hses).
    split; [|split].
    + rewrite Hn. rewrite filter_cons_False by (rewrite Hc0; discriminate).
      reflexivity.
    + intros c. rewrite Hact, elem_of_cons.
      cbn [DiscordOCRBot.with_channels DiscordOCRBot.active_channels].
      rewrite list_elem_of_filter.
      split.
      * intros [[Hne Hin] Hno]. split; [exact Hin|].
        intros [[-> | Hc] Hr]; [contradiction|]. apply Hno. auto.
      * intros [Hin Hno]. split; [split; [|exact Hin]|].
        -- intros ->. apply Hno. rewrite Hc0. auto.
        -- intros [Hc Hr]. apply Hno. auto.
    + intros c Hc. rewrite Hses by (intros Hin; apply Hc; now right).
      reflexivity.
Qed.

Lemma prefix_length n : forall s,
  String.length (Str.prefix n s) = Nat.min n (String.length s).
Proof.
  induction n as [| n IH]; intros [| c s]; try reflexivity.
  cbn [Str.prefix]. simpl String.length. rewrite IH. reflexivity.
Qed.

Lemma prefix_append n : forall s t,
  (n <= String.length s)%nat ->
  Str.prefix n (String.append (Str.prefix n s) t) = Str.prefix n s.
Proof.
  induction n as [| n IH]; intros [| c s] t H; try reflexivity.
  - simpl in H. lia.
  - cbn [Str.prefix]. 
    change (String.append (String c (Str.prefix n s)) t)
      with (String c (String.append (Str.prefix n s) t)).
    cbn [Str.prefix]. rewrite IH; [reflexivity|]. simpl in H. lia.
Qed.

(** X21: the text shown by [create_ocr_embed]. Up to 1000 characters it is
    the text itself; beyond that it has exactly 1003 characters (so a text
    of 1001 or 1002 characters is shown longer than it is); in both cases
    its first 1000 characters are those of the text. *)
Theorem display_text_truncates (text : string) :
  Str.len (DiscordOCRBot.display_text text)
  = (if (Str.len text >? 1000)%Z then 1003%Z else Str.len text)
  /\ Str.prefix 1000 (DiscordOCRBot.display_text text) = Str.prefix 1000 text.
Proof.
  unfold DiscordOCRBot.display_text, Str.len.
  destruct (Z.gtb_spec (Z.of_nat (String.length text)) 1000) as [Hlong | Hshort].
  - split.
    + rewrite string_length_append, prefix_length.
      change (String.length "...") with 3%nat. lia.
    + apply prefix_append. lia.
  - split; reflexivity.
Qed.
